(** * networkctl: link enumeration, gateway resolution and the LLDP
      neighbor store

    A shallow embedding of the data-gathering core of
    [src/network/networkctl.c]: [decode_link], [acquire_link_info],
    [ieee_oui], [get_gateway_description], [dump_gateways],
    [dump_address_labels], [open_lldp_neighbors], [next_lldp_neighbor],
    [dump_lldp_neighbors], [link_lldp_status] and the loop of
    [link_status] around [link_status_one].

    Conventions of the embedding.
    - A C function returning a negative errno [-e] on failure returns
      [Err e]; a non-negative return is [Ok v], with [v] carrying what the
      function wrote through its out-parameters.
    - The heap is not modelled: [new], [strdup], [GREEDY_REALLOC],
      [asprintf] and the table cell allocators always succeed, so the
      [-ENOMEM] exits of the source are absent.
    - Memory the source reads before writing it (fresh array slots, an
      unassigned local) is an explicit argument holding whatever was there. *)

From Stdlib Require Import ZArith List String Ascii Bool Lia.
From Stdlib Require Import Permutation Sorted DecimalString.
From Stdlib.Strings Require Import Byte.
Import ListNotations.
Open Scope Z_scope.

(** ** Error codes and fallible results *)

(** A negative return value [-e] of a C function is [Err e]; the codes are
    those of the Linux [errno.h]. *)
Definition errno : Type := positive.

Definition ENOENT : errno := 2%positive.
Definition EIO : errno := 5%positive.
Definition ENOMEM : errno := 12%positive.
Definition EACCES : errno := 13%positive.
Definition EINVAL : errno := 22%positive.
Definition ENODATA : errno := 61%positive.
Definition EBADMSG : errno := 74%positive.
Definition EAFNOSUPPORT : errno := 97%positive.

Definition errno_eqb (a b : errno) : bool := Pos.eqb a b.

Inductive res (A : Type) : Type :=
| Ok (a : A)
| Err (e : errno).
Arguments Ok {A} a.
Arguments Err {A} e.

Definition bind {A B : Type} (c : res A) (k : A -> res B) : res B :=
  match c with
  | Ok a => k a
  | Err e => Err e
  end.

(** [r = f(...); if (r < 0) return r;] *)
Notation "'try' x <- c ;; k" := (bind c (fun x => k))
  (at level 61, x name, c at next level, right associativity).

Definition is_ok {A : Type} (c : res A) : bool :=
  match c with Ok _ => true | Err _ => false end.

(** ** Constants of the kernel headers *)

Definition RTM_NEWLINK : Z := 16.
Definition RTM_NEWNEIGH : Z := 28.
Definition AF_INET : Z := 2.
Definition AF_INET6 : Z := 10.
Definition IFNAMSIZ : nat := 16.

Definition IFLA_ADDRESS : Z := 1.
Definition IFLA_IFNAME : Z := 3.
Definition IFLA_MTU : Z := 4.
Definition IFLA_NUM_TX_QUEUES : Z := 31.
Definition IFLA_NUM_RX_QUEUES : Z := 32.
Definition IFLA_MIN_MTU : Z := 50.
Definition IFLA_MAX_MTU : Z := 51.
Definition NDA_DST : Z := 1.
Definition NDA_LLADDR : Z := 2.
Definition IFAL_ADDRESS : Z := 1.
Definition IFAL_LABEL : Z := 2.

(** ** Addresses *)

(** [struct ether_addr]: six octets. *)
Record ether_addr : Type := mk_ether_addr {
  octet0 : byte; octet1 : byte; octet2 : byte;
  octet3 : byte; octet4 : byte; octet5 : byte
}.

Definition ether_addr_octet (a : ether_addr) : list byte :=
  [octet0 a; octet1 a; octet2 a; octet3 a; octet4 a; octet5 a].

Definition ETHER_ADDR_NULL : ether_addr :=
  mk_ether_addr x00 x00 x00 x00 x00 x00.

Fixpoint bytes_eqb (a b : list byte) : bool :=
  match a, b with
  | [], [] => true
  | x :: a', y :: b' => Byte.eqb x y && bytes_eqb a' b'
  | _, _ => false
  end.

(** [memcmp(a, b, n) == 0] on two buffers of at least [n] bytes. *)
Definition memcmp_eq (a b : list byte) (n : nat) : bool :=
  bytes_eqb (firstn n a) (firstn n b).

(** [union in_addr_union]: sixteen bytes, of which [.in] is the first four
    and [.in6] all sixteen. *)
Definition in_addr_union : Type := list byte.

Definition IN_ADDR_NULL : in_addr_union := repeat x00 16.

Definition set_in (u : in_addr_union) (a : list byte) : in_addr_union :=
  firstn 4 a ++ skipn 4 u.

Definition set_in6 (u : in_addr_union) (a : list byte) : in_addr_union :=
  firstn 16 a ++ skipn 16 u.

(** ** The netlink transport *)

(** Modelled from the spec: the transport collaborator's response message
    ([sd_netlink_message], sd-netlink is not under src/).  A message is the
    outcome of each accessor the program calls on it: a type tag and typed
    field reads addressed by an attribute key, each either a value or an
    errno ([ENODATA] when the attribute is absent).  A failed read leaves
    its out-parameter as it was. *)
Record sd_netlink_message : Type := mk_message {
  sd_netlink_message_get_errno : res unit;
  sd_netlink_message_get_type : res Z;
  sd_rtnl_message_link_get_ifindex : res Z;
  sd_rtnl_message_link_get_type : res Z;
  sd_rtnl_message_neigh_get_family : res Z;
  sd_rtnl_message_neigh_get_ifindex : res Z;
  sd_rtnl_message_addrlabel_get_prefixlen : res Z;
  sd_netlink_message_read_string : Z -> res string;
  sd_netlink_message_read_u32 : Z -> res Z;
  sd_netlink_message_read_ether_addr : Z -> res ether_addr;
  sd_netlink_message_read_in_addr : Z -> res (list byte);
  sd_netlink_message_read_in6_addr : Z -> res (list byte)
}.

Inductive dump_request : Type :=
| RTM_GETLINK
| RTM_GETNEIGH (ifindex family : Z)
| RTM_GETADDRLABEL.

(** Modelled from the spec: the transport handle ([sd_netlink]): building a
    request, marking it as a dump and the call itself can each fail; the
    call yields the response messages in delivery order. *)
Record sd_netlink : Type := mk_netlink {
  sd_rtnl_message_new : dump_request -> res unit;
  sd_netlink_message_request_dump : dump_request -> res unit;
  sd_netlink_call : dump_request -> res (list sd_netlink_message)
}.

(** ** Link records *)

Record LinkInfo : Type := mk_LinkInfo {
  name : string;
  ifindex : Z;
  iftype : Z;
  mac_address : ether_addr;
  mtu : Z;
  min_mtu : Z;
  max_mtu : Z;
  tx_queues : Z;
  rx_queues : Z;
  has_mac_address : bool;
  has_mtu : bool;
  has_tx_queues : bool;
  has_rx_queues : bool
}.

Definition set_name v (i : LinkInfo) : LinkInfo :=
  mk_LinkInfo v (ifindex i) (iftype i) (mac_address i) (mtu i) (min_mtu i)
    (max_mtu i) (tx_queues i) (rx_queues i) (has_mac_address i) (has_mtu i)
    (has_tx_queues i) (has_rx_queues i).
Definition set_ifindex v (i : LinkInfo) : LinkInfo :=
  mk_LinkInfo (name i) v (iftype i) (mac_address i) (mtu i) (min_mtu i)
    (max_mtu i) (tx_queues i) (rx_queues i) (has_mac_address i) (has_mtu i)
    (has_tx_queues i) (has_rx_queues i).
Definition set_iftype v (i : LinkInfo) : LinkInfo :=
  mk_LinkInfo (name i) (ifindex i) v (mac_address i) (mtu i) (min_mtu i)
    (max_mtu i) (tx_queues i) (rx_queues i) (has_mac_address i) (has_mtu i)
    (has_tx_queues i) (has_rx_queues i).
Definition set_mac_address v (i : LinkInfo) : LinkInfo :=
  mk_LinkInfo (name i) (ifindex i) (iftype i) v (mtu i) (min_mtu i)
    (max_mtu i) (tx_queues i) (rx_queues i) (has_mac_address i) (has_mtu i)
    (has_tx_queues i) (has_rx_queues i).
Definition set_mtu v (i : LinkInfo) : LinkInfo :=
  mk_LinkInfo (name i) (ifindex i) (iftype i) (mac_address i) v (min_mtu i)
    (max_mtu i) (tx_queues i) (rx_queues i) (has_mac_address i) (has_mtu i)
    (has_tx_queues i) (has_rx_queues i).
Definition set_min_mtu v (i : LinkInfo) : LinkInfo :=
  mk_LinkInfo (name i) (ifindex i) (iftype i) (mac_address i) (mtu i) v
    (max_mtu i) (tx_queues i) (rx_queues i) (has_mac_address i) (has_mtu i)
    (has_tx_queues i) (has_rx_queues i).
Definition set_max_mtu v (i : LinkInfo) : LinkInfo :=
  mk_LinkInfo (name i) (ifindex i) (iftype i) (mac_address i) (mtu i)
    (min_mtu i) v (tx_queues i) (rx_queues i) (has_mac_address i) (has_mtu i)
    (has_tx_queues i) (has_rx_queues i).
Definition set_tx_queues v (i : LinkInfo) : LinkInfo :=
  mk_LinkInfo (name i) (ifindex i) (iftype i) (mac_address i) (mtu i)
    (min_mtu i) (max_mtu i) v (rx_queues i) (has_mac_address i) (has_mtu i)
    (has_tx_queues i) (has_rx_queues i).
Definition set_rx_queues v (i : LinkInfo) : LinkInfo :=
  mk_LinkInfo (name i) (ifindex i) (iftype i) (mac_address i) (mtu i)
    (min_mtu i) (max_mtu i) (tx_queues i) v (has_mac_address i) (has_mtu i)
    (has_tx_queues i) (has_rx_queues i).
Definition set_has_mac_address v (i : LinkInfo) : LinkInfo :=
  mk_LinkInfo (name i) (ifindex i) (iftype i) (mac_address i) (mtu i)
    (min_mtu i) (max_mtu i) (tx_queues i) (rx_queues i) v (has_mtu i)
    (has_tx_queues i) (has_rx_queues i).
Definition set_has_mtu v (i : LinkInfo) : LinkInfo :=
  mk_LinkInfo (name i) (ifindex i) (iftype i) (mac_address i) (mtu i)
    (min_mtu i) (max_mtu i) (tx_queues i) (rx_queues i) (has_mac_address i) v
    (has_tx_queues i) (has_rx_queues i).
Definition set_has_tx_queues v (i : LinkInfo) : LinkInfo :=
  mk_LinkInfo (name i) (ifindex i) (iftype i) (mac_address i) (mtu i)
    (min_mtu i) (max_mtu i) (tx_queues i) (rx_queues i) (has_mac_address i)
    (has_mtu i) v (has_rx_queues i).
Definition set_has_rx_queues v (i : LinkInfo) : LinkInfo :=
  mk_LinkInfo (name i) (ifindex i) (iftype i) (mac_address i) (mtu i)
    (min_mtu i) (max_mtu i) (tx_queues i) (rx_queues i) (has_mac_address i)
    (has_mtu i) (has_tx_queues i) v.

(** [CMP(a->ifindex, b->ifindex)] *)
Definition link_info_compare (a b : LinkInfo) : Z :=
  if ifindex a <? ifindex b then -1
  else if ifindex a >? ifindex b then 1
  else 0.

(** [xsprintf(str, "%i", ifindex)] *)
Definition decimal_str (i : Z) : string :=
  NilZero.string_of_int (Z.to_int i).

(** [strscpy(dest, size, src)]: at most [size - 1] characters are copied. *)
Definition strscpy (size : nat) (src : string) : string :=
  substring 0 (size - 1) src.

(** A read through an out-parameter whose return code is only tested:
    the destination keeps its old value when the read fails. *)
Definition read_into {A : Type} (old : A) (c : res A) : A :=
  match c with Ok v => v | Err _ => old end.

Section Links.

(** [fnmatch(pattern, string, 0) == 0] of libc. *)
Variable fnmatch : string -> string -> bool.

(** Modelled from the spec: [strv_fnmatch] (strv.c is not under src/):
    the string matches at least one pattern of the list. *)
Definition strv_fnmatch (patterns : list string) (s : string) : bool :=
  existsb (fun p => fnmatch p s) patterns.

(** [patterns] is [None] for a NULL pointer, [Some l] for a string vector.
    [info] is the slot as found; on [Err] and on [Ok None] (return 0) the
    slot holds what it held before, on [Ok (Some i)] (return 1) it holds
    [i]. *)
Definition decode_link (m : sd_netlink_message) (info : LinkInfo)
    (patterns : option (list string)) : res (option LinkInfo) :=
  try type <- sd_netlink_message_get_type m ;;
  if negb (type =? RTM_NEWLINK) then Ok None else
  try ifindex <- sd_rtnl_message_link_get_ifindex m ;;
  try name <- sd_netlink_message_read_string m IFLA_IFNAME ;;
  if match patterns with
     | Some patterns =>
         let str := decimal_str ifindex in
         negb (strv_fnmatch patterns str) && negb (strv_fnmatch patterns name)
     | None => false
     end
  then Ok None else
  try iftype <- sd_rtnl_message_link_get_type m ;;
  let info := set_iftype iftype info in
  let info := set_name (strscpy (IFNAMSIZ + 1) name) info in
  let info := set_ifindex ifindex info in
  let r_mac := sd_netlink_message_read_ether_addr m IFLA_ADDRESS in
  let info := set_mac_address (read_into (mac_address info) r_mac) info in
  let info := set_has_mac_address
      (is_ok r_mac &&
       negb (memcmp_eq (ether_addr_octet (mac_address info))
                       (ether_addr_octet ETHER_ADDR_NULL) 6)) info in
  let r_mtu := sd_netlink_message_read_u32 m IFLA_MTU in
  let info := set_mtu (read_into (mtu info) r_mtu) info in
  let info := set_has_mtu (is_ok r_mtu && (mtu info >? 0)) info in
  let info :=
    if has_mtu info then
      let info := set_min_mtu
          (read_into (min_mtu info)
             (sd_netlink_message_read_u32 m IFLA_MIN_MTU)) info in
      set_max_mtu
          (read_into (max_mtu info)
             (sd_netlink_message_read_u32 m IFLA_MAX_MTU)) info
    else info in
  let r_rx := sd_netlink_message_read_u32 m IFLA_NUM_RX_QUEUES in
  let info := set_rx_queues (read_into (rx_queues info) r_rx) info in
  let info := set_has_rx_queues (is_ok r_rx && (rx_queues info >? 0)) info in
  let r_tx := sd_netlink_message_read_u32 m IFLA_NUM_TX_QUEUES in
  let info := set_tx_queues (read_into (tx_queues info) r_tx) info in
  let info := set_has_tx_queues (is_ok r_tx && (tx_queues info >? 0)) info in
  Ok (Some info).

(** Modelled from the spec: [typesafe_qsort] (libc [qsort] under a typed
    macro of sort-util.h, not under src/): the array is rearranged into
    ascending order of the comparison function.  Insertion from the right
    is one such rearrangement; the theorems below use only that the result
    is ordered and is a permutation of the input. *)
Fixpoint qsort_insert (cmp : LinkInfo -> LinkInfo -> Z) (x : LinkInfo)
    (l : list LinkInfo) : list LinkInfo :=
  match l with
  | [] => [x]
  | y :: l' => if cmp x y <=? 0 then x :: l else y :: qsort_insert cmp x l'
  end.

Definition typesafe_qsort (l : list LinkInfo)
    (cmp : LinkInfo -> LinkInfo -> Z) : list LinkInfo :=
  fold_right (qsort_insert cmp) [] l.

(** [(int) c] for a [size_t] count. *)
Definition int_of_size_t (c : nat) : Z :=
  (Z.of_nat c + 2 ^ 31) mod 2 ^ 32 - 2 ^ 31.

(** The [for] loop of [acquire_link_info].  [links] are the [c] slots filled
    so far; [fresh k] is what the unwritten slot [k] of the growing array
    holds when [decode_link] is handed it. *)
Fixpoint acquire_link_info_loop (fresh : nat -> LinkInfo)
    (patterns : option (list string)) (reply : list sd_netlink_message)
    (links : list LinkInfo) : res (list LinkInfo) :=
  match reply with
  | [] => Ok links
  | i :: reply' =>
      let c := List.length links in
      try r <- decode_link i (fresh c) patterns ;;
      match r with
      | Some info => acquire_link_info_loop fresh patterns reply' (links ++ [info])
      | None => acquire_link_info_loop fresh patterns reply' links
      end
  end.

(** Returns the count and the array handed back through [ret]. *)
Definition acquire_link_info (rtnl : sd_netlink) (fresh : nat -> LinkInfo)
    (patterns : option (list string)) : res (Z * list LinkInfo) :=
  try _ <- sd_rtnl_message_new rtnl RTM_GETLINK ;;
  try _ <- sd_netlink_message_request_dump rtnl RTM_GETLINK ;;
  try reply <- sd_netlink_call rtnl RTM_GETLINK ;;
  try links <- acquire_link_info_loop fresh patterns reply [] ;;
  let c := List.length links in
  let links := typesafe_qsort links link_info_compare in
  Ok (int_of_size_t c, links).

(** [argc > 1 ? argv + 1 : NULL], for an [argv] of [argc] strings. *)
Definition patterns_of_argv (argv : list string) : option (list string) :=
  if (Z.of_nat (List.length argv) >? 1) then Some (tl argv) else None.

End Links.

(** ** Gateways *)

(** Modelled from the spec: the vendor database collaborator ([sd_hwdb]):
    a keyed lookup from a modalias and a property name to a description,
    or an errno when there is no such entry. *)
Definition sd_hwdb : Type := string -> string -> res string.

Definition sd_hwdb_get (hwdb : sd_hwdb) (modalias key : string) : res string :=
  hwdb modalias key.

Definition hex_digit (n : N) : ascii :=
  match n with
  | 0 => "0" | 1 => "1" | 2 => "2" | 3 => "3" | 4 => "4" | 5 => "5"
  | 6 => "6" | 7 => "7" | 8 => "8" | 9 => "9" | 10 => "A" | 11 => "B"
  | 12 => "C" | 13 => "D" | 14 => "E" | _ => "F"
  end%N%char.

(** ["%02X"] of one octet. *)
Definition hex2 (b : byte) : string :=
  let n := Byte.to_N b in
  String (hex_digit (N.div n 16)) (String (hex_digit (N.modulo n 16)) EmptyString).

(** Modelled from the spec: [ETHER_ADDR_FORMAT_STR] applied to
    [ETHER_ADDR_FORMAT_VAL] (ether-addr-util.h is not under src/): the six
    octets as twelve upper-case hexadecimal digits, as the buffer
    ["OUI:XXYYXXYYXXYY"] of [ieee_oui] has room for. *)
Definition ether_addr_format (mac : ether_addr) : string :=
  concat EmptyString (map hex2 (ether_addr_octet mac)).

(** IEEE Organizationally Unique Identifier vendor string.  [hwdb] is
    [None] for a NULL handle. *)
Definition ieee_oui (hwdb : option sd_hwdb) (mac : ether_addr) : res string :=
  match hwdb with
  | None => Err EINVAL
  | Some hwdb =>
      (* skip commonly misused 00:00:00 (Xerox) prefix *)
      if memcmp_eq (ether_addr_octet mac) [x00; x00; x00] 3 then Err EINVAL
      else
        let modalias := ("OUI:" ++ ether_addr_format mac)%string in
        try description <- sd_hwdb_get hwdb modalias "ID_OUI_FROM_DATABASE" ;;
        Ok description
  end.

(** Modelled from the spec: [in_addr_equal] (in-addr-util.c is not under
    src/): equality of the four bytes of [.in] for [AF_INET], of the
    sixteen bytes of [.in6] for [AF_INET6]; any other family yields a
    non-zero error code, which is true in a condition. *)
Definition in_addr_equal (family : Z) (a b : in_addr_union) : bool :=
  if family =? AF_INET then memcmp_eq a b 4
  else if family =? AF_INET6 then memcmp_eq a b 16
  else true.

(** The [for] loop of [get_gateway_description]; each [continue] is the
    recursive call on the remaining messages. *)
Fixpoint get_gateway_description_loop (hwdb : option sd_hwdb)
    (ifindex family : Z) (gateway : in_addr_union)
    (reply : list sd_netlink_message) : res string :=
  match reply with
  | [] => Err ENODATA
  | m :: reply' =>
      let continue :=
        get_gateway_description_loop hwdb ifindex family gateway reply' in
      let gw := IN_ADDR_NULL in
      let mac := ETHER_ADDR_NULL in
      match sd_netlink_message_get_errno m with
      | Err _ => continue
      | Ok _ =>
      match sd_netlink_message_get_type m with
      | Err _ => continue
      | Ok type =>
      if negb (type =? RTM_NEWNEIGH) then continue else
      match sd_rtnl_message_neigh_get_family m with
      | Err _ => continue
      | Ok fam =>
      if negb (fam =? family) then continue else
      match sd_rtnl_message_neigh_get_ifindex m with
      | Err _ => continue
      | Ok ifi =>
      if (ifindex >? 0) && negb (ifi =? ifindex) then continue else
      match
        (if fam =? AF_INET then
           match sd_netlink_message_read_in_addr m NDA_DST with
           | Err _ => None
           | Ok a => Some (set_in gw a)
           end
         else if fam =? AF_INET6 then
           match sd_netlink_message_read_in6_addr m NDA_DST with
           | Err _ => None
           | Ok a => Some (set_in6 gw a)
           end
         else None)
      with
      | None => continue
      | Some gw =>
      if negb (in_addr_equal fam gw gateway) then continue else
      match sd_netlink_message_read_ether_addr m NDA_LLADDR with
      | Err _ => continue
      | Ok mac =>
      match ieee_oui hwdb mac with
      | Err _ => continue
      | Ok gateway_description => Ok gateway_description
      end end end end end end end
  end.

(** The source asserts [ifindex >= 0] and [family] in [AF_INET],
    [AF_INET6] on entry. *)
Definition get_gateway_description (rtnl : sd_netlink) (hwdb : option sd_hwdb)
    (ifindex family : Z) (gateway : in_addr_union) : res string :=
  let req := RTM_GETNEIGH ifindex family in
  try _ <- sd_rtnl_message_new rtnl req ;;
  try _ <- sd_netlink_message_request_dump rtnl req ;;
  try reply <- sd_netlink_call rtnl req ;;
  get_gateway_description_loop hwdb ifindex family gateway reply.

(** ** Tables handed to the presentation layer *)

(** Modelled from the spec: the cells of a [Table] (format-table.c is not
    under src/), in the order they were added; the header row comes
    first.  Alignment, colour and sort settings are presentation. *)
Inductive TableCell : Type :=
| TABLE_EMPTY
| TABLE_STRING (s : string)
| TABLE_UINT32 (v : Z)
| TABLE_IFINDEX (i : Z).

Definition Table : Type := list TableCell.

Definition table_new (header : list string) : Table := map TABLE_STRING header.

Definition table_add_cell (table : Table) (cell : TableCell) : Table :=
  table ++ [cell].

Module local_address.
(** [struct local_address] of local-addresses.h, the fields read here. *)
Record t : Type := mk { family : Z; ifindex : Z; address : in_addr_union }.
End local_address.

Section Gateways.

(** [local_gateways(rtnl, ifindex, AF_UNSPEC, &local)] of
    local-addresses.c. *)
Variable local_gateways : sd_netlink -> Z -> res (list local_address.t).
(** [in_addr_to_string(family, &address, &ret)] of in-addr-util.c. *)
Variable in_addr_to_string : Z -> in_addr_union -> res string.
(** [if_indextoname] of libc, [None] for a NULL return. *)
Variable if_indextoname : Z -> option string.

(** The body of the [for] loop of [dump_gateways] for entry [i]. *)
Definition dump_gateways_entry (rtnl : sd_netlink) (hwdb : option sd_hwdb)
    (ifindex : Z) (i : nat) (local_i : local_address.t) (table : Table)
    : res Table :=
  let table := table_add_cell table TABLE_EMPTY in
  let table :=
    table_add_cell table (TABLE_STRING (if Nat.eqb i 0 then "Gateway:" else EmptyString)) in
  try gateway <- in_addr_to_string (local_address.family local_i)
                   (local_address.address local_i) ;;
  let description :=
    match get_gateway_description rtnl hwdb (local_address.ifindex local_i)
            (local_address.family local_i) (local_address.address local_i) with
    | Ok d => Some d
    | Err _ => None
    end in
  let with_description :=
    match description with
    | Some d => Some (gateway ++ " (" ++ d ++ ")")%string
    | None => None
    end in
  let shown :=
    match with_description with Some s => s | None => gateway end in
  (* Show interface name for the entry if we show entries for all
     interfaces *)
  if ifindex <=? 0 then
    match if_indextoname (local_address.ifindex local_i) with
    | Some name =>
        Ok (table_add_cell table (TABLE_STRING (shown ++ " on " ++ name)%string))
    | None =>
        Ok (table_add_cell table
              (TABLE_STRING (shown ++ " on %" ++
                             decimal_str (local_address.ifindex local_i))%string))
    end
  else Ok (table_add_cell table (TABLE_STRING shown)).

Fixpoint dump_gateways_loop (rtnl : sd_netlink) (hwdb : option sd_hwdb)
    (ifindex : Z) (i : nat) (local : list local_address.t) (table : Table)
    : res Table :=
  match local with
  | [] => Ok table
  | local_i :: local' =>
      try table <- dump_gateways_entry rtnl hwdb ifindex i local_i table ;;
      dump_gateways_loop rtnl hwdb ifindex (S i) local' table
  end.

Definition dump_gateways (rtnl : sd_netlink) (hwdb : option sd_hwdb)
    (table : Table) (ifindex : Z) : res Table :=
  try local <- local_gateways rtnl ifindex ;;
  dump_gateways_loop rtnl hwdb ifindex 0 local table.

(** ** Address labels *)

(** The [for] loop of [dump_address_labels].  [label0 i] is what the local
    [label], declared without initialiser, holds when iteration [i]
    begins. *)
Fixpoint dump_address_labels_loop (label0 : nat -> Z) (i : nat)
    (reply : list sd_netlink_message) (table : Table) : Table :=
  match reply with
  | [] => table
  | m :: reply' =>
      let continue := dump_address_labels_loop label0 (S i) reply' table in
      let prefix := IN_ADDR_NULL in
      let label := label0 i in
      match sd_netlink_message_get_errno m with
      | Err _ => continue
      | Ok _ =>
      let r := sd_netlink_message_read_u32 m IFAL_LABEL in
      let label := read_into label r in
      if match r with
         | Err e => negb (errno_eqb e ENODATA)
         | Ok _ => false
         end
      then continue else
      match sd_netlink_message_read_in6_addr m IFAL_ADDRESS with
      | Err _ => continue
      | Ok a =>
      let prefix := set_in6 prefix a in
      match in_addr_to_string AF_INET6 prefix with
      | Err _ => continue
      | Ok pretty =>
      match sd_rtnl_message_addrlabel_get_prefixlen m with
      | Err _ => continue
      | Ok prefixlen =>
      let table := table_add_cell table (TABLE_UINT32 label) in
      let table :=
        table_add_cell table
          (TABLE_STRING (pretty ++ "/" ++ decimal_str prefixlen)%string) in
      dump_address_labels_loop label0 (S i) reply' table
      end end end end
  end.

(** Returns the table handed to [table_print]. *)
Definition dump_address_labels (rtnl : sd_netlink) (label0 : nat -> Z)
    : res Table :=
  try _ <- sd_rtnl_message_new rtnl RTM_GETADDRLABEL ;;
  try _ <- sd_netlink_message_request_dump rtnl RTM_GETADDRLABEL ;;
  try reply <- sd_netlink_call rtnl RTM_GETADDRLABEL ;;
  let table := table_new ["Label"; "Prefix/Prefixlen"]%string in
  Ok (dump_address_labels_loop label0 0 reply table).

End Gateways.

(** ** The LLDP neighbor store *)

(** A stdio stream over a regular file, read without I/O error: the bytes
    not yet read and the end-of-file indicator. *)
Record FILE : Type := mk_FILE { unread : list byte; at_eof : bool }.

(** [fread(buf, 1, n, f)]: the bytes read are [n] when that many remain,
    all the remaining ones otherwise, which also sets the end-of-file
    indicator. *)
Definition fread (n : nat) (f : FILE) : list byte * FILE :=
  let got := firstn n (unread f) in
  (got, mk_FILE (skipn n (unread f))
                (at_eof f || (List.length got <? n)%nat)).

Definition feof (f : FILE) : bool := at_eof f.

(** [le64toh] of the eight bytes of a [le64_t] as they lie in the file. *)
Definition le64toh (u : list byte) : Z :=
  fold_right (fun b acc => Z.of_N (Byte.to_N b) + 256 * acc) 0 u.

(** Modelled from the spec: the filesystem, as the outcome of
    [fopen(path, "re")]: the file's bytes or the errno. *)
Definition filesystem : Type := string -> res (list byte).

Definition open_lldp_neighbors (fs : filesystem) (ifindex : Z) : res FILE :=
  let p := ("/run/systemd/netif/lldp/" ++ decimal_str ifindex)%string in
  match fs p with
  | Err e => Err e
  | Ok bytes => Ok (mk_FILE bytes false)
  end.

(** Modelled from the spec: a decoded neighbor-discovery record
    ([sd_lldp_neighbor] of sd-lldp, not under src/) as what its getters
    yield: every field independently optional. *)
Record sd_lldp_neighbor : Type := mk_neighbor {
  sd_lldp_neighbor_get_chassis_id_as_string : option string;
  sd_lldp_neighbor_get_port_id_as_string : option string;
  sd_lldp_neighbor_get_system_name : option string;
  sd_lldp_neighbor_get_port_description : option string;
  sd_lldp_neighbor_get_enabled_capabilities : option Z
}.

(** [strna]: the string, or ["n/a"] for NULL. *)
Definition strna (s : option string) : string :=
  match s with Some s => s | None => "n/a"%string end.

(** [isempty]: NULL or the empty string. *)
Definition isempty (s : option string) : bool :=
  match s with
  | None => true
  | Some s => (String.length s =? 0)%nat
  end.

(** What glibc's [%s] prints for a possibly NULL argument. *)
Definition printf_s (s : option string) : string :=
  match s with Some s => s | None => "(null)"%string end.

(** ["%-16s"] and the like: left-justified in a field of [width]. *)
Definition pad (width : nat) (s : string) : string :=
  (s ++ concat EmptyString (repeat " " (width - String.length s)))%string.

Definition lldp_capabilities_to_string (x : Z) : string :=
  let characters :=
    ["o"; "p"; "b"; "w"; "r"; "t"; "d"; "a"; "c"; "s"; "m"]%char in
  string_of_list_ascii
    (map (fun ic : nat * ascii =>
            if Z.land x (Z.shiftl 1 (Z.of_nat (fst ic))) =? 0
            then "."%char else snd ic)
         (combine (seq 0 (List.length characters)) characters)).

Section Lldp.

(** [sd_lldp_neighbor_from_raw(ret, raw, size)] of sd-lldp. *)
Variable sd_lldp_neighbor_from_raw : list byte -> res sd_lldp_neighbor.
(** [ellipsize(s, width, 100)] of string-util.c. *)
Variable ellipsize : string -> nat -> string.

(** Returns 1 with the record ([Ok (Some n)]), 0 at the end of the
    stream ([Ok None]) or an errno, and the stream as it is left. *)
Definition next_lldp_neighbor (f : FILE)
    : res (option sd_lldp_neighbor) * FILE :=
  let '(u, f) := fread 8 f in
  let l := List.length u in
  if (l =? 0)%nat && feof f then (Ok None, f)
  else if negb (l =? 8)%nat then (Err EBADMSG, f)
  (* each LLDP packet is at most MTU size, but let's allow up to 4KiB just
     in case *)
  else if le64toh u >=? 4096 then (Err EBADMSG, f)
  else
    let '(raw, f) := fread (Z.to_nat (le64toh u)) f in
    if negb (Z.of_nat (List.length raw) =? le64toh u) then (Err EBADMSG, f)
    else
      match sd_lldp_neighbor_from_raw raw with
      | Err e => (Err e, f)
      | Ok n => (Ok (Some n), f)
      end.

(** The [for (;;)] loop of [dump_lldp_neighbors].  Every round that goes
    on has consumed a length prefix, so [fuel] above the number of unread
    bytes is never used up.  Returns the code and the table as it is
    left. *)
Fixpoint dump_lldp_neighbors_loop (fuel : nat) (prefix : string) (f : FILE)
    (c : Z) (table : Table) : res Z * Table :=
  match fuel with
  | O => (Ok c, table)
  | S fuel =>
      match next_lldp_neighbor f with
      | (Err e, _) => (Err e, table)
      | (Ok None, _) => (Ok c, table)
      | (Ok (Some n), f) =>
          let table := table_add_cell table TABLE_EMPTY in
          let table :=
            table_add_cell table (TABLE_STRING (if c =? 0 then prefix else EmptyString)) in
          let system_name := sd_lldp_neighbor_get_system_name n in
          let port_id := sd_lldp_neighbor_get_port_id_as_string n in
          let port_description := sd_lldp_neighbor_get_port_description n in
          let str :=
            (strna system_name ++ " on port " ++ strna port_id ++
             (if isempty port_description then EmptyString else " (") ++
             printf_s port_description ++
             (if isempty port_description then EmptyString else ")"))%string in
          let table := table_add_cell table (TABLE_STRING str) in
          dump_lldp_neighbors_loop fuel prefix f (c + 1) table
      end
  end.

(** The source asserts [ifindex > 0] on entry. *)
Definition dump_lldp_neighbors (fs : filesystem) (table : Table)
    (prefix : string) (ifindex : Z) : res Z * Table :=
  match open_lldp_neighbors fs ifindex with
  | Err e => if errno_eqb e ENOENT then (Ok 0, table) else (Err e, table)
  | Ok f =>
      dump_lldp_neighbors_loop (S (List.length (unread f))) prefix f 0 table
  end.

(** What [link_lldp_status] has printed and counted so far: the lines
    written to stdout, the union [all] of the capability masks and the
    number [m] of neighbors. *)
Record lldp_status : Type := mk_lldp_status {
  stdout : list string;
  all : Z;
  m : Z
}.

(** One neighbor line of [link_lldp_status]. *)
Definition lldp_line (link_name : string) (n : sd_lldp_neighbor)
    : string * option Z :=
  let chassis_id :=
    option_map (fun s => ellipsize s 17)
      (sd_lldp_neighbor_get_chassis_id_as_string n) in
  let port_id :=
    option_map (fun s => ellipsize s 17)
      (sd_lldp_neighbor_get_port_id_as_string n) in
  let system_name :=
    option_map (fun s => ellipsize s 16) (sd_lldp_neighbor_get_system_name n) in
  let port_description :=
    option_map (fun s => ellipsize s 16)
      (sd_lldp_neighbor_get_port_description n) in
  let cc := sd_lldp_neighbor_get_enabled_capabilities n in
  let capabilities := option_map lldp_capabilities_to_string cc in
  ((pad 16 link_name ++ " " ++ pad 17 (strna chassis_id) ++ " " ++
    pad 16 (strna system_name) ++ " " ++ pad 11 (strna capabilities) ++ " " ++
    pad 17 (strna port_id) ++ " " ++ pad 16 (strna port_description))%string,
   cc).

(** The inner [for (;;)] loop of [link_lldp_status]: a read failure is
    logged and leaves the loop. *)
Fixpoint link_lldp_status_file (fuel : nat) (link_name : string) (f : FILE)
    (st : lldp_status) : lldp_status :=
  match fuel with
  | O => st
  | S fuel =>
      match next_lldp_neighbor f with
      | (Err _, _) => st
      | (Ok None, _) => st
      | (Ok (Some n), f) =>
          let '(line, cc) := lldp_line link_name n in
          let all := match cc with Some cc => Z.lor (all st) cc | None => all st end in
          link_lldp_status_file fuel link_name f
            (mk_lldp_status (stdout st ++ [line]) all (m st + 1))
      end
  end.

(** The loop of [link_lldp_status] over the links. *)
Fixpoint link_lldp_status_loop (fs : filesystem) (links : list LinkInfo)
    (st : lldp_status) : lldp_status :=
  match links with
  | [] => st
  | link :: links' =>
      match open_lldp_neighbors fs (ifindex link) with
      | Err _ => link_lldp_status_loop fs links' st
      | Ok f =>
          link_lldp_status_loop fs links'
            (link_lldp_status_file (S (List.length (unread f))) (name link) f st)
      end
  end.

Definition lldp_header : string :=
  (pad 16 "LINK" ++ " " ++ pad 17 "CHASSIS ID" ++ " " ++ pad 16 "SYSTEM NAME"
   ++ " " ++ pad 11 "CAPS" ++ " " ++ pad 17 "PORT ID" ++ " " ++
   pad 16 "PORT DESCRIPTION")%string.

(** [link_lldp_status] up to the closing legend, which is printed from
    [all] and [m].  [argv] is the verb's argument vector, [arg_legend] the
    global of that name. *)
Definition link_lldp_status (fnmatch : string -> string -> bool)
    (rtnl : res sd_netlink) (fresh : nat -> LinkInfo) (fs : filesystem)
    (arg_legend : bool) (argv : list string) : res lldp_status :=
  try rtnl <- rtnl ;;
  try cl <- acquire_link_info fnmatch rtnl fresh (patterns_of_argv argv) ;;
  let '(c, links) := cl in
  if c <? 0 then Err (Z.to_pos (- c)) else
  let links := firstn (Z.to_nat c) links in
  let st := mk_lldp_status (if arg_legend then [lldp_header] else []) 0 0 in
  Ok (link_lldp_status_loop fs links st).

End Lldp.

(** ** The per-link status *)

(** What [link_status] writes to stdout: the newline between two links and
    the tables handed to [table_print]. *)
Inductive printed : Type :=
| Newline
| Printed (table : Table).

Section LinkStatus.

Variable sd_lldp_neighbor_from_raw : list byte -> res sd_lldp_neighbor.

(** The part of [link_status_one] before its last step, which gathers the
    state, device and address rows of the link: the table it has built on
    reaching the call of [dump_lldp_neighbors], or the error it has
    returned with before. *)
Variable status_table : LinkInfo -> res Table.

(** [link_status_one] from that call on: the table it prints, or the
    error it returns without printing. *)
Definition link_status_one (fs : filesystem) (info : LinkInfo) : res Table :=
  try table <- status_table info ;;
  let '(r, table) :=
    dump_lldp_neighbors sd_lldp_neighbor_from_raw fs table "Connected To:"
      (ifindex info) in
  try _ <- r ;;
  Ok table.

(** The loop of [link_status] over the links from position [i] on; the
    return value of [link_status_one] is not looked at. *)
Fixpoint link_status_loop (fs : filesystem) (i : nat) (links : list LinkInfo)
    : list printed :=
  match links with
  | [] => []
  | info :: links' =>
      (if (0 <? i)%nat then [Newline] else []) ++
      match link_status_one fs info with
      | Ok table => [Printed table]
      | Err _ => []
      end ++
      link_status_loop fs (S i) links'
  end.

End LinkStatus.

(** ** Vocabulary of the statements *)

(** [P] passes the filter of [decode_link]: no pattern list at all, or a
    list of which some pattern matches the index in decimal or the name. *)
Definition passes_filter (fnmatch : string -> string -> bool)
    (patterns : option (list string)) (index : Z) (ifname : string) : bool :=
  match patterns with
  | None => true
  | Some l =>
      existsb (fun p => fnmatch p (decimal_str index)) l ||
      existsb (fun p => fnmatch p ifname) l
  end.

(** The record [decode_link] leaves in a slot that held [info], from the
    three mandatory values and the optional attributes of [m], field by
    field. *)
Definition decoded (m : sd_netlink_message) (info : LinkInfo)
    (index : Z) (ifname : string) (type : Z) : LinkInfo :=
  let r_mac := sd_netlink_message_read_ether_addr m IFLA_ADDRESS in
  let r_mtu := sd_netlink_message_read_u32 m IFLA_MTU in
  let r_rx := sd_netlink_message_read_u32 m IFLA_NUM_RX_QUEUES in
  let r_tx := sd_netlink_message_read_u32 m IFLA_NUM_TX_QUEUES in
  let mac := read_into (mac_address info) r_mac in
  let mtu_v := read_into (mtu info) r_mtu in
  let rx := read_into (rx_queues info) r_rx in
  let tx := read_into (tx_queues info) r_tx in
  let mtu_ok := is_ok r_mtu && (mtu_v >? 0) in
  mk_LinkInfo (strscpy (IFNAMSIZ + 1) ifname) index type mac mtu_v
    (if mtu_ok
     then read_into (min_mtu info) (sd_netlink_message_read_u32 m IFLA_MIN_MTU)
     else min_mtu info)
    (if mtu_ok
     then read_into (max_mtu info) (sd_netlink_message_read_u32 m IFLA_MAX_MTU)
     else max_mtu info)
    tx rx
    (is_ok r_mac &&
     negb (memcmp_eq (ether_addr_octet mac) (ether_addr_octet ETHER_ADDR_NULL) 6))
    mtu_ok
    (is_ok r_tx && (tx >? 0))
    (is_ok r_rx && (rx >? 0)).

(** The messages of a dump that are link records: those tagged
    [RTM_NEWLINK]. *)
Definition is_newlink (m : sd_netlink_message) : bool :=
  match sd_netlink_message_get_type m with
  | Ok t => t =? RTM_NEWLINK
  | Err _ => false
  end.

(** The message's index in decimal or its name matches some pattern of
    [patterns], or there is no pattern list. *)
Definition selected (fnmatch : string -> string -> bool)
    (patterns : option (list string)) (m : sd_netlink_message) : bool :=
  match sd_rtnl_message_link_get_ifindex m,
        sd_netlink_message_read_string m IFLA_IFNAME with
  | Ok index, Ok ifname => passes_filter fnmatch patterns index ifname
  | _, _ => false
  end.

(** The filter of enumeration in the words of the specification: under
    the pattern list [P] of the command line a link is retained when [P]
    is empty, or when some pattern of [P] matches its index rendered in
    decimal or its name. *)
Definition spec_retains (fnmatch : string -> string -> bool)
    (P : list string) (index : Z) (ifname : string) : bool :=
  match P with
  | [] => true
  | _ =>
      existsb (fun p => fnmatch p (decimal_str index) || fnmatch p ifname) P
  end.

(** The same for a link message, by the index and the name read from
    it. *)
Definition spec_retains_message (fnmatch : string -> string -> bool)
    (P : list string) (m : sd_netlink_message) : bool :=
  match sd_rtnl_message_link_get_ifindex m,
        sd_netlink_message_read_string m IFLA_IFNAME with
  | Ok index, Ok ifname => spec_retains fnmatch P index ifname
  | _, _ => false
  end.

(** [r] is a decoded record of [m]: what [decode_link] without filter
    writes for [m] into some slot. *)
Definition decodes_to (fnmatch : string -> string -> bool)
    (m : sd_netlink_message) (r : LinkInfo) : Prop :=
  exists info, decode_link fnmatch m info None = Ok (Some r).

(** Ascending interface index. *)
Definition ifindex_le (a b : LinkInfo) : Prop := ifindex a <= ifindex b.

(** The destination address of a neighbor entry of family [fam], laid out
    in a zeroed [in_addr_union] as the loop of [get_gateway_description]
    reads it. *)
Definition neigh_dst (m : sd_netlink_message) (fam : Z) : option in_addr_union :=
  if fam =? AF_INET then
    match sd_netlink_message_read_in_addr m NDA_DST with
    | Ok a => Some (set_in IN_ADDR_NULL a)
    | Err _ => None
    end
  else if fam =? AF_INET6 then
    match sd_netlink_message_read_in6_addr m NDA_DST with
    | Ok a => Some (set_in6 IN_ADDR_NULL a)
    | Err _ => None
    end
  else None.

(** The entry's family is the target's and its destination address equals
    the target address. *)
Definition neigh_matches (family : Z) (gateway : in_addr_union)
    (m : sd_netlink_message) : bool :=
  match sd_rtnl_message_neigh_get_family m with
  | Ok fam =>
      (fam =? family) &&
      match neigh_dst m fam with
      | Some gw => in_addr_equal fam gw gateway
      | None => false
      end
  | Err _ => false
  end.

(** The entry passes every check of the loop of [get_gateway_description]:
    it carries no error, is tagged [RTM_NEWNEIGH], matches family and
    address, belongs to the interface asked for when one is, and its
    hardware address [mac] is readable and has the vendor description
    [d]. *)
Definition usable_entry (hwdb : option sd_hwdb) (ifindex family : Z)
    (gateway : in_addr_union) (m : sd_netlink_message)
    (mac : ether_addr) (d : string) : Prop :=
  is_ok (sd_netlink_message_get_errno m) = true /\
  sd_netlink_message_get_type m = Ok RTM_NEWNEIGH /\
  neigh_matches family gateway m = true /\
  (exists ifi, sd_rtnl_message_neigh_get_ifindex m = Ok ifi /\
               (ifindex > 0 -> ifi = ifindex)) /\
  sd_netlink_message_read_ether_addr m NDA_LLADDR = Ok mac /\
  ieee_oui hwdb mac = Ok d.

(** What [dump_gateways] appends to the shown gateway when it lists the
    gateways of all interfaces. *)
Definition on_interface (if_indextoname : Z -> option string)
    (ifindex owner : Z) : string :=
  if ifindex <=? 0 then
    match if_indextoname owner with
    | Some name => (" on " ++ name)%string
    | None => (" on %" ++ decimal_str owner)%string
    end
  else EmptyString.

Definition byte_of_Z (z : Z) : byte :=
  match Byte.of_N (Z.to_N (z mod 256)) with
  | Some b => b
  | None => x00
  end.

(** The [k] low-order bytes of [n], least significant first. *)
Fixpoint htole (k : nat) (n : Z) : list byte :=
  match k with
  | O => []
  | S k => byte_of_Z n :: htole k (n / 256)
  end.

Definition htole64 (n : Z) : list byte := htole 8 n.

(** One record of the store file: the length of the raw frame as a
    little-endian 64-bit number, then the frame. *)
Definition store_frame (raw : list byte) : list byte :=
  htole64 (Z.of_nat (List.length raw)) ++ raw.

Definition store_image (frames : list (list byte)) : list byte :=
  flat_map store_frame frames.

(** The return value of [next_lldp_neighbor] for a frame read in full. *)
Definition frame_outcome (r : res sd_lldp_neighbor)
    : res (option sd_lldp_neighbor) :=
  match r with
  | Ok n => Ok (Some n)
  | Err e => Err e
  end.

(** What one neighbor adds to the state of [link_lldp_status]: its line,
    its capabilities and one more neighbor counted. *)
Definition count_neighbor (ellipsize : string -> nat -> string)
    (link_name : string) (st : lldp_status) (n : sd_lldp_neighbor)
    : lldp_status :=
  mk_lldp_status
    (stdout st ++ [fst (lldp_line ellipsize link_name n)])
    (match snd (lldp_line ellipsize link_name n) with
     | Some cc => Z.lor (all st) cc
     | None => all st
     end)
    (m st + 1).

(** The frames of a store file and the records they decode to: every
    frame is shorter than 4 KiB and its decoding succeeds. *)
Definition well_stored (from_raw : list byte -> res sd_lldp_neighbor)
    (frames : list (list byte)) (ns : list sd_lldp_neighbor) : Prop :=
  Forall2 (fun raw n =>
             from_raw raw = Ok n /\ Z.of_nat (List.length raw) < 4096)
          frames ns.

(** What the store file of a link holds when nothing is wrong with it:
    there is no file, hence no record, or the file is the image of
    well-stored frames, decoding to [ns], and nothing else. *)
Definition store_holds (from_raw : list byte -> res sd_lldp_neighbor)
    (fs : filesystem) (link : LinkInfo) (ns : list sd_lldp_neighbor) : Prop :=
  (open_lldp_neighbors fs (ifindex link) = Err ENOENT /\ ns = []) \/
  (exists frames,
     open_lldp_neighbors fs (ifindex link) =
       Ok (mk_FILE (store_image frames) false) /\
     well_stored from_raw frames ns).

(** The state of [link_lldp_status] after the neighbors [nss] of the
    links [links] have been printed and counted, link after link. *)
Definition count_links (ellipsize : string -> nat -> string)
    (links : list LinkInfo) (nss : list (list sd_lldp_neighbor))
    (st : lldp_status) : lldp_status :=
  fold_left
    (fun st ln => fold_left (count_neighbor ellipsize (name (fst ln))) (snd ln) st)
    (combine links nss) st.

(** The three cells [dump_lldp_neighbors] adds for one neighbor; the
    first neighbor of a file carries the prefix. *)
Definition neighbor_row (prefix : string) (first : bool) (n : sd_lldp_neighbor)
    : list TableCell :=
  let system_name := sd_lldp_neighbor_get_system_name n in
  let port_id := sd_lldp_neighbor_get_port_id_as_string n in
  let port_description := sd_lldp_neighbor_get_port_description n in
  [TABLE_EMPTY;
   TABLE_STRING (if first then prefix else EmptyString);
   TABLE_STRING
     (strna system_name ++ " on port " ++ strna port_id ++
      (if isempty port_description then EmptyString else " (") ++
      printf_s port_description ++
      (if isempty port_description then EmptyString else ")"))%string].

Fixpoint neighbor_rows (prefix : string) (first : bool)
    (ns : list sd_lldp_neighbor) : list TableCell :=
  match ns with
  | [] => []
  | n :: ns => neighbor_row prefix first n ++ neighbor_rows prefix false ns
  end.

(** The tables [tables] followed each by the rows of the neighbors of
    its link. *)
Definition with_neighbors (prefix : string) (tables : list Table)
    (nss : list (list sd_lldp_neighbor)) : list Table :=
  map (fun tn => fst tn ++ neighbor_rows prefix true (snd tn))
      (combine tables nss).

(** What [link_status] writes when it prints the tables [tables] for
    consecutive links, the first of them at position [i]. *)
Fixpoint print_tables (i : nat) (tables : list Table) : list printed :=
  match tables with
  | [] => []
  | t :: tables =>
      (if (0 <? i)%nat then [Newline] else []) ++
      [Printed t] ++ print_tables (S i) tables
  end.

(** ** Concrete inputs used to exercise the statements *)

Definition no_attr {A : Type} : Z -> res A := fun _ => Err ENODATA.

(** An [RTM_NEWLINK] message with the given header fields and [IFLA_]
    attributes. *)
Definition link_message (index : Z) (ifname : res string) (type : res Z)
    (address : res ether_addr) (mtu_attr : res Z) : sd_netlink_message :=
  mk_message (Ok tt) (Ok RTM_NEWLINK) (Ok index) type
    (Err EINVAL) (Err EINVAL) (Err EINVAL)
    (fun k => if k =? IFLA_IFNAME then ifname else Err ENODATA)
    (fun k => if k =? IFLA_MTU then mtu_attr else Err ENODATA)
    (fun k => if k =? IFLA_ADDRESS then address else Err ENODATA)
    no_attr no_attr.

(** An [RTM_NEWNEIGH] message of family [AF_INET]. *)
Definition neigh_message (index : Z) (dst : list byte) (lladdr : res ether_addr)
    : sd_netlink_message :=
  mk_message (Ok tt) (Ok RTM_NEWNEIGH) (Err EINVAL) (Err EINVAL)
    (Ok AF_INET) (Ok index) (Err EINVAL)
    no_attr no_attr
    (fun k => if k =? NDA_LLADDR then lladdr else Err ENODATA)
    (fun k => if k =? NDA_DST then Ok dst else Err ENODATA)
    no_attr.

(** A transport answering every dump request with the same messages. *)
Definition netlink_replying (reply : list sd_netlink_message) : sd_netlink :=
  mk_netlink (fun _ => Ok tt) (fun _ => Ok tt) (fun _ => Ok reply).

(** An array slot holding recognisable leftovers. *)
Definition stale_slot : LinkInfo :=
  mk_LinkInfo "stale" 77 77 (mk_ether_addr x07 x07 x07 x07 x07 x07)
    77 77 77 77 77 true true true true.

(** A pattern matches only the string equal to it: [fnmatch] on patterns
    without wildcard characters. *)
Definition fnmatch_literal (pattern s : string) : bool := String.eqb pattern s.

(** Link messages of a small dump: [eth0] with an all-zero hardware
    address, the loopback without one, and a loopback message whose
    interface type cannot be read. *)
Definition eth0_message : sd_netlink_message :=
  link_message 2 (Ok "eth0"%string) (Ok 1) (Ok ETHER_ADDR_NULL) (Ok 1500).

Definition lo_message : sd_netlink_message :=
  link_message 1 (Ok "lo"%string) (Ok 772) (Err ENODATA) (Ok 65536).

Definition lo_untyped_message : sd_netlink_message :=
  link_message 1 (Ok "lo"%string) (Err EINVAL) (Err ENODATA) (Ok 65536).

Definition eth0_record : LinkInfo :=
  mk_LinkInfo "eth0" 2 1 ETHER_ADDR_NULL 1500 77 77 77 77
    false true false false.

Definition lo_record : LinkInfo :=
  mk_LinkInfo "lo" 1 772 (mk_ether_addr x07 x07 x07 x07 x07 x07) 65536 77 77
    77 77 false true false false.

(** The gateway scenario: target 192.0.2.1, neighbor entries on
    interface 3 for that address, and vendor databases. *)
Definition gateway_192_0_2_1 : in_addr_union :=
  [xc0; x00; x02; x01] ++ repeat x00 12.

Definition mac_unknown_vendor : ether_addr :=
  mk_ether_addr x00 x11 x22 x33 x44 x55.

Definition mac_known_vendor : ether_addr :=
  mk_ether_addr x00 xaa xbb xcc xdd xee.

Definition neigh_unknown_vendor : sd_netlink_message :=
  neigh_message 3 [xc0; x00; x02; x01] (Ok mac_unknown_vendor).

Definition neigh_known_vendor : sd_netlink_message :=
  neigh_message 3 [xc0; x00; x02; x01] (Ok mac_known_vendor).

(** A database that knows one prefix only. *)
Definition hwdb_acme : sd_hwdb :=
  fun modalias key =>
    if (String.eqb modalias "OUI:00AABBCCDDEE" &&
        String.eqb key "ID_OUI_FROM_DATABASE")%bool
    then Ok "Acme"%string
    else Err ENOENT.

(** Renderings used with the scenario: the one address it contains, and
    an interface table naming interface 3 only. *)
Definition show_192_0_2_1 : Z -> in_addr_union -> res string :=
  fun _ _ => Ok "192.0.2.1"%string.

Definition only_eth1 : Z -> option string :=
  fun i => if i =? 3 then Some "eth1"%string else None.

(** A stand-in frame decoder: an empty frame is refused, any other is a
    neighbor named after its first byte. *)
Definition neighbor_of_raw (raw : list byte) : res sd_lldp_neighbor :=
  match raw with
  | [] => Err EBADMSG
  | b :: _ =>
      Ok (mk_neighbor None (Some (hex2 b)) (Some "switch"%string) None (Some 4))
  end.

Definition no_ellipsis (s : string) (width : nat) : string := s.

(** The store scenario: the file of interface 5 declares a frame of ten
    bytes and ends after eight of them; the file of interface 6 holds one
    frame of two bytes; interface 7 has no file. *)
Definition lldp_files : filesystem :=
  fun path =>
    if String.eqb path "/run/systemd/netif/lldp/5" then
      Ok (htole64 10 ++ repeat x2a 8)
    else if String.eqb path "/run/systemd/netif/lldp/6" then
      Ok (store_frame [x01; x02])
    else Err ENOENT.

Definition link_named (index : Z) (ifname : string) : LinkInfo :=
  mk_LinkInfo ifname index 1 ETHER_ADDR_NULL 0 0 0 0 0 false false false false.

(** An address-label entry for the prefix ::1/128 whose [IFAL_LABEL]
    attribute is absent, and a rendering of that one prefix. *)
Definition in6_loopback : list byte := repeat x00 15 ++ [x01].

Definition addrlabel_without_label : sd_netlink_message :=
  mk_message (Ok tt) (Ok 72) (Err EINVAL) (Err EINVAL) (Err EINVAL)
    (Err EINVAL) (Ok 128)
    no_attr no_attr no_attr no_attr
    (fun k => if k =? IFAL_ADDRESS then Ok in6_loopback else Err ENODATA).

Definition show_in6_loopback : Z -> in_addr_union -> res string :=
  fun _ _ => Ok "::1"%string.

(** A local variable that was left holding [0xdeadbeef]. *)
Definition leftover_deadbeef : nat -> Z := fun _ => 3735928559.


(** The letters of [lldp_capabilities_to_string], by bit position. *)
Definition capability_letters : list ascii :=
  ["o"; "p"; "b"; "w"; "r"; "t"; "d"; "a"; "c"; "s"; "m"]%char.

(** A link message carrying only what is mandatory. *)
Definition plain_link_message (index : Z) (ifname : string) : sd_netlink_message :=
  link_message index (Ok ifname) (Ok 1) (Err ENODATA) (Err ENODATA).

(** The identity of a link record as the listings show it. *)
Definition link_key (r : LinkInfo) : Z * string * Z :=
  (ifindex r, name r, iftype r).

(** ** Further functions of networkctl.c *)

(** [dump_ifindexes].  [ifindexes] is [None] for a NULL pointer and
    otherwise the array from its first entry on; the array ends with an
    entry that is not positive, and the loop does not get past that
    entry. *)
Fixpoint dump_ifindexes_loop (prefix : string) (c : nat) (ifindexes : list Z)
    (table : Table) : Table :=
  match ifindexes with
  | [] => table
  | index :: ifindexes' =>
      if index >? 0 then
        let table := table_add_cell table TABLE_EMPTY in
        let table :=
          table_add_cell table
            (TABLE_STRING (if Nat.eqb c 0 then prefix else EmptyString)) in
        let table := table_add_cell table (TABLE_IFINDEX index) in
        dump_ifindexes_loop prefix (S c) ifindexes' table
      else table
  end.

Definition dump_ifindexes (table : Table) (prefix : string)
    (ifindexes : option (list Z)) : Table :=
  match ifindexes with
  | None => table
  | Some l =>
      match l with
      | [] => table
      | first :: _ =>
          if first <=? 0 then table else dump_ifindexes_loop prefix 0 l table
      end
  end.

Section LinkDelete.

(** [parse_ifindex_or_ifname] of socket-util.c. *)
Variable parse_ifindex_or_ifname : string -> res Z.

(** The order in which [SET_FOREACH] visits a set into which the given
    indices were put, in that order. *)
Variable set_order : list Z -> list Z.

(** [sd_rtnl_message_new_link(rtnl, &req, RTM_DELLINK, index)] and the
    [sd_netlink_call] of that request, the kernel having carried out the
    given deletions before. *)
Variable new_dellink : Z -> res unit.
Variable call_dellink : list Z -> Z -> res unit.

(** Modelled from the spec: [set_put] (set.h and hashmap.c are not under
    src/) on a set of integers held as the list of its members: a value
    already there is not added again. *)
Definition set_put (indexes : list Z) (index : Z) : list Z :=
  if existsb (Z.eqb index) indexes then indexes else indexes ++ [index].

Definition link_delete_send_message (deleted : list Z) (index : Z) : res unit :=
  try _ <- new_dellink index ;;
  try _ <- call_dellink deleted index ;;
  Ok tt.

(** The first loop of [link_delete], over [argv[1]] to [argv[argc - 1]]. *)
Fixpoint link_delete_resolve (args : list string) (indexes : list Z)
    : res (list Z) :=
  match args with
  | [] => Ok indexes
  | arg :: args' =>
      try index <- parse_ifindex_or_ifname arg ;;
      link_delete_resolve args' (set_put indexes index)
  end.

(** The second loop: the return code and the deletions carried out. *)
Fixpoint link_delete_send (todo : list Z) (deleted : list Z)
    : res unit * list Z :=
  match todo with
  | [] => (Ok tt, deleted)
  | index :: todo' =>
      match link_delete_send_message deleted index with
      | Err e => (Err e, deleted)
      | Ok _ => link_delete_send todo' (deleted ++ [index])
      end
  end.

(** [link_delete]: [rtnl] is the outcome of [sd_netlink_open]. *)
Definition link_delete (rtnl : res unit) (argv : list string)
    : res unit * list Z :=
  match rtnl with
  | Err e => (Err e, [])
  | Ok _ =>
      match link_delete_resolve (tl argv) [] with
      | Err e => (Err e, [])
      | Ok indexes => link_delete_send (set_order indexes) []
      end
  end.

End LinkDelete.

(** A transport on which every call fails. *)
Definition netlink_failing : sd_netlink :=
  mk_netlink (fun _ => Ok tt) (fun _ => Ok tt) (fun _ => Err EIO).

(** One default gateway, 192.0.2.1 on interface 3. *)
Definition one_gateway : sd_netlink -> Z -> res (list local_address.t) :=
  fun _ _ => Ok [local_address.mk AF_INET 3 gateway_192_0_2_1].

(** An address-label entry for ::1/128 with label 7. *)
Definition addrlabel_with_label : sd_netlink_message :=
  mk_message (Ok tt) (Ok 72) (Err EINVAL) (Err EINVAL) (Err EINVAL)
    (Err EINVAL) (Ok 128)
    no_attr
    (fun k => if k =? IFAL_LABEL then Ok 7 else Err ENODATA)
    no_attr no_attr
    (fun k => if k =? IFAL_ADDRESS then Ok in6_loopback else Err ENODATA).

(** Arguments of [delete] resolved by name for two devices. *)
Definition resolve_two_names (arg : string) : res Z :=
  if String.eqb arg "br0" then Ok 4
  else if String.eqb arg "dummy0" then Ok 9
  else Err ENOENT.

(** The interface indices a table shows in cells of that type, in
    order. *)
Definition ifindex_cells (table : Table) : list Z :=
  flat_map (fun cell => match cell with TABLE_IFINDEX i => [i] | _ => [] end)
    table.

(** The newlines and the tables among what was written. *)
Definition newlines (out : list printed) : nat :=
  List.length
    (filter (fun p => match p with Newline => true | Printed _ => false end) out).

Definition tables (out : list printed) : nat :=
  List.length
    (filter (fun p => match p with Newline => false | Printed _ => true end) out).

(** ** The capability legend *)

(** The string ["\n"]. *)
Definition nl : string := String "010"%char EmptyString.

Definition legend_table : list string :=
  ["o - Other";
   "p - Repeater";
   "b - Bridge";
   "w - WLAN Access Point";
   "r - Router";
   "t - Telephone";
   "d - DOCSIS cable device";
   "a - Station";
   "c - Customer VLAN";
   "s - Service VLAN";
   "m - Two-port MAC Relay (TPMR)"]%string.

(** The [for] loop of [lldp_capabilities_legend] from entry [i] on, as the
    text it writes.  [w] is an [unsigned] to which the [int] returned by
    [printf], the number of bytes written, is added; the comparison with
    [cols] is made on a [size_t] sum. *)
Fixpoint lldp_capabilities_legend_loop (cols : Z) (arg_all : bool) (x : Z)
    (i : nat) (table : list string) (w : Z) : string :=
  match table with
  | [] => EmptyString
  | table_i :: table' =>
      if negb (Z.land x (Z.shiftl 1 (Z.of_nat i)) =? 0) || arg_all then
        let newline :=
          w + Z.of_nat (String.length table_i) + (if w =? 0 then 0 else 2)
          >? cols in
        let w := if newline then 0 else w in
        let written :=
          String.append (if newline then nl else EmptyString)
            (String.append (if w =? 0 then EmptyString else "; "%string)
               table_i) in
        let w := (w + Z.of_nat (String.length written)) mod 2 ^ 32 in
        (written ++
         lldp_capabilities_legend_loop cols arg_all x (S i) table' w)%string
      else lldp_capabilities_legend_loop cols arg_all x (S i) table' w
  end.

(** [lldp_capabilities_legend]: what it writes to stdout, [cols] being
    what [columns()] returns and [arg_all] the global of that name. *)
Definition lldp_capabilities_legend (cols : Z) (arg_all : bool) (x : Z)
    : string :=
  if x =? 0 then EmptyString
  else
    (nl ++ "Capability Flags:" ++ nl ++
     lldp_capabilities_legend_loop cols arg_all x 0 legend_table 0 ++
     nl)%string.

(** Every line of [s] has at most [cols] characters, the line that [s]
    continues having [cur] characters already. *)
Fixpoint fits (cols cur : nat) (s : string) : bool :=
  match s with
  | EmptyString => (cur <=? cols)%nat
  | String c s' =>
      if Ascii.eqb c "010"%char then (cur <=? cols)%nat && fits cols 0 s'
      else fits cols (S cur) s'
  end.

(** [s] holds no newline. *)
Fixpoint one_line (s : string) : bool :=
  match s with
  | EmptyString => true
  | String c s' => negb (Ascii.eqb c "010"%char) && one_line s'
  end.

(** ** [link_status_one] and what it calls *)

(** A pointer that a call leaves NULL when it fails. *)
Definition out_ptr {A : Type} (r : res A) : option A :=
  match r with Ok v => Some v | Err _ => None end.

(** [streq_ptr(state, s)]: a NULL [state] equals no string. *)
Definition streq_ptr (state : option string) (s : string) : bool :=
  match state with Some t => String.eqb t s | None => false end.

Section StateColors.

(** [ansi_highlight_green()] and the like of terminal-util.h: the escape
    sequences, or empty strings when colours are off. *)
Variables ansi_highlight_green ansi_highlight_yellow ansi_highlight_red
  ansi_normal : string.

(** The pair written to [*on] and [*off]. *)
Definition operational_state_to_color (state : option string)
    : string * string :=
  if streq_ptr state "routable" || streq_ptr state "enslaved" then
    (ansi_highlight_green, ansi_normal)
  else if streq_ptr state "degraded" then
    (ansi_highlight_yellow, ansi_normal)
  else (EmptyString, EmptyString).

Definition setup_state_to_color (state : option string) : string * string :=
  if streq_ptr state "configured" then (ansi_highlight_green, ansi_normal)
  else if streq_ptr state "configuring" then
    (ansi_highlight_yellow, ansi_normal)
  else if streq_ptr state "failed" || streq_ptr state "linger" then
    (ansi_highlight_red, ansi_normal)
  else (EmptyString, EmptyString).

End StateColors.

(** [dump_list]: [l] is [None] for a NULL string vector. *)
Fixpoint dump_list_loop (prefix : string) (first : bool) (l : list string)
    (table : Table) : Table :=
  match l with
  | [] => table
  | i :: l' =>
      let table := table_add_cell table TABLE_EMPTY in
      let table :=
        table_add_cell table
          (TABLE_STRING (if first then prefix else EmptyString)) in
      let table := table_add_cell table (TABLE_STRING i) in
      dump_list_loop prefix false l' table
  end.

Definition dump_list (table : Table) (prefix : string)
    (l : option (list string)) : Table :=
  match l with
  | None => table
  | Some l => dump_list_loop prefix true l table
  end.

Section DumpAddresses.

(** [local_addresses(rtnl, ifindex, AF_UNSPEC, &local)] of
    local-addresses.c. *)
Variable local_addresses : sd_netlink -> Z -> res (list local_address.t).
Variable in_addr_to_string : Z -> in_addr_union -> res string.
Variable if_indextoname : Z -> option string.

Definition dump_addresses_entry (ifindex : Z) (i : nat)
    (local_i : local_address.t) (table : Table) : res Table :=
  let table := table_add_cell table TABLE_EMPTY in
  let table :=
    table_add_cell table
      (TABLE_STRING (if Nat.eqb i 0 then "Address:" else EmptyString)) in
  try pretty <- in_addr_to_string (local_address.family local_i)
                  (local_address.address local_i) ;;
  if ifindex <=? 0 then
    match if_indextoname (local_address.ifindex local_i) with
    | Some name =>
        Ok (table_add_cell table (TABLE_STRING (pretty ++ " on " ++ name)%string))
    | None =>
        Ok (table_add_cell table
              (TABLE_STRING (pretty ++ " on %" ++
                             decimal_str (local_address.ifindex local_i))%string))
    end
  else Ok (table_add_cell table (TABLE_STRING pretty)).

Fixpoint dump_addresses_loop (ifindex : Z) (i : nat)
    (local : list local_address.t) (table : Table) : res Table :=
  match local with
  | [] => Ok table
  | local_i :: local' =>
      try table <- dump_addresses_entry ifindex i local_i table ;;
      dump_addresses_loop ifindex (S i) local' table
  end.

Definition dump_addresses (rtnl : sd_netlink) (table : Table) (ifindex : Z)
    : res Table :=
  try local <- local_addresses rtnl ifindex ;;
  dump_addresses_loop ifindex 0 local table.

End DumpAddresses.

Section LinkStatusOneTable.

(** The state files of networkd, read through sd-network. *)
Variable sd_network_link_get_operational_state : Z -> res string.
Variable sd_network_link_get_setup_state : Z -> res string.
Variable sd_network_link_get_dns : Z -> res (list string).
Variable sd_network_link_get_search_domains : Z -> res (list string).
Variable sd_network_link_get_route_domains : Z -> res (list string).
Variable sd_network_link_get_ntp : Z -> res (list string).
Variable sd_network_link_get_network_file : Z -> res string.
Variable sd_network_link_get_carrier_bound_to : Z -> res (list Z).
Variable sd_network_link_get_carrier_bound_by : Z -> res (list Z).
Variable sd_network_link_get_timezone : Z -> res string.

(** The device database, through sd-device. *)
Variable sd_device : Type.
Variable sd_device_new_from_device_id : string -> res sd_device.
Variable sd_device_get_property_value : sd_device -> string -> res string.
Variable sd_device_get_devtype : sd_device -> res string.

(** [arphrd_to_name] of arphrd-list.h and [ascii_strlower] of
    string-util.c. *)
Variable arphrd_to_name : Z -> option string.
Variable ascii_strlower : string -> string.

Variables ansi_highlight_green ansi_highlight_yellow ansi_highlight_red
  ansi_normal : string.
(** [special_glyph(SPECIAL_GLYPH_BLACK_CIRCLE)] of locale-util.h. *)
Variable black_circle : string.
(** [ether_addr_to_string] of ether-addr-util.c. *)
Variable ether_addr_to_string : ether_addr -> string.

Variable local_addresses : sd_netlink -> Z -> res (list local_address.t).
Variable local_gateways : sd_netlink -> Z -> res (list local_address.t).
Variable in_addr_to_string : Z -> in_addr_union -> res string.
Variable if_indextoname : Z -> option string.

(** [d] is [None] for a NULL device. *)
Definition link_get_type_string (iftype : Z) (d : option sd_device)
    : option string :=
  match
    match d with
    | Some d =>
        match sd_device_get_devtype d with
        | Ok devtype => if isempty (Some devtype) then None else Some devtype
        | Err _ => None
        end
    | None => None
    end
  with
  | Some devtype => Some devtype
  | None =>
      match arphrd_to_name iftype with
      | None => None
      | Some t => Some (ascii_strlower t)
      end
  end.

(** Three cells: an empty one, the key and the value. *)
Definition table_add_row (table : Table) (key value : string) : Table :=
  table_add_cell
    (table_add_cell (table_add_cell table TABLE_EMPTY) (TABLE_STRING key))
    (TABLE_STRING value).

(** [link_status_one] up to its call of [dump_lldp_neighbors]: the table
    built so far, or the error returned before. *)
Definition link_status_one_table (rtnl : sd_netlink) (hwdb : option sd_hwdb)
    (info : LinkInfo) : res Table :=
  let operational_state :=
    out_ptr (sd_network_link_get_operational_state (ifindex info)) in
  let '(on_color_operational, off_color_operational) :=
    operational_state_to_color ansi_highlight_green ansi_highlight_yellow
      ansi_normal operational_state in
  let setup_state :=
    match sd_network_link_get_setup_state (ifindex info) with
    | Ok s => Some s
    | Err e =>
        (* If there's no info available about this iface, it's unmanaged by
           networkd *)
        if errno_eqb e ENODATA then Some "unmanaged"%string else None
    end in
  let '(on_color_setup, off_color_setup) :=
    setup_state_to_color ansi_highlight_green ansi_highlight_yellow
      ansi_highlight_red ansi_normal setup_state in
  let dns := out_ptr (sd_network_link_get_dns (ifindex info)) in
  let search_domains :=
    out_ptr (sd_network_link_get_search_domains (ifindex info)) in
  let route_domains :=
    out_ptr (sd_network_link_get_route_domains (ifindex info)) in
  let ntp := out_ptr (sd_network_link_get_ntp (ifindex info)) in
  let devid := ("n" ++ decimal_str (ifindex info))%string in
  let d := out_ptr (sd_device_new_from_device_id devid) in
  let property (key : string) : option string :=
    match d with
    | Some d => out_ptr (sd_device_get_property_value d key)
    | None => None
    end in
  let link := property "ID_NET_LINK_FILE"%string in
  let driver := property "ID_NET_DRIVER"%string in
  let path := property "ID_PATH"%string in
  let vendor :=
    match property "ID_VENDOR_FROM_DATABASE"%string with
    | Some v => Some v
    | None => property "ID_VENDOR"%string
    end in
  let model :=
    match property "ID_MODEL_FROM_DATABASE"%string with
    | Some v => Some v
    | None => property "ID_MODEL"%string
    end in
  let t := link_get_type_string (iftype info) d in
  let network := out_ptr (sd_network_link_get_network_file (ifindex info)) in
  let carrier_bound_to :=
    out_ptr (sd_network_link_get_carrier_bound_to (ifindex info)) in
  let carrier_bound_by :=
    out_ptr (sd_network_link_get_carrier_bound_by (ifindex info)) in
  let table := table_new ["DOT"; "KEY"; "VALUE"]%string in
  let table := table_add_cell table (TABLE_STRING black_circle) in
  let table :=
    table_add_cell table
      (TABLE_STRING (decimal_str (ifindex info) ++ ": " ++ name info)%string) in
  let table := table_add_cell table TABLE_EMPTY in
  let table := table_add_row table "Link File:" (strna link) in
  let table := table_add_row table "Network File:" (strna network) in
  let table := table_add_row table "Type:" (strna t) in
  let table :=
    table_add_row table "State:"
      (on_color_operational ++ strna operational_state ++
       off_color_operational ++ " (" ++ on_color_setup ++ strna setup_state ++
       off_color_setup ++ ")")%string in
  let table :=
    match path with
    | Some path => table_add_row table "Path:" path
    | None => table
    end in
  let table :=
    match driver with
    | Some driver => table_add_row table "Driver:" driver
    | None => table
    end in
  let table :=
    match vendor with
    | Some vendor => table_add_row table "Vendor:" vendor
    | None => table
    end in
  let table :=
    match model with
    | Some model => table_add_row table "Model:" model
    | None => table
    end in
  let table :=
    if has_mac_address info then
      let description := out_ptr (ieee_oui hwdb (mac_address info)) in
      table_add_row table "HW Address:"
        (ether_addr_to_string (mac_address info) ++
         match description with Some _ => " (" | None => EmptyString end ++
         printf_s description ++
         match description with Some _ => ")" | None => EmptyString end)%string
    else table in
  let table :=
    if has_mtu info then
      table_add_row table "MTU:"
        (decimal_str (mtu info) ++ " (Minimum: " ++ decimal_str (min_mtu info)
         ++ ", Maximum: " ++ decimal_str (max_mtu info) ++ ")")%string
    else table in
  let table :=
    if has_tx_queues info || has_rx_queues info then
      table_add_row table "Queue Length (Tx/Rx):"
        (decimal_str (tx_queues info) ++ "/" ++
         decimal_str (rx_queues info))%string
    else table in
  try table <- dump_addresses local_addresses in_addr_to_string if_indextoname
                 rtnl table (ifindex info) ;;
  try table <- dump_gateways local_gateways in_addr_to_string if_indextoname
                 rtnl hwdb table (ifindex info) ;;
  let table := dump_list table "DNS:" dns in
  let table := dump_list table "Search Domains:" search_domains in
  let table := dump_list table "Route Domains:" route_domains in
  let table := dump_list table "NTP:" ntp in
  let table := dump_ifindexes table "Carrier Bound To:" carrier_bound_to in
  let table := dump_ifindexes table "Carrier Bound By:" carrier_bound_by in
  let tz := out_ptr (sd_network_link_get_timezone (ifindex info)) in
  let table :=
    match tz with
    | Some tz => table_add_row table "Time Zone:" tz
    | None => table
    end in
  Ok table.

End LinkStatusOneTable.

(** [t'] is [t] with whole rows of three cells added. *)
Definition extends (t t' : Table) : Prop :=
  exists cells k, t' = t ++ cells /\ List.length cells = (3 * k)%nat.

(** The text of the MTU row of [link_status_one]. *)
Definition mtu_text (mtu_v min_v max_v : Z) : string :=
  (decimal_str mtu_v ++ " (Minimum: " ++ decimal_str min_v ++ ", Maximum: " ++
   decimal_str max_v ++ ")")%string.

(** A link message with an MTU and a name, nothing else optional. *)
Definition mtu_only_message : sd_netlink_message :=
  link_message 2 (Ok "eth0"%string) (Ok 1) (Err ENODATA) (Ok 1500).

(** An environment in which networkd and udev know nothing, and no
    address or gateway is configured. *)
Definition nothing_known {A : Type} : Z -> res A := fun _ => Err ENODATA.

Definition no_device : string -> res unit := fun _ => Err ENOENT.

Definition no_addresses : sd_netlink -> Z -> res (list local_address.t) :=
  fun _ _ => Ok [].

(** [link_status_one] up to the LLDP step in that environment, without
    colours. *)
Definition quiet_status_table : sd_netlink -> option sd_hwdb -> LinkInfo ->
    res Table :=
  link_status_one_table nothing_known nothing_known nothing_known
    nothing_known nothing_known nothing_known nothing_known nothing_known
    nothing_known nothing_known unit no_device (fun _ _ => Err ENOENT)
    (fun _ => Err ENOENT) (fun _ => None) (fun s => s)
    EmptyString EmptyString EmptyString EmptyString "*"
    ether_addr_format
    no_addresses no_addresses show_192_0_2_1 only_eth1.

(** What [decode_link] leaves for [mtu_only_message] in [stale_slot]. *)
Definition mtu_only_record : LinkInfo :=
  mk_LinkInfo "eth0" 2 1 (mk_ether_addr x07 x07 x07 x07 x07 x07) 1500 77 77
    77 77 false true false false.
(** * Properties of [decode_link] *)

Lemma bytes_eqb_eq (a b : list byte) : bytes_eqb a b = true <-> a = b.
Proof.
  revert b. induction a as [| x a IH]; intros [| y b]; cbn;
    try (split; [discriminate | congruence]); [tauto |].
  rewrite andb_true_iff, IH. split.
  - intros [Hx ->]. apply Byte.byte_dec_bl in Hx. now subst.
  - intros H. injection H as -> ->. split; [| reflexivity].
    now apply Byte.byte_dec_lb.
Qed.

Lemma ether_addr_null_iff (a : ether_addr) :
  memcmp_eq (ether_addr_octet a) (ether_addr_octet ETHER_ADDR_NULL) 6 = true
  <-> a = ETHER_ADDR_NULL.
Proof.
  unfold memcmp_eq. rewrite bytes_eqb_eq.
  destruct a as [a0 a1 a2 a3 a4 a5]. cbn. split; intro H.
  - now inversion H.
  - now inversion H.
Qed.

Section DecodeLink.

Variable fnmatch : string -> string -> bool.

Lemma filter_test_passes patterns index ifname :
  match patterns with
  | Some l =>
      negb (strv_fnmatch fnmatch l (decimal_str index)) &&
      negb (strv_fnmatch fnmatch l ifname)
  | None => false
  end = negb (passes_filter fnmatch patterns index ifname).
Proof.
  destruct patterns as [l |]; cbn; [| reflexivity].
  unfold strv_fnmatch. now rewrite negb_orb.
Qed.

(** Once the type tag is [RTM_NEWLINK] and index and name are read, the
    outcome is decided by the filter and the interface type. *)
Lemma decode_link_newlink m info patterns index ifname :
  sd_netlink_message_get_type m = Ok RTM_NEWLINK ->
  sd_rtnl_message_link_get_ifindex m = Ok index ->
  sd_netlink_message_read_string m IFLA_IFNAME = Ok ifname ->
  decode_link fnmatch m info patterns =
  if passes_filter fnmatch patterns index ifname then
    match sd_rtnl_message_link_get_type m with
    | Ok type => Ok (Some (decoded m info index ifname type))
    | Err e => Err e
    end
  else Ok None.
Proof.
  intros Ht Hi Hn. unfold decode_link. rewrite Ht. cbn [bind].
  change (RTM_NEWLINK =? RTM_NEWLINK) with true. cbn [negb].
  rewrite Hi. cbn [bind]. rewrite Hn. cbn [bind].
  rewrite filter_test_passes.
  destruct (passes_filter fnmatch patterns index ifname); cbn [negb];
    [| reflexivity].
  destruct (sd_rtnl_message_link_get_type m) as [type |]; cbn [bind];
    [| reflexivity].
  unfold decoded. cbn -[memcmp_eq Nat.add].
  destruct (is_ok (sd_netlink_message_read_u32 m IFLA_MTU) && _);
    reflexivity.
Qed.

(** The shape of every successful decoding: the mandatory reads went
    through and the message passed the filter. *)
Lemma decode_link_some m info patterns info' :
  decode_link fnmatch m info patterns = Ok (Some info') ->
  exists index ifname type,
    sd_netlink_message_get_type m = Ok RTM_NEWLINK /\
    sd_rtnl_message_link_get_ifindex m = Ok index /\
    sd_netlink_message_read_string m IFLA_IFNAME = Ok ifname /\
    sd_rtnl_message_link_get_type m = Ok type /\
    passes_filter fnmatch patterns index ifname = true /\
    info' = decoded m info index ifname type.
Proof.
  intro H.
  destruct (sd_netlink_message_get_type m) as [t |] eqn:Ht;
    [| unfold decode_link in H; rewrite Ht in H; discriminate].
  destruct (t =? RTM_NEWLINK) eqn:Et;
    [| unfold decode_link in H; rewrite Ht in H; cbn [bind] in H;
       rewrite Et in H; discriminate].
  apply Z.eqb_eq in Et. subst t.
  destruct (sd_rtnl_message_link_get_ifindex m) as [index |] eqn:Hi.
  2:{ unfold decode_link in H. rewrite Ht, Hi in H. discriminate. }
  destruct (sd_netlink_message_read_string m IFLA_IFNAME) as [ifname |] eqn:Hn.
  2:{ unfold decode_link in H. rewrite Ht, Hi, Hn in H. discriminate. }
  rewrite (decode_link_newlink _ _ _ _ _ Ht Hi Hn) in H.
  destruct (passes_filter fnmatch patterns index ifname) eqn:Ef;
    [| discriminate].
  destruct (sd_rtnl_message_link_get_type m) as [type |] eqn:Hy;
    [| discriminate].
  injection H as <-. exists index, ifname, type. now repeat split.
Qed.

Lemma decode_link_other_type m info patterns t :
  sd_netlink_message_get_type m = Ok t -> t <> RTM_NEWLINK ->
  decode_link fnmatch m info patterns = Ok None.
Proof.
  intros Ht Hne. unfold decode_link. rewrite Ht. cbn [bind].
  destruct (t =? RTM_NEWLINK) eqn:E; [| reflexivity].
  apply Z.eqb_eq in E. contradiction.
Qed.

(** C5 (as amended).  For one dump-response message: a type tag other than
    [RTM_NEWLINK] gives the not-applicable outcome, which is no error.  For
    a message tagged [RTM_NEWLINK], an unreadable index or name gives that
    read's error; with both read, a message the pattern filter rejects
    gives not-applicable before the interface type is looked at, and a
    message that passes the filter gives the error of an unreadable
    interface type; with the interface type read as well the decoding
    succeeds whatever the optional reads do, and a failed read of the
    hardware address, the MTU or a queue count leaves that field marked
    absent. *)
Theorem C5_decode_link_outcomes m info patterns :
  (forall t, sd_netlink_message_get_type m = Ok t -> t <> RTM_NEWLINK ->
     decode_link fnmatch m info patterns = Ok None) /\
  (sd_netlink_message_get_type m = Ok RTM_NEWLINK ->
   (forall e, sd_rtnl_message_link_get_ifindex m = Err e ->
      decode_link fnmatch m info patterns = Err e) /\
   (forall index, sd_rtnl_message_link_get_ifindex m = Ok index ->
      (forall e, sd_netlink_message_read_string m IFLA_IFNAME = Err e ->
         decode_link fnmatch m info patterns = Err e) /\
      (forall ifname, sd_netlink_message_read_string m IFLA_IFNAME = Ok ifname ->
         (passes_filter fnmatch patterns index ifname = false ->
            decode_link fnmatch m info patterns = Ok None) /\
         (passes_filter fnmatch patterns index ifname = true ->
            (forall e, sd_rtnl_message_link_get_type m = Err e ->
               decode_link fnmatch m info patterns = Err e) /\
            (forall type, sd_rtnl_message_link_get_type m = Ok type ->
               exists info',
                 decode_link fnmatch m info patterns = Ok (Some info') /\
                 ifindex info' = index /\ iftype info' = type /\
                 (is_ok (sd_netlink_message_read_ether_addr m IFLA_ADDRESS) = false ->
                    has_mac_address info' = false) /\
                 (is_ok (sd_netlink_message_read_u32 m IFLA_MTU) = false ->
                    has_mtu info' = false) /\
                 (is_ok (sd_netlink_message_read_u32 m IFLA_NUM_RX_QUEUES) = false ->
                    has_rx_queues info' = false) /\
                 (is_ok (sd_netlink_message_read_u32 m IFLA_NUM_TX_QUEUES) = false ->
                    has_tx_queues info' = false)))))).
Proof.
  split; [intros t; apply decode_link_other_type |].
  intro Ht. split.
  { intros e He. unfold decode_link. rewrite Ht. cbn [bind].
    change (RTM_NEWLINK =? RTM_NEWLINK) with true. cbn [negb].
    now rewrite He. }
  intros index Hi. split.
  { intros e He. unfold decode_link. rewrite Ht. cbn [bind].
    change (RTM_NEWLINK =? RTM_NEWLINK) with true. cbn [negb].
    rewrite Hi. cbn [bind]. now rewrite He. }
  intros ifname Hn. rewrite (decode_link_newlink _ info patterns _ _ Ht Hi Hn).
  split; [intros ->; reflexivity |]. intros ->. split.
  { now intros e ->. }
  intros type ->. eexists. split; [reflexivity |].
  unfold decoded. cbn -[memcmp_eq Nat.add].
  repeat split; intros ->; reflexivity.
Qed.

(** C6.  In every record [decode_link] hands back: the hardware address is
    marked present exactly when [IFLA_ADDRESS] was readable and is not
    all-zero; the MTU exactly when [IFLA_MTU] was readable and above 0,
    and only then are the stored minimum and maximum taken from
    [IFLA_MIN_MTU] and [IFLA_MAX_MTU] (a failed read keeping what the slot
    held), otherwise they are what the slot held; each queue count exactly
    when its attribute was readable and above 0. *)
Theorem C6_presence_flags m info patterns info' :
  decode_link fnmatch m info patterns = Ok (Some info') ->
  (has_mac_address info' = true <->
     exists a, sd_netlink_message_read_ether_addr m IFLA_ADDRESS = Ok a /\
               a <> ETHER_ADDR_NULL /\ mac_address info' = a) /\
  (has_mtu info' = true <->
     exists v, sd_netlink_message_read_u32 m IFLA_MTU = Ok v /\ v > 0 /\
               mtu info' = v) /\
  (has_mtu info' = true ->
     min_mtu info' =
       read_into (min_mtu info) (sd_netlink_message_read_u32 m IFLA_MIN_MTU) /\
     max_mtu info' =
       read_into (max_mtu info) (sd_netlink_message_read_u32 m IFLA_MAX_MTU)) /\
  (has_mtu info' = false ->
     min_mtu info' = min_mtu info /\ max_mtu info' = max_mtu info) /\
  (has_rx_queues info' = true <->
     exists v, sd_netlink_message_read_u32 m IFLA_NUM_RX_QUEUES = Ok v /\
               v > 0 /\ rx_queues info' = v) /\
  (has_tx_queues info' = true <->
     exists v, sd_netlink_message_read_u32 m IFLA_NUM_TX_QUEUES = Ok v /\
               v > 0 /\ tx_queues info' = v).
Proof.
  intro H. apply decode_link_some in H.
  destruct H as (index & ifname & type & _ & _ & _ & _ & _ & ->).
  unfold decoded. cbn -[memcmp_eq Nat.add].
  assert (U : forall (r : res Z) old,
             is_ok r && (read_into old r >? 0) = true <->
             exists v, r = Ok v /\ v > 0 /\ read_into old r = v).
  { intros [v |] old; cbn.
    - rewrite Z.gtb_gt. split.
      + intro Hv. exists v. repeat split; [lia].
      + intros (v' & E & Hv & _). injection E as ->. lia.
    - split; [discriminate | intros (v & E & _); discriminate]. }
  split; [| split; [| split; [| split; [| split]]]].
  - split.
    + rewrite andb_true_iff, negb_true_iff. intros [Hr Hz].
      destruct (sd_netlink_message_read_ether_addr m IFLA_ADDRESS) as [a |];
        [| discriminate].
      exists a. cbn [read_into] in *. repeat split. intros ->.
      discriminate Hz.
    + intros (a & -> & Hne & _). cbn -[memcmp_eq].
      destruct (memcmp_eq _ _ _) eqn:E; [| reflexivity].
      apply ether_addr_null_iff in E. contradiction.
  - apply U.
  - intros ->. split; reflexivity.
  - intros ->. split; reflexivity.
  - apply U.
  - apply U.
Qed.

End DecodeLink.

(** C5, the claim as written fails: the loopback message below is tagged
    [RTM_NEWLINK] and its interface type cannot be read, yet under the
    pattern list [eth0], which it does not match, [decode_link] returns the
    not-applicable outcome and no error. *)
Lemma C5_counterexample_filtered_before_type :
  sd_netlink_message_get_type lo_untyped_message = Ok RTM_NEWLINK /\
  sd_rtnl_message_link_get_type lo_untyped_message = Err EINVAL /\
  decode_link fnmatch_literal lo_untyped_message stale_slot
    (Some ["eth0"%string]) = Ok None.
Proof. repeat split. Qed.

Lemma C5_witness :
  exists info',
    decode_link fnmatch_literal lo_message stale_slot None = Ok (Some info') /\
    has_mac_address info' = false.
Proof.
  destruct (C5_decode_link_outcomes fnmatch_literal lo_message stale_slot None)
    as [_ H].
  destruct (H eq_refl) as [_ H1].
  destruct (H1 1 eq_refl) as [_ H2].
  destruct (H2 "lo"%string eq_refl) as [_ H3].
  destruct (H3 eq_refl) as [_ H4].
  destruct (H4 772 eq_refl) as (info' & E & _ & _ & Hmac & _).
  exists info'. split; [exact E | apply Hmac; reflexivity].
Defined.

Lemma C6_witness :
  decode_link fnmatch_literal eth0_message stale_slot None =
    Ok (Some eth0_record) /\
  (has_mac_address eth0_record = true <->
     exists a,
       sd_netlink_message_read_ether_addr eth0_message IFLA_ADDRESS = Ok a /\
       a <> ETHER_ADDR_NULL /\ mac_address eth0_record = a).
Proof.
  split; [reflexivity |].
  apply (C6_presence_flags fnmatch_literal eth0_message stale_slot None
           eth0_record).
  reflexivity.
Defined.

(** The scenario of the all-zero hardware address: it is stored but
    reported as absent. *)
Example eth0_zero_mac_absent :
  decode_link fnmatch_literal eth0_message stale_slot None =
    Ok (Some eth0_record) /\
  has_mac_address eth0_record = false.
Proof. split; reflexivity. Qed.

(** * Properties of [acquire_link_info] *)

Lemma link_info_compare_le (a b : LinkInfo) :
  (link_info_compare a b <=? 0) = true <-> ifindex_le a b.
Proof.
  unfold link_info_compare, ifindex_le.
  destruct (ifindex a <? ifindex b) eqn:L; [apply Z.ltb_lt in L |
    apply Z.ltb_ge in L].
  - split; [lia | reflexivity].
  - destruct (ifindex a >? ifindex b) eqn:G.
    + apply Z.gtb_lt in G. split; [discriminate | lia].
    + rewrite Z.gtb_ltb in G. apply Z.ltb_ge in G. split; [lia | reflexivity].
Qed.

Lemma qsort_insert_perm x l :
  Permutation (x :: l) (qsort_insert link_info_compare x l).
Proof.
  induction l as [| y l IH]; cbn; [reflexivity |].
  destruct (link_info_compare x y <=? 0); [reflexivity |].
  rewrite perm_swap. now constructor.
Qed.

Lemma typesafe_qsort_perm l :
  Permutation l (typesafe_qsort l link_info_compare).
Proof.
  induction l as [| x l IH]; cbn; [constructor |].
  etransitivity; [| apply qsort_insert_perm]. now constructor.
Qed.

Lemma qsort_insert_sorted x l :
  Sorted ifindex_le l -> Sorted ifindex_le (qsort_insert link_info_compare x l).
Proof.
  induction 1 as [| y l Hl IH Hy]; cbn.
  - repeat constructor.
  - destruct (link_info_compare x y <=? 0) eqn:E.
    + apply link_info_compare_le in E. repeat constructor; assumption.
    + assert (Hyx : ifindex_le y x).
      { unfold ifindex_le. destruct (Z.le_gt_cases (ifindex x) (ifindex y)) as [L | L];
          [| lia].
        apply link_info_compare_le in L. congruence. }
      constructor; [exact IH |].
      destruct Hy as [| z l' Hz]; cbn.
      * repeat constructor. exact Hyx.
      * destruct (link_info_compare x z <=? 0); constructor; assumption.
Qed.

Lemma typesafe_qsort_sorted l :
  Sorted ifindex_le (typesafe_qsort l link_info_compare).
Proof.
  induction l as [| x l IH]; cbn; [constructor |].
  now apply qsort_insert_sorted.
Qed.

(** The cast of the count is exact for every array that fits an [int]. *)
Lemma int_of_size_t_small (c : nat) :
  Z.of_nat c < 2 ^ 31 -> int_of_size_t c = Z.of_nat c.
Proof.
  intro H. unfold int_of_size_t.
  rewrite Z.mod_small by lia. lia.
Qed.

(** Facts about lists and strings used below. *)

Lemma length_substring_0 (n : nat) (s : string) :
  String.length (substring 0 n s) = Nat.min n (String.length s).
Proof.
  revert s. induction n as [| n IH]; intros [| c s]; cbn; try reflexivity.
  now rewrite IH.
Qed.

Lemma substring_0_all (n : nat) (s : string) :
  (String.length s <= n)%nat -> substring 0 n s = s.
Proof.
  revert s. induction n as [| n IH]; intros [| c s] H; cbn in *;
    try reflexivity; try lia.
  rewrite IH by lia. reflexivity.
Qed.

Lemma Forall2_In_r {A B : Type} (R : A -> B -> Prop) l1 l2 y :
  Forall2 R l1 l2 -> In y l2 -> exists x, In x l1 /\ R x y.
Proof.
  induction 1 as [| a b l1 l2 Hab _ IH]; intros Hin; [contradiction |].
  destruct Hin as [<- | Hin].
  - exists a. split; [now left | exact Hab].
  - destruct (IH Hin) as (x & Hx & Hr). exists x. split; [now right | exact Hr].
Qed.

Lemma Forall2_In_l {A B : Type} (R : A -> B -> Prop) l1 l2 x :
  Forall2 R l1 l2 -> In x l1 -> exists y, In y l2 /\ R x y.
Proof.
  induction 1 as [| a b l1 l2 Hab _ IH]; intros Hin; [contradiction |].
  destruct Hin as [<- | Hin].
  - exists b. split; [now left | exact Hab].
  - destruct (IH Hin) as (y & Hy & Hr). exists y. split; [now right | exact Hr].
Qed.

Lemma filter_length_le {A : Type} (f : A -> bool) (l : list A) :
  (List.length (filter f l) <= List.length l)%nat.
Proof.
  induction l as [| x l IH]; cbn; [lia |]. destruct (f x); cbn; lia.
Qed.

Lemma existsb_orb {A : Type} (f g : A -> bool) (l : list A) :
  existsb (fun x => f x || g x) l = existsb f l || existsb g l.
Proof.
  induction l as [| x l IH]; cbn; [reflexivity |]. rewrite IH.
  destruct (f x), (g x), (existsb f l), (existsb g l); reflexivity.
Qed.

Section AcquireLinkInfo.

Variable fnmatch : string -> string -> bool.

(** With a filter, a message that decodes without one is either decoded
    the same way or skipped, by whether it is selected. *)
Lemma decode_link_filtered m info patterns :
  is_ok (decode_link fnmatch m info None) = true ->
  decode_link fnmatch m info patterns =
  if is_newlink m && selected fnmatch patterns m
  then decode_link fnmatch m info None
  else Ok None.
Proof.
  unfold is_newlink, selected.
  destruct (sd_netlink_message_get_type m) as [t |] eqn:Ht.
  2:{ unfold decode_link. rewrite Ht. discriminate. }
  destruct (t =? RTM_NEWLINK) eqn:Et.
  2:{ intros _. apply Z.eqb_neq in Et.
      now rewrite (decode_link_other_type fnmatch _ _ _ _ Ht Et). }
  apply Z.eqb_eq in Et. subst t.
  destruct (sd_rtnl_message_link_get_ifindex m) as [index |] eqn:Hi.
  2:{ unfold decode_link. rewrite Ht, Hi. discriminate. }
  destruct (sd_netlink_message_read_string m IFLA_IFNAME) as [ifname |] eqn:Hn.
  2:{ unfold decode_link. rewrite Ht, Hi, Hn. discriminate. }
  intros _. rewrite !(decode_link_newlink fnmatch _ _ _ _ _ Ht Hi Hn).
  cbn. now destruct (passes_filter fnmatch patterns index ifname).
Qed.

(** Without a filter a message is decoded exactly when it is tagged
    [RTM_NEWLINK], unless a mandatory read fails. *)
Lemma decode_link_unfiltered m info :
  is_ok (decode_link fnmatch m info None) = true ->
  if is_newlink m
  then exists r, decode_link fnmatch m info None = Ok (Some r)
  else decode_link fnmatch m info None = Ok None.
Proof.
  unfold is_newlink.
  destruct (sd_netlink_message_get_type m) as [t |] eqn:Ht.
  2:{ unfold decode_link. rewrite Ht. discriminate. }
  destruct (t =? RTM_NEWLINK) eqn:Et.
  2:{ intros _. apply Z.eqb_neq in Et.
      now rewrite (decode_link_other_type fnmatch _ _ _ _ Ht Et). }
  apply Z.eqb_eq in Et. subst t.
  destruct (sd_rtnl_message_link_get_ifindex m) as [index |] eqn:Hi.
  2:{ unfold decode_link. rewrite Ht, Hi. discriminate. }
  destruct (sd_netlink_message_read_string m IFLA_IFNAME) as [ifname |] eqn:Hn.
  2:{ unfold decode_link. rewrite Ht, Hi, Hn. discriminate. }
  rewrite (decode_link_newlink fnmatch _ _ _ _ _ Ht Hi Hn). cbn.
  destruct (sd_rtnl_message_link_get_type m); [eauto | discriminate].
Qed.

(** The loop appends to the slots already filled one decoded record per
    selected link message, in dump order. *)
Lemma acquire_link_info_loop_spec fresh patterns reply :
  (forall m info, In m reply ->
     is_ok (decode_link fnmatch m info None) = true) ->
  forall links, exists new,
    acquire_link_info_loop fnmatch fresh patterns reply links =
      Ok (links ++ new) /\
    Forall2 (decodes_to fnmatch)
      (filter (selected fnmatch patterns) (filter is_newlink reply)) new.
Proof.
  induction reply as [| i reply IH]; intros Hok links.
  - exists []. cbn. rewrite app_nil_r. split; [reflexivity | constructor].
  - assert (Hi := Hok i (fresh (List.length links)) (or_introl eq_refl)).
    assert (Hrest : forall m info, In m reply ->
              is_ok (decode_link fnmatch m info None) = true)
      by (intros; apply Hok; now right).
    specialize (IH Hrest).
    cbn [acquire_link_info_loop filter].
    rewrite (decode_link_filtered _ _ patterns Hi).
    apply decode_link_unfiltered in Hi.
    destruct (is_newlink i); cbn [andb filter].
    + destruct Hi as [r Hr].
      destruct (selected fnmatch patterns i).
      * rewrite Hr. cbn [bind].
        destruct (IH (links ++ [r])) as (new & E & F).
        exists (r :: new). rewrite E, <- app_assoc. split; [reflexivity |].
        constructor; [| exact F]. now exists (fresh (List.length links)).
      * cbn [bind]. apply IH.
    + cbn [bind]. apply IH.
Qed.

Lemma selected_absent m info :
  is_newlink m = true ->
  is_ok (decode_link fnmatch m info None) = true ->
  selected fnmatch None m = true.
Proof.
  intros Hn Hok. apply decode_link_unfiltered in Hok. rewrite Hn in Hok.
  destruct Hok as [r Hr]. apply decode_link_some in Hr.
  destruct Hr as (index & ifname & type & _ & Hi & Hs & _).
  unfold selected. now rewrite Hi, Hs.
Qed.

Lemma selected_empty m : selected fnmatch (Some []) m = false.
Proof.
  unfold selected.
  destruct (sd_rtnl_message_link_get_ifindex m); [| reflexivity].
  now destruct (sd_netlink_message_read_string m IFLA_IFNAME).
Qed.

Lemma filter_all {A : Type} (f : A -> bool) (l : list A) :
  (forall x, In x l -> f x = true) -> filter f l = l.
Proof.
  induction l as [| x l IH]; intro H; cbn; [reflexivity |].
  rewrite (H x (or_introl eq_refl)), IH; [reflexivity |].
  intros; apply H; now right.
Qed.

Lemma filter_none {A : Type} (f : A -> bool) (l : list A) :
  (forall x, f x = false) -> filter f l = [].
Proof.
  intro H. induction l as [| x l IH]; cbn; [reflexivity |]. now rewrite H.
Qed.

(** The pattern list the callers hand over, [argc > 1 ? argv + 1 : NULL],
    filters as the specification says for the patterns [tl argv] of the
    command line: an empty list arrives as a NULL pointer. *)
Lemma passes_filter_argv argv index ifname :
  passes_filter fnmatch (patterns_of_argv argv) index ifname =
  spec_retains fnmatch (tl argv) index ifname.
Proof.
  unfold patterns_of_argv.
  destruct argv as [| verb [| p P]]; try reflexivity.
  replace (Z.of_nat (List.length (verb :: p :: P)) >? 1) with true
    by (symmetry; apply Z.gtb_lt; cbn [List.length]; lia).
  cbn [tl passes_filter spec_retains]. symmetry. apply existsb_orb.
Qed.

(** When every message decodes without error under the pattern list in
    use, the loop appends one decoded record per retained link message,
    in dump order. *)
Lemma acquire_link_info_loop_retains fresh argv reply :
  (forall m, In m reply ->
     exists info,
       is_ok (decode_link fnmatch m info (patterns_of_argv argv)) = true) ->
  forall links, exists new,
    acquire_link_info_loop fnmatch fresh (patterns_of_argv argv) reply links =
      Ok (links ++ new) /\
    Forall2 (decodes_to fnmatch)
      (filter (spec_retains_message fnmatch (tl argv))
         (filter is_newlink reply)) new.
Proof.
  induction reply as [| i reply IH]; intros Hok links.
  - exists []. cbn. rewrite app_nil_r. split; [reflexivity | constructor].
  - destruct (Hok i (or_introl eq_refl)) as [info0 Hi0].
    assert (Hrest : forall m, In m reply ->
              exists info,
                is_ok (decode_link fnmatch m info (patterns_of_argv argv))
                = true)
      by (intros; apply Hok; now right).
    specialize (IH Hrest).
    cbn [acquire_link_info_loop filter].
    destruct (sd_netlink_message_get_type i) as [t |] eqn:Ht.
    2:{ unfold decode_link in Hi0. rewrite Ht in Hi0. discriminate. }
    destruct (Z.eqb_spec t RTM_NEWLINK) as [-> | Hne].
    2:{ rewrite (decode_link_other_type fnmatch _ _ _ _ Ht Hne). cbn [bind].
        replace (is_newlink i) with false
          by (unfold is_newlink; rewrite Ht; symmetry; now apply Z.eqb_neq).
        apply IH. }
    replace (is_newlink i) with true by (unfold is_newlink; now rewrite Ht).
    cbn [filter].
    destruct (sd_rtnl_message_link_get_ifindex i) as [index |] eqn:Hi.
    2:{ unfold decode_link in Hi0. rewrite Ht in Hi0. cbn [bind] in Hi0.
        change (RTM_NEWLINK =? RTM_NEWLINK) with true in Hi0.
        cbn [negb] in Hi0. rewrite Hi in Hi0. discriminate. }
    destruct (sd_netlink_message_read_string i IFLA_IFNAME) as [ifname |] eqn:Hn.
    2:{ unfold decode_link in Hi0. rewrite Ht in Hi0. cbn [bind] in Hi0.
        change (RTM_NEWLINK =? RTM_NEWLINK) with true in Hi0.
        cbn [negb] in Hi0. rewrite Hi in Hi0. cbn [bind] in Hi0.
        rewrite Hn in Hi0. discriminate. }
    rewrite (decode_link_newlink fnmatch _ _ _ _ _ Ht Hi Hn) in Hi0.
    rewrite (decode_link_newlink fnmatch _ _ _ _ _ Ht Hi Hn).
    replace (spec_retains_message fnmatch (tl argv) i)
      with (passes_filter fnmatch (patterns_of_argv argv) index ifname)
      by (unfold spec_retains_message; rewrite Hi, Hn;
          apply passes_filter_argv).
    destruct (passes_filter fnmatch (patterns_of_argv argv) index ifname).
    + destruct (sd_rtnl_message_link_get_type i) as [type |] eqn:Hty;
        [| discriminate].
      cbn [bind].
      destruct (IH (links ++
                    [decoded i (fresh (List.length links)) index ifname type]))
        as (new & E & F).
      exists (decoded i (fresh (List.length links)) index ifname type :: new).
      rewrite E, <- app_assoc. split; [reflexivity |].
      constructor; [| exact F]. exists (fresh (List.length links)).
      rewrite (decode_link_newlink fnmatch _ _ None _ _ Ht Hi Hn).
      cbn [passes_filter]. now rewrite Hty.
    + cbn [bind]. apply IH.
Qed.

(** A link message that decodes without error has its index and name
    read, so an empty pattern list retains it. *)
Lemma spec_retains_message_nil m info patterns :
  is_newlink m = true ->
  is_ok (decode_link fnmatch m info patterns) = true ->
  spec_retains_message fnmatch [] m = true.
Proof.
  unfold is_newlink, spec_retains_message, decode_link.
  destruct (sd_netlink_message_get_type m) as [t |]; [| discriminate].
  intro Ht. cbn [bind]. rewrite Ht. cbn [negb].
  destruct (sd_rtnl_message_link_get_ifindex m); [| discriminate].
  cbn [bind].
  destruct (sd_netlink_message_read_string m IFLA_IFNAME); [| discriminate].
  reflexivity.
Qed.

(** C1.  Let the dump request go through and let every message of the
    reply decode without error under the pattern list in use, which the
    callers build from the argument vector as [argc > 1 ? argv + 1 : NULL],
    so that P, the patterns [tl argv] of the command line, arrives as
    NULL when it is empty.  Then [acquire_link_info] returns the records
    sorted ascending by interface index together with their count, and
    these records are, one for one, the decoded records of exactly those
    [RTM_NEWLINK] messages whose index in decimal or whose name matches
    at least one pattern of P; when P is empty they are the decoded
    records of all of them.  The count is exact below 2^31 messages, and
    for names that fit the name field the returned records themselves
    carry an index or a name that matches. *)
Theorem C1_acquire_link_info rtnl fresh argv reply :
  sd_rtnl_message_new rtnl RTM_GETLINK = Ok tt ->
  sd_netlink_message_request_dump rtnl RTM_GETLINK = Ok tt ->
  sd_netlink_call rtnl RTM_GETLINK = Ok reply ->
  (forall m, In m reply ->
     exists info,
       is_ok (decode_link fnmatch m info (patterns_of_argv argv)) = true) ->
  exists links unsorted,
    acquire_link_info fnmatch rtnl fresh (patterns_of_argv argv) =
      Ok (int_of_size_t (List.length links), links) /\
    (Z.of_nat (List.length reply) < 2 ^ 31 ->
       int_of_size_t (List.length links) = Z.of_nat (List.length links)) /\
    Sorted ifindex_le links /\
    Permutation unsorted links /\
    Forall2 (decodes_to fnmatch)
      (filter (spec_retains_message fnmatch (tl argv))
         (filter is_newlink reply)) unsorted /\
    (tl argv = [] ->
       Forall2 (decodes_to fnmatch) (filter is_newlink reply) unsorted) /\
    ((forall m n, In m reply ->
        sd_netlink_message_read_string m IFLA_IFNAME = Ok n ->
        (String.length n <= IFNAMSIZ)%nat) ->
     Forall (fun r =>
               spec_retains fnmatch (tl argv) (ifindex r) (name r) = true)
            links).
Proof.
  intros Hnew Hdump Hcall Hok.
  destruct (acquire_link_info_loop_retains fresh argv reply Hok [])
    as (unsorted & Hloop & Hdec).
  cbn [app] in Hloop.
  exists (typesafe_qsort unsorted link_info_compare), unsorted.
  assert (Hperm := typesafe_qsort_perm unsorted).
  split; [| split; [| split; [| split; [| split; [| split]]]]].
  - unfold acquire_link_info. rewrite Hnew, Hdump, Hcall. cbn [bind].
    rewrite Hloop. cbn [bind].
    now rewrite (Permutation_length Hperm).
  - intro Hsmall. apply int_of_size_t_small.
    rewrite <- (Permutation_length Hperm).
    rewrite <- (Forall2_length Hdec).
    pose proof (filter_length_le (spec_retains_message fnmatch (tl argv))
                  (filter is_newlink reply)).
    pose proof (filter_length_le is_newlink reply). lia.
  - apply typesafe_qsort_sorted.
  - exact Hperm.
  - exact Hdec.
  - intro Hnil. rewrite Hnil in Hdec.
    rewrite filter_all in Hdec; [exact Hdec |].
    intros m Hm. apply filter_In in Hm. destruct Hm as [Hin Hn].
    destruct (Hok m Hin) as [info Hm].
    exact (spec_retains_message_nil m info _ Hn Hm).
  - intro Hfit. apply Forall_forall. intros r Hr.
    apply (Permutation_in _ (Permutation_sym Hperm)) in Hr.
    destruct (Forall2_In_r _ _ _ _ Hdec Hr) as (m & Hm & [info Hd]).
    apply filter_In in Hm. destruct Hm as [Hm Hsel].
    apply filter_In in Hm. destruct Hm as [Hin _].
    apply decode_link_some in Hd.
    destruct Hd as (index & ifname & type & _ & Hi & Hs & _ & _ & ->).
    unfold spec_retains_message in Hsel. rewrite Hi, Hs in Hsel.
    unfold decoded. cbn [ifindex name]. unfold strscpy.
    replace (IFNAMSIZ + 1 - 1)%nat with IFNAMSIZ by reflexivity.
    rewrite substring_0_all by exact (Hfit m ifname Hin Hs).
    exact Hsel.
Qed.

End AcquireLinkInfo.

(** The callers hand [acquire_link_info] either no pattern list or the
    non-empty rest of the argument vector. *)
Lemma patterns_of_argv_not_empty (argv : list string) :
  patterns_of_argv argv <> Some [].
Proof.
  unfold patterns_of_argv.
  destruct argv as [| a [| b argv]]; cbn; try discriminate.
  destruct (Z.pos _ >? 1); discriminate.
Qed.

Lemma C1_witness :
  exists links unsorted,
    acquire_link_info fnmatch_literal
      (netlink_replying [eth0_message; lo_untyped_message; lo_message])
      (fun _ => stale_slot)
      (patterns_of_argv ["list"; "2"; "wlan*"]%string) =
      Ok (int_of_size_t (List.length links), links) /\
    (Z.of_nat 3 < 2 ^ 31 ->
       int_of_size_t (List.length links) = Z.of_nat (List.length links)) /\
    Sorted ifindex_le links /\
    Permutation unsorted links /\
    Forall2 (decodes_to fnmatch_literal)
      (filter (spec_retains_message fnmatch_literal ["2"; "wlan*"]%string)
         (filter is_newlink [eth0_message; lo_untyped_message; lo_message]))
      unsorted /\
    (["2"; "wlan*"]%string = [] ->
       Forall2 (decodes_to fnmatch_literal)
         (filter is_newlink [eth0_message; lo_untyped_message; lo_message])
         unsorted) /\
    ((forall m n,
        In m [eth0_message; lo_untyped_message; lo_message] ->
        sd_netlink_message_read_string m IFLA_IFNAME = Ok n ->
        (String.length n <= IFNAMSIZ)%nat) ->
     Forall (fun r =>
               spec_retains fnmatch_literal ["2"; "wlan*"]%string
                 (ifindex r) (name r) = true)
            links).
Proof.
  apply (C1_acquire_link_info fnmatch_literal
           (netlink_replying [eth0_message; lo_untyped_message; lo_message])
           (fun _ => stale_slot) ["list"; "2"; "wlan*"]%string
           [eth0_message; lo_untyped_message; lo_message]);
    try reflexivity.
  intros m [<- | [<- | [<- | []]]]; exists stale_slot; reflexivity.
Defined.

(** The enumeration of that witness, and the one without patterns. *)
Example enumeration_scenario :
  acquire_link_info fnmatch_literal
    (netlink_replying [eth0_message; lo_untyped_message; lo_message])
    (fun _ => stale_slot) (patterns_of_argv ["list"; "2"; "wlan*"]%string) =
    Ok (1, [eth0_record]) /\
  acquire_link_info fnmatch_literal
    (netlink_replying [eth0_message; lo_message])
    (fun _ => stale_slot) (patterns_of_argv ["list"%string]) =
    Ok (2, [lo_record; eth0_record]).
Proof. split; reflexivity. Qed.

(** * Properties of [get_gateway_description] *)

Section GatewayScan.

Variable hwdb : option sd_hwdb.
Variables ifindex family : Z.
Variable gateway : in_addr_union.

Local Abbreviation scan :=
  (get_gateway_description_loop hwdb ifindex family gateway).

(** An entry that passes every check ends the scan with its description. *)
Lemma scan_hit m reply mac d :
  usable_entry hwdb ifindex family gateway m mac d ->
  scan (m :: reply) = Ok d.
Proof.
  intros (He & Ht & Hm & (ifi & Hi & Hifi) & Hmac & Hd).
  cbn [get_gateway_description_loop].
  destruct (sd_netlink_message_get_errno m); [| discriminate].
  rewrite Ht. change (RTM_NEWNEIGH =? RTM_NEWNEIGH) with true. cbn [negb].
  unfold neigh_matches in Hm.
  destruct (sd_rtnl_message_neigh_get_family m) as [fam |]; [| discriminate].
  apply andb_true_iff in Hm. destruct Hm as [Hf Hm]. rewrite Hf. cbn [negb].
  rewrite Hi.
  assert (Hskip : (ifindex >? 0) && negb (ifi =? ifindex) = false).
  { destruct (ifindex >? 0) eqn:G; [| reflexivity].
    apply Z.gtb_gt in G. rewrite (Hifi G), Z.eqb_refl. reflexivity. }
  rewrite Hskip. unfold neigh_dst in Hm.
  destruct (fam =? AF_INET).
  - destruct (sd_netlink_message_read_in_addr m NDA_DST); [| discriminate].
    rewrite Hm. cbn [negb]. now rewrite Hmac, Hd.
  - destruct (fam =? AF_INET6); [| discriminate].
    destruct (sd_netlink_message_read_in6_addr m NDA_DST); [| discriminate].
    rewrite Hm. cbn [negb]. now rewrite Hmac, Hd.
Qed.

(** An entry that fails some check is passed over. *)
Lemma scan_skip m reply :
  (forall mac d, ~ usable_entry hwdb ifindex family gateway m mac d) ->
  scan (m :: reply) = scan reply.
Proof.
  intro Hno. cbn [get_gateway_description_loop].
  destruct (sd_netlink_message_get_errno m) as [u |] eqn:He; [| reflexivity].
  destruct (sd_netlink_message_get_type m) as [t |] eqn:Ht; [| reflexivity].
  destruct (t =? RTM_NEWNEIGH) eqn:Et; cbn [negb]; [| reflexivity].
  apply Z.eqb_eq in Et. subst t.
  destruct (sd_rtnl_message_neigh_get_family m) as [fam |] eqn:Hf;
    [| reflexivity].
  destruct (fam =? family) eqn:Ef; cbn [negb]; [| reflexivity].
  destruct (sd_rtnl_message_neigh_get_ifindex m) as [ifi |] eqn:Hi;
    [| reflexivity].
  destruct ((ifindex >? 0) && negb (ifi =? ifindex)) eqn:Eskip;
    [reflexivity |].
  assert (Hifi : ifindex > 0 -> ifi = ifindex).
  { intro G. apply Z.gtb_gt in G. rewrite G in Eskip. cbn in Eskip.
    apply negb_false_iff, Z.eqb_eq in Eskip. exact Eskip. }
  fold (neigh_dst m fam).
  destruct (neigh_dst m fam) as [gw |] eqn:Hdst; [| reflexivity].
  destruct (in_addr_equal fam gw gateway) eqn:Eq; cbn [negb]; [| reflexivity].
  destruct (sd_netlink_message_read_ether_addr m NDA_LLADDR) as [mac |] eqn:Hmac;
    [| reflexivity].
  destruct (ieee_oui hwdb mac) as [d |] eqn:Hd; [| reflexivity].
  exfalso. apply (Hno mac d). unfold usable_entry, neigh_matches.
  rewrite He, Ht, Hf, Ef, Hdst, Eq, Hi, Hmac. repeat split; eauto.
Qed.

Lemma scan_all_skipped reply :
  (forall m mac d, In m reply ->
     ~ usable_entry hwdb ifindex family gateway m mac d) ->
  scan reply = Err ENODATA.
Proof.
  induction reply as [| m reply IH]; intro H; [reflexivity |].
  rewrite scan_skip; [apply IH | ]; intros; apply H; cbn; auto.
Qed.

Lemma scan_skip_prefix pre reply :
  (forall x mac d, In x pre ->
     ~ usable_entry hwdb ifindex family gateway x mac d) ->
  scan (pre ++ reply) = scan reply.
Proof.
  induction pre as [| x pre IH]; intro Hpre; cbn [app]; [reflexivity |].
  rewrite scan_skip; [apply IH | ]; intros; apply Hpre; cbn; auto.
Qed.

Lemma scan_first_usable pre m post mac d :
  (forall x mac' d', In x pre ->
     ~ usable_entry hwdb ifindex family gateway x mac' d') ->
  usable_entry hwdb ifindex family gateway m mac d ->
  scan (pre ++ m :: post) = Ok d.
Proof.
  intros Hpre Hm. rewrite scan_skip_prefix by exact Hpre.
  eapply scan_hit; eassumption.
Qed.

(** An entry whose hardware address has no vendor description fails the
    last check. *)
Lemma vendor_miss_not_usable m mac :
  sd_netlink_message_read_ether_addr m NDA_LLADDR = Ok mac ->
  is_ok (ieee_oui hwdb mac) = false ->
  forall mac' d, ~ usable_entry hwdb ifindex family gateway m mac' d.
Proof.
  intros Hmac Hmiss mac' d (_ & _ & _ & _ & Hmac' & Hd).
  rewrite Hmac in Hmac'. injection Hmac' as <-.
  rewrite Hd in Hmiss. discriminate.
Qed.

End GatewayScan.

Lemma string_app_nil_r (s : string) : (s ++ EmptyString)%string = s.
Proof. induction s as [| c s IH]; cbn; [reflexivity | now rewrite IH]. Qed.

Section GatewayDescription.

Variable in_addr_to_string : Z -> in_addr_union -> res string.
Variable if_indextoname : Z -> option string.

(** C7.  When the neighbor dump holds no entry whose family and address
    both match the target, [get_gateway_description] returns [-ENODATA];
    in particular entries of another family never match, whatever their
    address bytes. *)
Theorem C7_no_match_is_no_data rtnl hwdb ifindex family gateway reply :
  sd_rtnl_message_new rtnl (RTM_GETNEIGH ifindex family) = Ok tt ->
  sd_netlink_message_request_dump rtnl (RTM_GETNEIGH ifindex family) = Ok tt ->
  sd_netlink_call rtnl (RTM_GETNEIGH ifindex family) = Ok reply ->
  ((forall m, In m reply -> neigh_matches family gateway m = false) ->
   get_gateway_description rtnl hwdb ifindex family gateway = Err ENODATA) /\
  ((forall m fam, In m reply ->
      sd_rtnl_message_neigh_get_family m = Ok fam -> fam <> family) ->
   get_gateway_description rtnl hwdb ifindex family gateway = Err ENODATA).
Proof.
  intros Hnew Hdump Hcall.
  assert (G : (forall m, In m reply -> neigh_matches family gateway m = false) ->
              get_gateway_description rtnl hwdb ifindex family gateway =
                Err ENODATA).
  { intro Hno. unfold get_gateway_description.
    rewrite Hnew, Hdump, Hcall. cbn [bind].
    apply scan_all_skipped. intros m mac d Hin (_ & _ & Hm & _).
    rewrite (Hno m Hin) in Hm. discriminate. }
  split; [exact G |].
  intro Hfam. apply G. intros m Hin. unfold neigh_matches.
  destruct (sd_rtnl_message_neigh_get_family m) as [fam |] eqn:Hf;
    [| reflexivity].
  specialize (Hfam m fam Hin Hf). apply Z.eqb_neq in Hfam.
  now rewrite Hfam.
Qed.

(** C4 (as amended).  The scan stops at the first entry in dump order that
    passes every check of the loop, a readable hardware address with a
    vendor description among them, and returns that entry's description:
    entries before it that fail a check are passed over even when their
    address matches, and of several entries that pass, the first wins. *)
Theorem C4_first_usable_entry_wins rtnl hwdb ifindex family gateway
    pre m post mac d :
  sd_rtnl_message_new rtnl (RTM_GETNEIGH ifindex family) = Ok tt ->
  sd_netlink_message_request_dump rtnl (RTM_GETNEIGH ifindex family) = Ok tt ->
  sd_netlink_call rtnl (RTM_GETNEIGH ifindex family) = Ok (pre ++ m :: post) ->
  (forall x mac' d', In x pre ->
     ~ usable_entry hwdb ifindex family gateway x mac' d') ->
  usable_entry hwdb ifindex family gateway m mac d ->
  get_gateway_description rtnl hwdb ifindex family gateway = Ok d.
Proof.
  intros Hnew Hdump Hcall Hpre Hm. unfold get_gateway_description.
  rewrite Hnew, Hdump, Hcall. cbn [bind].
  eapply scan_first_usable; eassumption.
Qed.

(** C3 (as amended).  When the gateway address matches a neighbor entry
    whose hardware address is readable but has no vendor description, and
    no earlier entry passes every check, that entry is passed over and the
    scan goes on with the entries after it; when none of those passes
    every check either, [get_gateway_description] returns [-ENODATA] and
    hands back neither hardware address nor description, which
    [dump_gateways] takes as non-fatal, showing the gateway address
    alone. *)
Theorem C3_vendor_miss_is_no_data rtnl hwdb owner family gateway
    pre m post mac :
  sd_rtnl_message_new rtnl (RTM_GETNEIGH owner family) = Ok tt ->
  sd_netlink_message_request_dump rtnl (RTM_GETNEIGH owner family) = Ok tt ->
  sd_netlink_call rtnl (RTM_GETNEIGH owner family) = Ok (pre ++ m :: post) ->
  (forall x mac' d', In x pre ->
     ~ usable_entry hwdb owner family gateway x mac' d') ->
  neigh_matches family gateway m = true ->
  sd_netlink_message_read_ether_addr m NDA_LLADDR = Ok mac ->
  is_ok (ieee_oui hwdb mac) = false ->
  get_gateway_description rtnl hwdb owner family gateway =
    get_gateway_description_loop hwdb owner family gateway post /\
  ((forall x mac' d', In x post ->
      ~ usable_entry hwdb owner family gateway x mac' d') ->
   get_gateway_description rtnl hwdb owner family gateway = Err ENODATA /\
   forall ifindex i table shown,
     in_addr_to_string family gateway = Ok shown ->
     dump_gateways_entry in_addr_to_string if_indextoname rtnl hwdb ifindex i
       (local_address.mk family owner gateway) table =
     Ok (table ++
         [TABLE_EMPTY;
          TABLE_STRING (if Nat.eqb i 0 then "Gateway:" else EmptyString);
          TABLE_STRING (shown ++ on_interface if_indextoname ifindex owner)])).
Proof.
  intros Hnew Hdump Hcall Hpre _ Hmac Hmiss.
  assert (S : get_gateway_description rtnl hwdb owner family gateway =
              get_gateway_description_loop hwdb owner family gateway post).
  { unfold get_gateway_description. rewrite Hnew, Hdump, Hcall. cbn [bind].
    rewrite scan_skip_prefix by exact Hpre.
    apply scan_skip. eapply vendor_miss_not_usable; eassumption. }
  split; [exact S |].
  intro Hpost.
  assert (G : get_gateway_description rtnl hwdb owner family gateway =
              Err ENODATA)
    by (rewrite S; apply scan_all_skipped; intros; now apply Hpost).
  split; [exact G |].
  intros ifindex i table shown Hs.
  unfold dump_gateways_entry, on_interface, table_add_cell.
  cbn [local_address.family local_address.ifindex local_address.address].
  rewrite Hs, G. cbn [bind].
  destruct (ifindex <=? 0).
  - destruct (if_indextoname owner); now rewrite <- !app_assoc.
  - now rewrite string_app_nil_r, <- !app_assoc.
Qed.

End GatewayDescription.

Lemma C7_witness :
  (forall m fam, In m [neigh_known_vendor] ->
     sd_rtnl_message_neigh_get_family m = Ok fam -> fam <> AF_INET6) /\
  neigh_dst neigh_known_vendor AF_INET = Some gateway_192_0_2_1 /\
  get_gateway_description (netlink_replying [neigh_known_vendor])
    (Some hwdb_acme) 3 AF_INET6 gateway_192_0_2_1 = Err ENODATA.
Proof.
  assert (H : forall m fam, In m [neigh_known_vendor] ->
            sd_rtnl_message_neigh_get_family m = Ok fam -> fam <> AF_INET6).
  { intros m fam [<- | []] E. injection E as <-. discriminate. }
  split; [exact H |]. split; [reflexivity |].
  apply (C7_no_match_is_no_data (netlink_replying [neigh_known_vendor])
           (Some hwdb_acme) 3 AF_INET6 gateway_192_0_2_1 [neigh_known_vendor]
           eq_refl eq_refl eq_refl).
  exact H.
Defined.

(** C4, the claim as written fails: both entries of this dump carry the
    target address 192.0.2.1 in the target family; the first one's
    hardware address is readable but unknown to the vendor database, and
    the scan goes on to the second, whose description it returns. *)
Lemma C4_counterexample_first_match_passed_over :
  neigh_matches AF_INET gateway_192_0_2_1 neigh_unknown_vendor = true /\
  neigh_matches AF_INET gateway_192_0_2_1 neigh_known_vendor = true /\
  sd_netlink_message_read_ether_addr neigh_unknown_vendor NDA_LLADDR =
    Ok mac_unknown_vendor /\
  ieee_oui (Some hwdb_acme) mac_unknown_vendor = Err ENOENT /\
  ieee_oui (Some hwdb_acme) mac_known_vendor = Ok "Acme"%string /\
  get_gateway_description
    (netlink_replying [neigh_unknown_vendor; neigh_known_vendor])
    (Some hwdb_acme) 3 AF_INET gateway_192_0_2_1 = Ok "Acme"%string.
Proof. repeat split. Qed.

Lemma C4_witness :
  usable_entry (Some hwdb_acme) 3 AF_INET gateway_192_0_2_1
    neigh_known_vendor mac_known_vendor "Acme" /\
  get_gateway_description
    (netlink_replying [neigh_unknown_vendor; neigh_known_vendor])
    (Some hwdb_acme) 3 AF_INET gateway_192_0_2_1 = Ok "Acme"%string.
Proof.
  assert (U : usable_entry (Some hwdb_acme) 3 AF_INET gateway_192_0_2_1
                neigh_known_vendor mac_known_vendor "Acme").
  { unfold usable_entry. repeat split. exists 3. split; reflexivity. }
  split; [exact U |].
  apply (C4_first_usable_entry_wins
           (netlink_replying [neigh_unknown_vendor; neigh_known_vendor])
           (Some hwdb_acme) 3 AF_INET gateway_192_0_2_1
           [neigh_unknown_vendor] neigh_known_vendor [] mac_known_vendor
           "Acme" eq_refl eq_refl eq_refl).
  - intros x mac' d' [<- | []] (_ & _ & _ & _ & Hmac & Hd).
    injection Hmac as <-. discriminate Hd.
  - exact U.
Defined.

(** C3, the claim as written fails: the entry matches the gateway
    192.0.2.1 on interface 3 and its hardware address 00:11:22:33:44:55
    is readable; the vendor lookup misses, and the resolution as a whole
    ends in [-ENODATA], with no hardware address handed back. *)
Lemma C3_counterexample_vendor_miss_discards_match :
  neigh_matches AF_INET gateway_192_0_2_1 neigh_unknown_vendor = true /\
  sd_netlink_message_read_ether_addr neigh_unknown_vendor NDA_LLADDR =
    Ok mac_unknown_vendor /\
  ieee_oui (Some hwdb_acme) mac_unknown_vendor = Err ENOENT /\
  get_gateway_description (netlink_replying [neigh_unknown_vendor])
    (Some hwdb_acme) 3 AF_INET gateway_192_0_2_1 = Err ENODATA.
Proof. repeat split. Qed.

Lemma C3_witness :
  neigh_matches AF_INET gateway_192_0_2_1 neigh_unknown_vendor = true /\
  is_ok (ieee_oui (Some hwdb_acme) mac_unknown_vendor) = false /\
  get_gateway_description (netlink_replying [neigh_unknown_vendor])
    (Some hwdb_acme) 3 AF_INET gateway_192_0_2_1 = Err ENODATA /\
  dump_gateways_entry show_192_0_2_1 only_eth1
    (netlink_replying [neigh_unknown_vendor]) (Some hwdb_acme) 0 0
    (local_address.mk AF_INET 3 gateway_192_0_2_1) [] =
  Ok [TABLE_EMPTY; TABLE_STRING "Gateway:"; TABLE_STRING "192.0.2.1 on eth1"].
Proof.
  split; [reflexivity |]. split; [reflexivity |].
  destruct (C3_vendor_miss_is_no_data show_192_0_2_1 only_eth1
              (netlink_replying [neigh_unknown_vendor]) (Some hwdb_acme)
              3 AF_INET gateway_192_0_2_1 [] neigh_unknown_vendor []
              mac_unknown_vendor eq_refl eq_refl eq_refl)
    as [_ H]; try reflexivity.
  - intros x mac' d' [].
  - destruct H as [G D]; [intros x mac' d' [] |].
    split; [exact G |].
    exact (D 0 0%nat [] "192.0.2.1"%string eq_refl).
Defined.

(** * Properties of the neighbor store reader *)

Lemma le64toh_cons (b : byte) (u : list byte) :
  le64toh (b :: u) = Z.of_N (Byte.to_N b) + 256 * le64toh u.
Proof. reflexivity. Qed.

Lemma le64toh_nonneg (u : list byte) : 0 <= le64toh u.
Proof.
  induction u as [| b u IH]; [cbn; lia |].
  rewrite le64toh_cons. pose proof (N2Z.is_nonneg (Byte.to_N b)). lia.
Qed.

Lemma to_N_byte_of_Z (z : Z) : Z.of_N (Byte.to_N (byte_of_Z z)) = z mod 256.
Proof.
  unfold byte_of_Z.
  pose proof (Z.mod_pos_bound z 256 eq_refl) as B.
  destruct (Byte.of_N (Z.to_N (z mod 256))) as [b |] eqn:E.
  - apply Byte.to_of_N in E. rewrite E. apply Z2N.id. lia.
  - apply Byte.of_N_None_iff in E. lia.
Qed.

Lemma length_htole k n : List.length (htole k n) = k.
Proof. revert n. induction k; intro n; cbn; [| rewrite IHk]; reflexivity. Qed.

Lemma le64toh_htole k n :
  0 <= n < 256 ^ Z.of_nat k -> le64toh (htole k n) = n.
Proof.
  revert n. induction k as [| k IH]; intros n Hn.
  - cbn in *. lia.
  - cbn [htole]. rewrite le64toh_cons, to_N_byte_of_Z, IH.
    + pose proof (Z.div_mod n 256). lia.
    + rewrite Nat2Z.inj_succ, Z.pow_succ_r in Hn by lia.
      split; [apply Z.div_pos; lia |].
      apply Z.div_lt_upper_bound; lia.
Qed.

Section NextNeighbor.

Variable sd_lldp_neighbor_from_raw : list byte -> res sd_lldp_neighbor.

Local Abbreviation next := (next_lldp_neighbor sd_lldp_neighbor_from_raw).

Lemma next_at_end f : unread f = [] -> fst (next f) = Ok None.
Proof.
  intro H. unfold next_lldp_neighbor, fread, feof. rewrite H. cbn.
  now rewrite orb_true_r.
Qed.

Lemma next_short_prefix f :
  unread f <> [] -> (List.length (unread f) < 8)%nat ->
  fst (next f) = Err EBADMSG.
Proof.
  intros Hne Hlt. unfold next_lldp_neighbor, fread, feof.
  cbn [unread at_eof].
  rewrite firstn_all2 by lia.
  destruct (unread f) as [| b l] eqn:E; [contradiction |].
  cbn [List.length Nat.eqb andb].
  destruct (Nat.eqb (List.length l) 7) eqn:E7; [| reflexivity].
  apply Nat.eqb_eq in E7. cbn in Hlt. lia.
Qed.

(** With a whole prefix read the outcome is decided by the declared
    length and by what follows. *)
Lemma next_whole_prefix f :
  (8 <= List.length (unread f))%nat ->
  next f =
  let n := le64toh (firstn 8 (unread f)) in
  let rest := skipn 8 (unread f) in
  if n >=? 4096 then (Err EBADMSG, mk_FILE rest (at_eof f))
  else if Z.of_nat (List.length rest) <? n
       then (Err EBADMSG, mk_FILE [] true)
       else (frame_outcome
               (sd_lldp_neighbor_from_raw (firstn (Z.to_nat n) rest)),
             mk_FILE (skipn (Z.to_nat n) rest) (at_eof f)).
Proof.
  intro H8. unfold next_lldp_neighbor, fread, feof.
  cbn [unread at_eof].
  assert (L : List.length (firstn 8 (unread f)) = 8%nat)
    by (rewrite length_firstn; lia).
  rewrite L.
  change (Nat.eqb 8 0) with false. change (Nat.eqb 8 8) with true.
  change (Nat.ltb 8 8) with false. cbn [andb negb]. rewrite orb_false_r.
  cbv zeta.
  set (n := le64toh (firstn 8 (unread f))).
  set (rest := skipn 8 (unread f)).
  pose proof (le64toh_nonneg (firstn 8 (unread f))) as Hn. fold n in Hn.
  destruct (n >=? 4096); [reflexivity |].
  rewrite length_firstn.
  destruct (Z.of_nat (List.length rest) <? n) eqn:Hs.
  - apply Z.ltb_lt in Hs.
    replace (Nat.min (Z.to_nat n) (List.length rest)) with (List.length rest)
      by lia.
    assert (E : (Z.of_nat (List.length rest) =? n) = false)
      by (apply Z.eqb_neq; lia).
    rewrite E. cbn [negb].
    rewrite skipn_all2 by lia.
    assert (E' : (List.length rest <? Z.to_nat n)%nat = true)
      by (apply Nat.ltb_lt; lia).
    rewrite E'. now rewrite orb_true_r.
  - apply Z.ltb_ge in Hs.
    replace (Nat.min (Z.to_nat n) (List.length rest)) with (Z.to_nat n) by lia.
    rewrite Z2Nat.id, Z.eqb_refl by lia. cbn [negb].
    rewrite Nat.ltb_irrefl, orb_false_r.
    unfold frame_outcome.
    now destruct (sd_lldp_neighbor_from_raw _).
Qed.

(** Reading back one record as written. *)
Lemma next_store_frame raw rest eof :
  Z.of_nat (List.length raw) < 4096 ->
  next (mk_FILE (store_frame raw ++ rest) eof) =
  (frame_outcome (sd_lldp_neighbor_from_raw raw), mk_FILE rest eof).
Proof.
  intro Hlen. unfold store_frame, htole64.
  rewrite next_whole_prefix;
    cbn [unread at_eof]; rewrite <- app_assoc.
  2:{ rewrite length_app, length_htole. lia. }
  rewrite firstn_app, length_htole, Nat.sub_diag, firstn_O, app_nil_r.
  rewrite firstn_all2 by (rewrite length_htole; lia).
  rewrite skipn_app, length_htole, Nat.sub_diag, skipn_O.
  rewrite skipn_all2 by (rewrite length_htole; lia). cbn [app].
  rewrite le64toh_htole by (cbn; lia).
  cbv zeta.
  assert (E : (Z.of_nat (List.length raw) >=? 4096) = false).
  { rewrite Z.geb_leb. apply Z.leb_gt. lia. }
  rewrite E, length_app.
  assert (E' : (Z.of_nat (List.length raw + List.length rest) <?
                Z.of_nat (List.length raw)) = false)
    by (apply Z.ltb_ge; lia).
  rewrite E', Nat2Z.id.
  rewrite firstn_app, Nat.sub_diag, firstn_O, app_nil_r, firstn_all.
  rewrite skipn_app, Nat.sub_diag, skipn_O, skipn_all. reflexivity.
Qed.

(** C2.  Each call of [next_lldp_neighbor] reads one length prefix of
    eight bytes, least significant first.  A stream with nothing left to
    read gives the clean end-of-records outcome; one that ends inside the
    prefix gives [-EBADMSG]; a prefix declaring 4096 bytes or more gives
    [-EBADMSG]; a prefix below 4096, so also 4095, followed by fewer bytes
    than declared gives [-EBADMSG], and followed by that many bytes hands
    them to the frame decoder, whose outcome is the outcome of the call,
    the stream standing right after the frame. *)
Theorem C2_next_lldp_neighbor f :
  let n := le64toh (firstn 8 (unread f)) in
  let rest := skipn 8 (unread f) in
  (forall b0 b1 b2 b3 b4 b5 b6 b7 tail,
     unread f = b0 :: b1 :: b2 :: b3 :: b4 :: b5 :: b6 :: b7 :: tail ->
     n = Z.of_N (Byte.to_N b0) + 2 ^ 8 * Z.of_N (Byte.to_N b1) +
         2 ^ 16 * Z.of_N (Byte.to_N b2) + 2 ^ 24 * Z.of_N (Byte.to_N b3) +
         2 ^ 32 * Z.of_N (Byte.to_N b4) + 2 ^ 40 * Z.of_N (Byte.to_N b5) +
         2 ^ 48 * Z.of_N (Byte.to_N b6) + 2 ^ 56 * Z.of_N (Byte.to_N b7)) /\
  (unread f = [] -> fst (next f) = Ok None) /\
  (unread f <> [] -> (List.length (unread f) < 8)%nat ->
     fst (next f) = Err EBADMSG) /\
  ((8 <= List.length (unread f))%nat ->
     (4096 <= n -> fst (next f) = Err EBADMSG) /\
     (n < 4096 -> Z.of_nat (List.length rest) < n ->
        fst (next f) = Err EBADMSG) /\
     (n < 4096 -> n <= Z.of_nat (List.length rest) ->
        next f =
        (frame_outcome (sd_lldp_neighbor_from_raw (firstn (Z.to_nat n) rest)),
         mk_FILE (skipn (Z.to_nat n) rest) (at_eof f)))).
Proof.
  cbv zeta. split; [| split; [| split]].
  - intros b0 b1 b2 b3 b4 b5 b6 b7 tail ->. cbn [firstn].
    rewrite !le64toh_cons. cbn [le64toh fold_right]. lia.
  - apply next_at_end.
  - apply next_short_prefix.
  - intro H8. rewrite (next_whole_prefix f H8). cbv zeta.
    split; [| split].
    + intro Hn. assert (E : (le64toh (firstn 8 (unread f)) >=? 4096) = true)
        by (rewrite Z.geb_leb; apply Z.leb_le; lia).
      now rewrite E.
    + intros Hn Hs.
      assert (E : (le64toh (firstn 8 (unread f)) >=? 4096) = false)
        by (rewrite Z.geb_leb; apply Z.leb_gt; lia).
      rewrite E. apply Z.ltb_lt in Hs. now rewrite Hs.
    + intros Hn Hs.
      assert (E : (le64toh (firstn 8 (unread f)) >=? 4096) = false)
        by (rewrite Z.geb_leb; apply Z.leb_gt; lia).
      rewrite E. apply Z.ltb_ge in Hs. now rewrite Hs.
Qed.

End NextNeighbor.

Lemma C2_witness :
  let f := mk_FILE (store_frame (repeat x2a 4095)) false in
  (8 <= List.length (unread f))%nat /\
  le64toh (firstn 8 (unread f)) = 4095 /\
  next_lldp_neighbor neighbor_of_raw f =
    (Ok (Some (mk_neighbor None (Some "2A"%string) (Some "switch"%string)
                 None (Some 4))),
     mk_FILE [] false).
Proof.
  cbv zeta.
  assert (H8 : (8 <= List.length
                  (unread (mk_FILE (store_frame (repeat x2a 4095)) false)))%nat)
    by (vm_compute; lia).
  split; [exact H8 |]. split; [vm_compute; reflexivity |].
  destruct (C2_next_lldp_neighbor neighbor_of_raw
              (mk_FILE (store_frame (repeat x2a 4095)) false))
    as (_ & _ & _ & H).
  destruct (H H8) as (_ & _ & Hread).
  rewrite Hread; [vm_compute; reflexivity | vm_compute; reflexivity |
                  vm_compute; discriminate].
Defined.

(** The boundary of the length check: a prefix declaring 4096 bytes is
    refused even with the 4096 bytes there. *)
Example length_4096_rejected :
  fst (next_lldp_neighbor neighbor_of_raw
         (mk_FILE (htole64 4096 ++ repeat x2a 4096) false)) = Err EBADMSG.
Proof. vm_compute. reflexivity. Qed.

(** * Properties of the loops over the neighbor store *)

Lemma length_store_image (frames : list (list byte)) :
  (List.length frames <= List.length (store_image frames))%nat.
Proof.
  induction frames as [| raw frames IH]; [cbn; lia |].
  cbn [store_image flat_map List.length]. fold (store_image frames).
  rewrite length_app. unfold store_frame, htole64.
  rewrite length_app, length_htole. lia.
Qed.

Section StoreLoops.

Variable sd_lldp_neighbor_from_raw : list byte -> res sd_lldp_neighbor.
Variable ellipsize : string -> nat -> string.

Local Abbreviation next := (next_lldp_neighbor sd_lldp_neighbor_from_raw).
Local Abbreviation status_file :=
  (link_lldp_status_file sd_lldp_neighbor_from_raw ellipsize).
Local Abbreviation status_loop :=
  (link_lldp_status_loop sd_lldp_neighbor_from_raw ellipsize).
Local Abbreviation dump_loop :=
  (dump_lldp_neighbors_loop sd_lldp_neighbor_from_raw).

Lemma status_file_step fuel link_name f st n f' :
  next f = (Ok (Some n), f') ->
  status_file (S fuel) link_name f st =
  status_file fuel link_name f' (count_neighbor ellipsize link_name st n).
Proof.
  intro E. cbn [link_lldp_status_file]. rewrite E. unfold count_neighbor.
  now destruct (lldp_line ellipsize link_name n).
Qed.

(** Reading a file that begins with well-stored frames counts one
    neighbor per frame and arrives at what follows them. *)
Lemma status_file_frames link_name frames ns :
  well_stored sd_lldp_neighbor_from_raw frames ns ->
  forall fuel tail eof st,
    (List.length frames < fuel)%nat ->
    status_file fuel link_name (mk_FILE (store_image frames ++ tail) eof) st =
    status_file (fuel - List.length frames) link_name (mk_FILE tail eof)
      (fold_left (count_neighbor ellipsize link_name) ns st).
Proof.
  induction 1 as [| raw n frames ns [Hraw Hlen] _ IH]; intros fuel tail eof st Hf.
  - cbn. now rewrite Nat.sub_0_r.
  - destruct fuel as [| fuel]; [cbn in Hf; lia |].
    cbn [store_image flat_map List.length Nat.sub fold_left].
    rewrite <- app_assoc. fold (store_image frames).
    rewrite (status_file_step _ _ _ _ n (mk_FILE (store_image frames ++ tail) eof)).
    2:{ rewrite next_store_frame by exact Hlen. now rewrite Hraw. }
    apply IH. cbn in Hf. lia.
Qed.

(** The same for the loop of [dump_lldp_neighbors], as far as the return
    code goes. *)
Lemma dump_loop_frames prefix frames ns :
  well_stored sd_lldp_neighbor_from_raw frames ns ->
  forall fuel tail eof c table,
    (List.length frames < fuel)%nat ->
    exists table',
      dump_loop fuel prefix (mk_FILE (store_image frames ++ tail) eof) c table =
      dump_loop (fuel - List.length frames) prefix (mk_FILE tail eof)
        (c + Z.of_nat (List.length frames)) table'.
Proof.
  induction 1 as [| raw n frames ns [Hraw Hlen] _ IH];
    intros fuel tail eof c table Hf.
  - exists table. cbn. now rewrite Nat.sub_0_r, Z.add_0_r.
  - destruct fuel as [| fuel]; [cbn in Hf; lia |].
    cbn [store_image flat_map List.length Nat.sub].
    rewrite <- app_assoc. cbn [dump_lldp_neighbors_loop].
    rewrite next_store_frame by exact Hlen. rewrite Hraw.
    cbn [frame_outcome]. fold (store_image frames).
    edestruct (IH fuel tail eof) as [table' E]; [cbn in Hf; lia |].
    exists table'. rewrite E. f_equal. lia.
Qed.

Lemma status_loop_app fs l1 l2 st :
  status_loop fs (l1 ++ l2) st = status_loop fs l2 (status_loop fs l1 st).
Proof.
  revert st. induction l1 as [| link l1 IH]; intro st; cbn; [reflexivity |].
  destruct (open_lldp_neighbors fs (ifindex link)); apply IH.
Qed.

Lemma dump_malformed fs table prefix index frames ns tail e :
  open_lldp_neighbors fs index =
    Ok (mk_FILE (store_image frames ++ tail) false) ->
  well_stored sd_lldp_neighbor_from_raw frames ns ->
  fst (next (mk_FILE tail false)) = Err e ->
  fst (dump_lldp_neighbors sd_lldp_neighbor_from_raw fs table prefix index) =
    Err e.
Proof.
  intros Hopen Hframes Htail. unfold dump_lldp_neighbors. rewrite Hopen.
  cbn [unread].
  edestruct (dump_loop_frames prefix _ _ Hframes) as [table' E];
    [| rewrite E].
  { pose proof (length_store_image frames). rewrite length_app.
    apply Nat.lt_succ_r. lia. }
  rewrite length_app.
  replace (S (List.length (store_image frames) + List.length tail) -
           List.length frames)%nat
    with (S (List.length (store_image frames) + List.length tail -
             List.length frames))
    by (pose proof (length_store_image frames); lia).
  cbn [dump_lldp_neighbors_loop].
  destruct (next (mk_FILE tail false)) as [[[n |] | e'] f']; cbn in Htail;
    try discriminate.
  injection Htail as ->. reflexivity.
Qed.

Lemma link_status_loop_app status_table fs l1 l2 i :
  link_status_loop sd_lldp_neighbor_from_raw status_table fs i (l1 ++ l2) =
  link_status_loop sd_lldp_neighbor_from_raw status_table fs i l1 ++
  link_status_loop sd_lldp_neighbor_from_raw status_table fs
    (i + List.length l1) l2.
Proof.
  revert i. induction l1 as [| info l1 IH]; intro i.
  - cbn. now rewrite Nat.add_0_r.
  - cbn [app link_status_loop List.length]. rewrite IH, <- !app_assoc.
    now rewrite Nat.add_succ_r.
Qed.

(** C9.  For an interface without store file, opening yields [-ENOENT],
    which [dump_lldp_neighbors] turns into zero records and an untouched
    table, and over which [link_lldp_status] passes to the next link; a
    file that exists and holds malformed framing makes
    [dump_lldp_neighbors] return [-EBADMSG] instead. *)
Theorem C9_missing_store_is_no_data fs table prefix index :
  (fs ("/run/systemd/netif/lldp/" ++ decimal_str index)%string = Err ENOENT ->
   open_lldp_neighbors fs index = Err ENOENT /\
   dump_lldp_neighbors sd_lldp_neighbor_from_raw fs table prefix index =
     (Ok 0, table) /\
   forall link links st, ifindex link = index ->
     status_loop fs (link :: links) st = status_loop fs links st) /\
  (forall frames ns tail,
     fs ("/run/systemd/netif/lldp/" ++ decimal_str index)%string =
       Ok (store_image frames ++ tail) ->
     well_stored sd_lldp_neighbor_from_raw frames ns ->
     fst (next (mk_FILE tail false)) = Err EBADMSG ->
     fst (dump_lldp_neighbors sd_lldp_neighbor_from_raw fs table prefix index) =
       Err EBADMSG).
Proof.
  split.
  - intro Hfs.
    assert (Hopen : open_lldp_neighbors fs index = Err ENOENT)
      by (unfold open_lldp_neighbors; now rewrite Hfs).
    split; [exact Hopen |]. split.
    + unfold dump_lldp_neighbors. now rewrite Hopen.
    + intros link links st <-. cbn [link_lldp_status_loop]. now rewrite Hopen.
  - intros frames ns tail Hfs Hframes Htail.
    eapply dump_malformed; [| eassumption | exact Htail].
    unfold open_lldp_neighbors. now rewrite Hfs.
Qed.

End StoreLoops.

(** The scenario of the truncated store: the file of interface 5 yields
    no neighbor, the one of interface 6 is decoded, interface 7 has
    none. *)
Example truncated_store_scenario :
  m (link_lldp_status_loop neighbor_of_raw no_ellipsis lldp_files
       [link_named 5 "eth5"; link_named 6 "eth6"; link_named 7 "eth7"]
       (mk_lldp_status [] 0 0)) = 1 /\
  stdout (link_lldp_status_loop neighbor_of_raw no_ellipsis lldp_files
            [link_named 5 "eth5"; link_named 6 "eth6"; link_named 7 "eth7"]
            (mk_lldp_status [] 0 0)) =
  stdout (link_lldp_status_loop neighbor_of_raw no_ellipsis lldp_files
            [link_named 6 "eth6"] (mk_lldp_status [] 0 0)).
Proof. split; reflexivity. Qed.

Lemma C9_witness :
  lldp_files "/run/systemd/netif/lldp/7"%string = Err ENOENT /\
  dump_lldp_neighbors neighbor_of_raw lldp_files [] "Connected To:" 7 =
    (Ok 0, []) /\
  fst (dump_lldp_neighbors neighbor_of_raw lldp_files [] "Connected To:" 5) =
    Err EBADMSG.
Proof.
  split; [reflexivity |]. split.
  - destruct (C9_missing_store_is_no_data neighbor_of_raw no_ellipsis
                lldp_files [] "Connected To:" 7) as [H _].
    destruct (H eq_refl) as (_ & D & _). exact D.
  - destruct (C9_missing_store_is_no_data neighbor_of_raw no_ellipsis
                lldp_files [] "Connected To:" 5) as [_ H].
    apply (H [] [] (htole64 10 ++ repeat x2a 8)).
    + reflexivity.
    + constructor.
    + reflexivity.
Defined.

(** * Properties of [dump_address_labels] *)

Section AddressLabels.

Variable in_addr_to_string : Z -> in_addr_union -> res string.

(** C10.  An entry whose [IFAL_LABEL] attribute is absent, the read
    returning [-ENODATA], and whose prefix and prefix length are readable
    is kept and emitted, and the label cell emitted for it holds what the
    local [label] held before the read: nothing was assigned to it, so
    its value is whatever was left there and no default such as 0. *)
Theorem C10_absent_label_is_emitted_unassigned
    label0 i m reply table a pretty prefixlen :
  is_ok (sd_netlink_message_get_errno m) = true ->
  sd_netlink_message_read_u32 m IFAL_LABEL = Err ENODATA ->
  sd_netlink_message_read_in6_addr m IFAL_ADDRESS = Ok a ->
  in_addr_to_string AF_INET6 (set_in6 IN_ADDR_NULL a) = Ok pretty ->
  sd_rtnl_message_addrlabel_get_prefixlen m = Ok prefixlen ->
  dump_address_labels_loop in_addr_to_string label0 i (m :: reply) table =
  dump_address_labels_loop in_addr_to_string label0 (S i) reply
    (table ++ [TABLE_UINT32 (label0 i);
               TABLE_STRING (pretty ++ "/" ++ decimal_str prefixlen)]).
Proof.
  intros He Hl Ha Hs Hp. cbn [dump_address_labels_loop].
  destruct (sd_netlink_message_get_errno m); [| discriminate].
  rewrite Hl, Ha, Hs, Hp. cbn [read_into].
  change (errno_eqb ENODATA ENODATA) with true. cbn [negb].
  unfold table_add_cell. now rewrite <- app_assoc.
Qed.

End AddressLabels.

Lemma C10_witness :
  sd_netlink_message_read_u32 addrlabel_without_label IFAL_LABEL =
    Err ENODATA /\
  dump_address_labels show_in6_loopback
    (netlink_replying [addrlabel_without_label]) leftover_deadbeef =
  Ok [TABLE_STRING "Label"; TABLE_STRING "Prefix/Prefixlen";
      TABLE_UINT32 3735928559; TABLE_STRING "::1/128"].
Proof.
  split; [reflexivity |].
  unfold dump_address_labels. cbn [netlink_replying sd_rtnl_message_new
    sd_netlink_message_request_dump sd_netlink_call bind].
  rewrite (C10_absent_label_is_emitted_unassigned show_in6_loopback
             leftover_deadbeef 0 addrlabel_without_label []
             (table_new ["Label"; "Prefix/Prefixlen"]%string)
             in6_loopback "::1" 128 eq_refl eq_refl eq_refl eq_refl eq_refl).
  reflexivity.
Defined.

(** * Further properties of the neighbor store loops *)

Section StoreReading.

Variable sd_lldp_neighbor_from_raw : list byte -> res sd_lldp_neighbor.
Variable ellipsize : string -> nat -> string.

Local Abbreviation next := (next_lldp_neighbor sd_lldp_neighbor_from_raw).
Local Abbreviation status_file :=
  (link_lldp_status_file sd_lldp_neighbor_from_raw ellipsize).
Local Abbreviation status_loop :=
  (link_lldp_status_loop sd_lldp_neighbor_from_raw ellipsize).
Local Abbreviation dump_loop :=
  (dump_lldp_neighbors_loop sd_lldp_neighbor_from_raw).

(** A call that hands back a record has taken at least the eight bytes of
    its length prefix off the stream. *)
Lemma next_progress f n f' :
  next f = (Ok (Some n), f') ->
  (List.length (unread f') + 8 <= List.length (unread f))%nat.
Proof.
  intro E.
  destruct (Nat.le_gt_cases 8 (List.length (unread f))) as [H8 | H8].
  - rewrite (next_whole_prefix _ f H8) in E. cbv zeta in E.
    set (k := le64toh (firstn 8 (unread f))) in E.
    set (rest := skipn 8 (unread f)) in E.
    destruct (k >=? 4096); [discriminate |].
    destruct (Z.of_nat (List.length rest) <? k); [discriminate |].
    apply (f_equal snd) in E. cbn [snd] in E. subst f'. cbn [unread].
    subst rest. rewrite !length_skipn. lia.
  - destruct (unread f) as [| b l] eqn:U.
    + pose proof (next_at_end sd_lldp_neighbor_from_raw f U) as A.
      rewrite E in A. discriminate.
    + assert (Hne : unread f <> []) by (rewrite U; discriminate).
      rewrite <- U in H8.
      pose proof (next_short_prefix sd_lldp_neighbor_from_raw f Hne H8) as A.
      rewrite E in A. discriminate.
Qed.

Lemma status_file_fuel link_name fuel1 :
  forall fuel2 f st,
    (List.length (unread f) < fuel1)%nat ->
    (List.length (unread f) < fuel2)%nat ->
    status_file fuel1 link_name f st = status_file fuel2 link_name f st.
Proof.
  induction fuel1 as [| fuel1 IH]; intros fuel2 f st H1 H2; [lia |].
  destruct fuel2 as [| fuel2]; [lia |].
  cbn [link_lldp_status_file].
  destruct (next f) as [[[n |] | e] f'] eqn:E; try reflexivity.
  apply next_progress in E.
  destruct (lldp_line ellipsize link_name n). apply IH; lia.
Qed.

Lemma dump_loop_fuel prefix fuel1 :
  forall fuel2 f c table,
    (List.length (unread f) < fuel1)%nat ->
    (List.length (unread f) < fuel2)%nat ->
    dump_loop fuel1 prefix f c table = dump_loop fuel2 prefix f c table.
Proof.
  induction fuel1 as [| fuel1 IH]; intros fuel2 f c table H1 H2; [lia |].
  destruct fuel2 as [| fuel2]; [lia |].
  cbn [dump_lldp_neighbors_loop].
  destruct (next f) as [[[n |] | e] f'] eqn:E; try reflexivity.
  apply next_progress in E. apply IH; lia.
Qed.

Lemma status_file_bound link_name fuel :
  forall f st,
    m (status_file fuel link_name f st) <=
    m st + Z.of_nat (List.length (unread f) / 8).
Proof.
  induction fuel as [| fuel IH]; intros f st.
  - cbn [link_lldp_status_file]. lia.
  - cbn [link_lldp_status_file].
    destruct (next f) as [[[n |] | e] f'] eqn:E; try lia.
    apply next_progress in E.
    destruct (lldp_line ellipsize link_name n) as [line cc].
    etransitivity; [apply IH |]. cbn [m].
    assert (D : (List.length (unread f') / 8 + 1 <=
                 List.length (unread f) / 8)%nat).
    { replace (List.length (unread f') / 8 + 1)%nat
        with ((List.length (unread f') + 1 * 8) / 8)%nat
        by (rewrite Nat.div_add by discriminate; reflexivity).
      apply Nat.Div0.div_le_mono. lia. }
    lia.
Qed.

(** X3.  The two loops that read a store file come to an end on every
    file, intact or not: each round that goes on has consumed at least
    eight bytes, so no amount of fuel above the number of unread bytes
    changes what they compute, and a file of n bytes never yields more
    than n / 8 neighbors. *)
Theorem X3_store_loops_terminate link_name prefix f fuel :
  (List.length (unread f) < fuel)%nat ->
  (forall st,
     link_lldp_status_file sd_lldp_neighbor_from_raw ellipsize
       fuel link_name f st =
     link_lldp_status_file sd_lldp_neighbor_from_raw ellipsize
       (S (List.length (unread f))) link_name f st) /\
  (forall c table,
     dump_lldp_neighbors_loop sd_lldp_neighbor_from_raw
       fuel prefix f c table =
     dump_lldp_neighbors_loop sd_lldp_neighbor_from_raw
       (S (List.length (unread f))) prefix f c table) /\
  (forall st,
     m (link_lldp_status_file sd_lldp_neighbor_from_raw ellipsize
          fuel link_name f st) <=
     m st + Z.of_nat (List.length (unread f) / 8)).
Proof.
  intro H. split; [| split]; intros.
  - apply status_file_fuel; lia.
  - apply dump_loop_fuel; lia.
  - apply status_file_bound.
Qed.

(** X1.  Round trip of the store: for a link whose file holds N
    well-stored frames and nothing else, [link_lldp_status] counts and
    prints the N records they decode to, in the order written, finds a
    clean end of the stream and passes to the next link. *)
Theorem X1_store_round_trip fs link links frames ns st :
  open_lldp_neighbors fs (ifindex link) =
    Ok (mk_FILE (store_image frames) false) ->
  well_stored sd_lldp_neighbor_from_raw frames ns ->
  fst (next (mk_FILE [] false)) = Ok None /\
  status_loop fs (link :: links) st =
  status_loop fs links (fold_left (count_neighbor ellipsize (name link)) ns st).
Proof.
  intros Hopen Hframes. split; [now apply next_at_end |].
  cbn [link_lldp_status_loop]. rewrite Hopen. f_equal. cbn [unread].
  replace (mk_FILE (store_image frames) false)
    with (mk_FILE (store_image frames ++ []) false)
    by now rewrite app_nil_r.
  rewrite (status_file_frames _ _ _ _ _ Hframes).
  2:{ pose proof (length_store_image frames). lia. }
  replace (S (List.length (store_image frames)) - List.length frames)%nat
    with (S (List.length (store_image frames) - List.length frames))
    by (pose proof (length_store_image frames); lia).
  cbn [link_lldp_status_file].
  pose proof (next_at_end sd_lldp_neighbor_from_raw (mk_FILE [] false) eq_refl)
    as A.
  destruct (next (mk_FILE [] false)) as [[[n |] | e] f']; cbn in A;
    try discriminate; reflexivity.
Qed.

(** The loop of [dump_lldp_neighbors] over well-stored frames adds three
    cells for each and counts it. *)
Lemma dump_loop_frames_cells prefix frames ns :
  well_stored sd_lldp_neighbor_from_raw frames ns ->
  forall fuel tail eof c table,
    (List.length frames < fuel)%nat ->
    exists cells,
      List.length cells = (3 * List.length frames)%nat /\
      dump_loop fuel prefix (mk_FILE (store_image frames ++ tail) eof) c table =
      dump_loop (fuel - List.length frames) prefix (mk_FILE tail eof)
        (c + Z.of_nat (List.length frames)) (table ++ cells).
Proof.
  induction 1 as [| raw n frames ns [Hraw Hlen] _ IH];
    intros fuel tail eof c table Hf.
  - exists []. cbn. now rewrite Nat.sub_0_r, Z.add_0_r, app_nil_r.
  - destruct fuel as [| fuel]; [cbn in Hf; lia |].
    cbn [store_image flat_map List.length Nat.sub].
    rewrite <- app_assoc. cbn [dump_lldp_neighbors_loop].
    rewrite next_store_frame by exact Hlen. rewrite Hraw.
    cbn [frame_outcome]. fold (store_image frames).
    unfold table_add_cell. rewrite <- !app_assoc. cbn [app].
    edestruct (IH fuel tail eof) as (cells & Hc & E); [cbn in Hf; lia |].
    eexists (_ :: _ :: _ :: cells). split; [cbn; lia |].
    rewrite E, <- app_assoc. cbn [app]. f_equal. lia.
Qed.

(** X2.  On a store file holding N well-stored frames and nothing else,
    [dump_lldp_neighbors] returns N and leaves the table with the cells
    it had, followed by three new cells for each record. *)
Theorem X2_dump_lldp_neighbors_counts fs table prefix index frames ns :
  fs ("/run/systemd/netif/lldp/" ++ decimal_str index)%string =
    Ok (store_image frames) ->
  well_stored sd_lldp_neighbor_from_raw frames ns ->
  exists cells,
    List.length cells = (3 * List.length frames)%nat /\
    dump_lldp_neighbors sd_lldp_neighbor_from_raw fs table prefix index =
      (Ok (Z.of_nat (List.length frames)), table ++ cells).
Proof.
  intros Hfs Hframes. unfold dump_lldp_neighbors, open_lldp_neighbors.
  rewrite Hfs. cbn [unread].
  replace (mk_FILE (store_image frames) false)
    with (mk_FILE (store_image frames ++ []) false)
    by now rewrite app_nil_r.
  edestruct (dump_loop_frames_cells prefix _ _ Hframes) as (cells & Hc & E);
    [| rewrite E].
  { pose proof (length_store_image frames). apply Nat.lt_succ_r. lia. }
  exists cells. split; [exact Hc |].
  replace (S (List.length (store_image frames)) - List.length frames)%nat
    with (S (List.length (store_image frames) - List.length frames))
    by (pose proof (length_store_image frames); lia).
  cbn [dump_lldp_neighbors_loop].
  pose proof (next_at_end sd_lldp_neighbor_from_raw (mk_FILE [] false) eq_refl)
    as A.
  destruct (next (mk_FILE [] false)) as [[[n |] | e] f']; cbn in A;
    try discriminate.
  reflexivity.
Qed.

(** Every neighbor counted by the inner loop of [link_lldp_status] has
    its line on stdout, after the lines that were there. *)
Lemma status_file_counts link_name fuel :
  forall f st, exists lines,
    stdout (status_file fuel link_name f st) = stdout st ++ lines /\
    m (status_file fuel link_name f st) = m st + Z.of_nat (List.length lines).
Proof.
  induction fuel as [| fuel IH]; intros f st.
  - exists []. cbn. now rewrite app_nil_r, Z.add_0_r.
  - cbn [link_lldp_status_file].
    destruct (next f) as [[[n |] | e] f'];
      try (exists []; cbn; now rewrite app_nil_r, Z.add_0_r).
    destruct (lldp_line ellipsize link_name n) as [line cc].
    edestruct IH as (lines & Hs & Hm). exists (line :: lines).
    rewrite Hs, Hm. cbn [stdout m List.length].
    rewrite <- app_assoc. split; [reflexivity | lia].
Qed.

Lemma status_loop_counts fs links :
  forall st, exists lines,
    stdout (status_loop fs links st) = stdout st ++ lines /\
    m (status_loop fs links st) = m st + Z.of_nat (List.length lines).
Proof.
  induction links as [| link links IH]; intro st.
  - exists []. cbn. now rewrite app_nil_r, Z.add_0_r.
  - cbn [link_lldp_status_loop].
    destruct (open_lldp_neighbors fs (ifindex link)) as [f |]; [| apply IH].
    destruct (status_file_counts (name link) (S (List.length (unread f))) f st)
      as (l1 & Hs1 & Hm1).
    destruct (IH (status_file (S (List.length (unread f))) (name link) f st))
      as (l2 & Hs2 & Hm2).
    exists (l1 ++ l2). rewrite Hs2, Hm2, Hs1, Hm1, length_app, <- app_assoc.
    split; [reflexivity | lia].
Qed.

(** X4.  Whatever the store files hold, the number of neighbors that
    [link_lldp_status] reports in its footer is the number of neighbor
    lines it has printed: all of stdout, less the header line when the
    legend is on. *)
Theorem X4_neighbors_listed_is_lines_printed
    fnmatch rtnl fresh fs arg_legend argv st :
  link_lldp_status sd_lldp_neighbor_from_raw ellipsize fnmatch rtnl fresh fs
    arg_legend argv = Ok st ->
  m st = Z.of_nat (List.length (stdout st)) - (if arg_legend then 1 else 0).
Proof.
  unfold link_lldp_status.
  destruct rtnl as [rtnl |]; cbn [bind]; [| discriminate].
  destruct (acquire_link_info fnmatch rtnl fresh (patterns_of_argv argv))
    as [[c links] |]; cbn [bind]; [| discriminate].
  destruct (c <? 0); [discriminate |].
  intro H. injection H as <-.
  edestruct status_loop_counts as (lines & Hs & Hm).
  rewrite Hs, Hm. cbn [stdout m]. rewrite length_app.
  destruct arg_legend; cbn [List.length]; lia.
Qed.

End StoreReading.

(** * A damaged store among intact ones *)

Section MalformedStore.

Variable sd_lldp_neighbor_from_raw : list byte -> res sd_lldp_neighbor.
Variable ellipsize : string -> nat -> string.

Local Abbreviation next := (next_lldp_neighbor sd_lldp_neighbor_from_raw).
Local Abbreviation status_file :=
  (link_lldp_status_file sd_lldp_neighbor_from_raw ellipsize).
Local Abbreviation status_loop :=
  (link_lldp_status_loop sd_lldp_neighbor_from_raw ellipsize).
Local Abbreviation dump_loop :=
  (dump_lldp_neighbors_loop sd_lldp_neighbor_from_raw).
Local Abbreviation holds := (store_holds sd_lldp_neighbor_from_raw).

(** A link whose store is in order adds its neighbors, and the loop of
    [link_lldp_status] goes on. *)
Lemma status_loop_store_holds fs link links ns st :
  holds fs link ns ->
  status_loop fs (link :: links) st =
  status_loop fs links (fold_left (count_neighbor ellipsize (name link)) ns st).
Proof.
  intros [[Hopen ->] | (frames & Hopen & Hframes)];
    cbn [link_lldp_status_loop]; rewrite Hopen; [reflexivity |].
  f_equal. cbn [unread].
  replace (mk_FILE (store_image frames) false)
    with (mk_FILE (store_image frames ++ []) false)
    by now rewrite app_nil_r.
  rewrite (status_file_frames _ _ _ _ _ Hframes).
  2:{ pose proof (length_store_image frames). lia. }
  replace (S (List.length (store_image frames)) - List.length frames)%nat
    with (S (List.length (store_image frames) - List.length frames))
    by (pose proof (length_store_image frames); lia).
  cbn [link_lldp_status_file].
  pose proof (next_at_end sd_lldp_neighbor_from_raw (mk_FILE [] false) eq_refl)
    as A.
  destruct (next (mk_FILE [] false)) as [[[n |] | e] f']; cbn in A;
    try discriminate; reflexivity.
Qed.

Lemma status_loop_all_hold fs links nss :
  Forall2 (holds fs) links nss ->
  forall st, status_loop fs links st = count_links ellipsize links nss st.
Proof.
  induction 1 as [| link ns links nss Hl _ IH]; intro st; [reflexivity |].
  rewrite (status_loop_store_holds _ _ _ _ _ Hl), IH. reflexivity.
Qed.

(** A link whose store is damaged after the frames decoding to [ns] adds
    these and nothing of what follows them. *)
Lemma status_loop_damaged fs bad links frames ns tail e st :
  open_lldp_neighbors fs (ifindex bad) =
    Ok (mk_FILE (store_image frames ++ tail) false) ->
  well_stored sd_lldp_neighbor_from_raw frames ns ->
  fst (next (mk_FILE tail false)) = Err e ->
  status_loop fs (bad :: links) st =
  status_loop fs links (fold_left (count_neighbor ellipsize (name bad)) ns st).
Proof.
  intros Hopen Hframes Htail.
  cbn [link_lldp_status_loop]. rewrite Hopen. f_equal. cbn [unread].
  rewrite (status_file_frames _ _ _ _ _ Hframes).
  2:{ pose proof (length_store_image frames). rewrite length_app. lia. }
  rewrite length_app.
  replace (S (List.length (store_image frames) + List.length tail) -
           List.length frames)%nat
    with (S (List.length (store_image frames) + List.length tail -
             List.length frames))
    by (pose proof (length_store_image frames); lia).
  cbn [link_lldp_status_file].
  destruct (next (mk_FILE tail false)) as [[[n |] | e'] f']; cbn in Htail;
    try discriminate; reflexivity.
Qed.

Lemma count_links_app l1 n1 l2 n2 st :
  List.length l1 = List.length n1 ->
  count_links ellipsize (l1 ++ l2) (n1 ++ n2) st =
  count_links ellipsize l2 n2 (count_links ellipsize l1 n1 st).
Proof.
  revert n1 st. induction l1 as [| l l1 IH]; intros [| n n1] st H;
    try discriminate; [reflexivity |].
  injection H as H. unfold count_links in *. cbn [app combine fold_left].
  apply IH. exact H.
Qed.

Lemma count_neighbors_m link_name ns st :
  m (fold_left (count_neighbor ellipsize link_name) ns st) =
  m st + Z.of_nat (List.length ns).
Proof.
  revert st. induction ns as [| n ns IH]; intro st; cbn [fold_left List.length].
  - lia.
  - rewrite IH. cbn [count_neighbor m]. lia.
Qed.

Lemma count_links_m links nss :
  List.length links = List.length nss ->
  forall st,
    m (count_links ellipsize links nss st) =
    m st + Z.of_nat (List.length (List.concat nss)).
Proof.
  revert nss. induction links as [| l links IH]; intros [| ns nss] H st;
    try discriminate.
  - cbn. lia.
  - injection H as H. unfold count_links in *.
    cbn [combine fold_left fst snd List.concat]. rewrite (IH nss H).
    rewrite count_neighbors_m, length_app. lia.
Qed.

(** The loop of [dump_lldp_neighbors] over well-stored frames adds the
    row of each and counts it. *)
Lemma dump_loop_frames_rows prefix frames ns :
  well_stored sd_lldp_neighbor_from_raw frames ns ->
  forall fuel tail eof c table,
    (List.length frames < fuel)%nat -> 0 <= c ->
    dump_loop fuel prefix (mk_FILE (store_image frames ++ tail) eof) c table =
    dump_loop (fuel - List.length frames) prefix (mk_FILE tail eof)
      (c + Z.of_nat (List.length frames))
      (table ++ neighbor_rows prefix (c =? 0) ns).
Proof.
  induction 1 as [| raw n frames ns [Hraw Hlen] _ IH];
    intros fuel tail eof c table Hf Hc.
  - cbn. now rewrite Nat.sub_0_r, Z.add_0_r, app_nil_r.
  - destruct fuel as [| fuel]; [cbn in Hf; lia |].
    cbn [store_image flat_map List.length Nat.sub].
    rewrite <- app_assoc. cbn [dump_lldp_neighbors_loop].
    rewrite next_store_frame by exact Hlen. rewrite Hraw.
    cbn [frame_outcome]. fold (store_image frames).
    rewrite IH by (cbn in Hf; lia).
    replace (c + 1 =? 0) with false by (symmetry; apply Z.eqb_neq; lia).
    unfold table_add_cell. cbn [neighbor_rows].
    unfold neighbor_row at 1. rewrite <- !app_assoc. cbn [app].
    f_equal. lia.
Qed.

(** A link whose store is in order has its table printed with the rows
    of its neighbors. *)
Lemma link_status_one_holds status_table fs link t ns :
  holds fs link ns ->
  status_table link = Ok t ->
  link_status_one sd_lldp_neighbor_from_raw status_table fs link =
  Ok (t ++ neighbor_rows "Connected To:" true ns).
Proof.
  intros [[Hopen ->] | (frames & Hopen & Hframes)] Ht;
    unfold link_status_one, dump_lldp_neighbors; rewrite Ht, Hopen;
    cbn [bind].
  - cbn. now rewrite app_nil_r.
  - cbn [unread].
    replace (mk_FILE (store_image frames) false)
      with (mk_FILE (store_image frames ++ []) false)
      by now rewrite app_nil_r.
    rewrite (dump_loop_frames_rows _ _ _ Hframes).
    2:{ pose proof (length_store_image frames). lia. }
    2:{ lia. }
    replace (S (List.length (store_image frames)) - List.length frames)%nat
      with (S (List.length (store_image frames) - List.length frames))
      by (pose proof (length_store_image frames); lia).
    cbn [dump_lldp_neighbors_loop].
    pose proof (next_at_end sd_lldp_neighbor_from_raw (mk_FILE [] false)
                  eq_refl) as A.
    destruct (next (mk_FILE [] false)) as [[[n |] | e] f']; cbn in A;
      try discriminate.
    reflexivity.
Qed.

Lemma link_status_loop_all_hold status_table fs links :
  forall nss ts i,
    Forall2 (holds fs) links nss ->
    Forall2 (fun l t => status_table l = Ok t) links ts ->
    link_status_loop sd_lldp_neighbor_from_raw status_table fs i links =
    print_tables i (with_neighbors "Connected To:" ts nss).
Proof.
  induction links as [| l links IH]; intros nss ts i Hs Ht;
    inversion Hs; inversion Ht; subst; [reflexivity |].
  cbn [link_status_loop with_neighbors combine map print_tables fst snd].
  erewrite link_status_one_holds by eassumption.
  f_equal. f_equal. apply IH; assumption.
Qed.

(** A link whose store is damaged has no table printed. *)
Lemma link_status_one_damaged status_table fs bad frames ns tail e :
  open_lldp_neighbors fs (ifindex bad) =
    Ok (mk_FILE (store_image frames ++ tail) false) ->
  well_stored sd_lldp_neighbor_from_raw frames ns ->
  fst (next (mk_FILE tail false)) = Err e ->
  is_ok (link_status_one sd_lldp_neighbor_from_raw status_table fs bad) =
  false.
Proof.
  intros Hopen Hframes Htail. unfold link_status_one.
  destruct (status_table bad) as [table |]; cbn [bind]; [| reflexivity].
  pose proof (dump_malformed sd_lldp_neighbor_from_raw fs table
                "Connected To:" (ifindex bad) frames ns tail e
                Hopen Hframes Htail) as D.
  destruct (dump_lldp_neighbors _ _ _ _ _) as [r table'].
  cbn [fst] in D. subst r. reflexivity.
Qed.

(** C8.  Let the store file of the link [bad] hold well-stored frames
    and then malformed framing, and let the stores of the links before
    and after it be in order: no file, or well-stored frames only.  Then
    [link_lldp_status] prints and counts, link after link, the neighbors
    of every store: for the damaged one those read before the damage and
    nothing of what follows it, for every other one all of them; the
    number of neighbors reported is their total.  In [link_status] every
    other link has its table printed with one row for each neighbor of
    its store, and the damaged link leaves only the newline that
    separates it from the links before it. *)
Theorem C8_malformed_store_is_local
    fs pre bad post frames ns tail e nss_pre nss_post :
  open_lldp_neighbors fs (ifindex bad) =
    Ok (mk_FILE (store_image frames ++ tail) false) ->
  well_stored sd_lldp_neighbor_from_raw frames ns ->
  fst (next_lldp_neighbor sd_lldp_neighbor_from_raw (mk_FILE tail false)) =
    Err e ->
  Forall2 (store_holds sd_lldp_neighbor_from_raw fs) pre nss_pre ->
  Forall2 (store_holds sd_lldp_neighbor_from_raw fs) post nss_post ->
  (forall st,
     link_lldp_status_loop sd_lldp_neighbor_from_raw ellipsize fs
       (pre ++ bad :: post) st =
     count_links ellipsize (pre ++ bad :: post) (nss_pre ++ ns :: nss_post)
       st) /\
  (forall st,
     m (link_lldp_status_loop sd_lldp_neighbor_from_raw ellipsize fs
          (pre ++ bad :: post) st) =
     m st + Z.of_nat (List.length (List.concat nss_pre) + List.length ns +
                      List.length (List.concat nss_post))) /\
  (forall status_table ts_pre ts_post,
     Forall2 (fun l t => status_table l = Ok t) pre ts_pre ->
     Forall2 (fun l t => status_table l = Ok t) post ts_post ->
     link_status_loop sd_lldp_neighbor_from_raw status_table fs 0
       (pre ++ bad :: post) =
     print_tables 0 (with_neighbors "Connected To:" ts_pre nss_pre) ++
     (if (0 <? List.length pre)%nat then [Newline] else []) ++
     print_tables (S (List.length pre))
       (with_neighbors "Connected To:" ts_post nss_post)).
Proof.
  intros Hopen Hframes Htail Hpre Hpost.
  assert (Hloop : forall st,
            status_loop fs (pre ++ bad :: post) st =
            count_links ellipsize (pre ++ bad :: post)
              (nss_pre ++ ns :: nss_post) st).
  { intro st. rewrite status_loop_app.
    rewrite (status_loop_damaged _ _ _ _ _ _ _ _ Hopen Hframes Htail).
    rewrite (status_loop_all_hold _ _ _ Hpost).
    rewrite (status_loop_all_hold _ _ _ Hpre).
    rewrite (count_links_app _ _ _ _ _ (Forall2_length Hpre)).
    reflexivity. }
  split; [exact Hloop |]. split.
  - intro st. rewrite Hloop, count_links_m.
    + rewrite concat_app. cbn [List.concat]. rewrite !length_app. f_equal. lia.
    + rewrite !length_app. cbn [List.length].
      now rewrite (Forall2_length Hpre), (Forall2_length Hpost).
  - intros status_table ts_pre ts_post Tpre Tpost.
    rewrite link_status_loop_app. cbn [link_status_loop Nat.add].
    rewrite (link_status_loop_all_hold _ _ _ _ _ _ Hpre Tpre).
    rewrite (link_status_loop_all_hold _ _ _ _ _ _ Hpost Tpost).
    pose proof (link_status_one_damaged status_table _ _ _ _ _ _
                  Hopen Hframes Htail) as D.
    destruct (link_status_one sd_lldp_neighbor_from_raw status_table fs bad);
      [discriminate |].
    reflexivity.
Qed.

End MalformedStore.

Lemma C8_witness :
  m (link_lldp_status_loop neighbor_of_raw no_ellipsis lldp_files
       ([link_named 4 "eth4"] ++ link_named 5 "eth5" ::
        [link_named 6 "eth6"; link_named 7 "eth7"])
       (mk_lldp_status [] 0 0)) = 1 /\
  link_status_loop neighbor_of_raw (fun _ => Ok []) lldp_files 0
    ([link_named 4 "eth4"] ++ link_named 5 "eth5" ::
     [link_named 6 "eth6"; link_named 7 "eth7"]) =
  [Printed []; Newline; Newline;
   Printed [TABLE_EMPTY; TABLE_STRING "Connected To:";
            TABLE_STRING "switch on port 01(null)"];
   Newline; Printed []].
Proof.
  destruct (C8_malformed_store_is_local neighbor_of_raw no_ellipsis lldp_files
              [link_named 4 "eth4"] (link_named 5 "eth5")
              [link_named 6 "eth6"; link_named 7 "eth7"]
              [] [] (htole64 10 ++ repeat x2a 8) EBADMSG
              [[]]
              [[mk_neighbor None (Some "01"%string) (Some "switch"%string)
                  None (Some 4)]; []])
    as (_ & Hm & Ht).
  - reflexivity.
  - constructor.
  - reflexivity.
  - repeat constructor.
  - constructor.
    + right. exists [[x01; x02]]. split; [reflexivity |].
      repeat constructor.
    + repeat constructor.
  - split.
    + rewrite Hm. reflexivity.
    + rewrite (Ht (fun _ => Ok []) [[]] [[]; []]);
        [reflexivity | repeat constructor | repeat constructor].
Defined.


Lemma X1_witness :
  open_lldp_neighbors lldp_files 6 =
    Ok (mk_FILE (store_image [[x01; x02]]) false) /\
  link_lldp_status_loop neighbor_of_raw no_ellipsis lldp_files
    [link_named 6 "eth6"] (mk_lldp_status [] 0 0) =
  count_neighbor no_ellipsis "eth6" (mk_lldp_status [] 0 0)
    (mk_neighbor None (Some "01"%string) (Some "switch"%string) None (Some 4)).
Proof.
  split; [reflexivity |].
  destruct (X1_store_round_trip neighbor_of_raw no_ellipsis lldp_files
              (link_named 6 "eth6") [] [[x01; x02]]
              [mk_neighbor None (Some "01"%string) (Some "switch"%string)
                 None (Some 4)]
              (mk_lldp_status [] 0 0)) as [_ H].
  - reflexivity.
  - repeat constructor.
  - exact H.
Defined.

Lemma X2_witness :
  exists cells,
    List.length cells = 3%nat /\
    dump_lldp_neighbors neighbor_of_raw lldp_files [] "Connected To:" 6 =
      (Ok 1, [] ++ cells).
Proof.
  apply (X2_dump_lldp_neighbors_counts neighbor_of_raw lldp_files []
           "Connected To:" 6 [[x01; x02]]
           [mk_neighbor None (Some "01"%string) (Some "switch"%string)
              None (Some 4)]).
  - reflexivity.
  - repeat constructor.
Defined.

Lemma X3_witness :
  link_lldp_status_file neighbor_of_raw no_ellipsis 100 "eth5"
    (mk_FILE (htole64 10 ++ repeat x2a 8) false) (mk_lldp_status [] 0 0) =
  link_lldp_status_file neighbor_of_raw no_ellipsis 17 "eth5"
    (mk_FILE (htole64 10 ++ repeat x2a 8) false) (mk_lldp_status [] 0 0).
Proof.
  destruct (X3_store_loops_terminate neighbor_of_raw no_ellipsis "eth5"
              "Connected To:" (mk_FILE (htole64 10 ++ repeat x2a 8) false) 100)
    as (H & _ & _).
  - cbn. lia.
  - exact (H (mk_lldp_status [] 0 0)).
Defined.

Lemma X4_witness :
  exists st,
    link_lldp_status neighbor_of_raw no_ellipsis fnmatch_literal
      (Ok (netlink_replying
             [plain_link_message 5 "eth5"; plain_link_message 6 "eth6"]))
      (fun _ => stale_slot) lldp_files true ["lldp"%string] = Ok st /\
    m st = 1 /\
    m st = Z.of_nat (List.length (stdout st)) - 1.
Proof.
  eexists. split; [vm_compute; reflexivity |]. split; [reflexivity |].
  eapply (X4_neighbors_listed_is_lines_printed neighbor_of_raw no_ellipsis
            fnmatch_literal
            (Ok (netlink_replying
                   [plain_link_message 5 "eth5"; plain_link_message 6 "eth6"]))
            (fun _ => stale_slot) lldp_files true ["lldp"%string]).
  vm_compute. reflexivity.
Defined.

(** * Properties of [lldp_capabilities_to_string] *)

Lemma land_single_bit (x : Z) (i : Z) :
  0 <= i -> (Z.land x (Z.shiftl 1 i) =? 0) = negb (Z.testbit x i).
Proof.
  intro Hi. rewrite Z.shiftl_1_l.
  assert (E : Z.land x (2 ^ i) = if Z.testbit x i then 2 ^ i else 0).
  { apply Z.bits_inj'. intros j Hj.
    rewrite Z.land_spec, Z.pow2_bits_eqb by exact Hi.
    destruct (Z.eqb_spec i j) as [<- | Hne].
    - destruct (Z.testbit x i) eqn:B; cbn.
      + now rewrite Z.pow2_bits_true.
      + now rewrite Z.bits_0.
    - rewrite andb_false_r.
      destruct (Z.testbit x i); [| now rewrite Z.bits_0].
      rewrite Z.pow2_bits_false; [reflexivity | exact Hne]. }
  rewrite E. destruct (Z.testbit x i); cbn [negb].
  - apply Z.eqb_neq. pose proof (Z.pow_pos_nonneg 2 i). lia.
  - reflexivity.
Qed.

(** X5.  The capability string always has eleven characters, and its
    character at position [i] is the letter of that position when bit
    [i] of the mask is set, and a dot when it is clear; bits from 11
    upwards have no effect. *)
Theorem X5_capabilities_string_follows_bits (x : Z) :
  String.length (lldp_capabilities_to_string x) = 11%nat /\
  (forall i, (i < 11)%nat ->
     String.get i (lldp_capabilities_to_string x) =
     Some (if Z.testbit x (Z.of_nat i)
           then nth i capability_letters "."%char
           else "."%char)) /\
  lldp_capabilities_to_string x = lldp_capabilities_to_string (x mod 2 ^ 11).
Proof.
  assert (F : forall y, lldp_capabilities_to_string y =
    string_of_list_ascii
      (map (fun ic : nat * ascii =>
              if Z.testbit y (Z.of_nat (fst ic)) then snd ic else "."%char)
           (combine (seq 0 11) capability_letters))).
  { intro y. unfold lldp_capabilities_to_string. f_equal.
    apply map_ext. intros [i c]. cbn [fst snd].
    rewrite land_single_bit by lia. now destruct (Z.testbit y (Z.of_nat i)). }
  split; [| split].
  - rewrite F. cbn. repeat (destruct (Z.testbit x _)); reflexivity.
  - intros i Hi. rewrite F.
    do 11 (destruct i as [| i];
           [cbn; repeat (destruct (Z.testbit x _)); reflexivity |]).
    lia.
  - rewrite !F. f_equal. apply map_ext_in. intros [i c] Hin.
    cbn [fst snd].
    assert (Hi : (i < 11)%nat).
    { apply in_combine_l in Hin. apply in_seq in Hin. lia. }
    rewrite Z.mod_pow2_bits_low by lia. reflexivity.
Qed.

Lemma X5_witness :
  String.get 2 (lldp_capabilities_to_string 5) = Some "b"%char.
Proof.
  destruct (X5_capabilities_string_follows_bits 5) as (_ & H & _).
  exact (H 2%nat ltac:(lia)).
Defined.

(** * Further properties of link enumeration *)

(** X6.  [link_info_compare] is a comparison function as [qsort] needs
    one: swapping the arguments negates the result, it is zero exactly
    on records of equal index, and "not after" is transitive. *)
Theorem X6_link_info_compare_is_an_order (a b c : LinkInfo) :
  link_info_compare a b = - link_info_compare b a /\
  (link_info_compare a b = 0 <-> ifindex a = ifindex b) /\
  (link_info_compare a b < 0 <-> ifindex a < ifindex b) /\
  (link_info_compare a b <= 0 -> link_info_compare b c <= 0 ->
   link_info_compare a c <= 0).
Proof.
  unfold link_info_compare.
  rewrite !Z.gtb_ltb.
  destruct (Z.ltb_spec (ifindex a) (ifindex b)),
           (Z.ltb_spec (ifindex b) (ifindex a)),
           (Z.ltb_spec (ifindex b) (ifindex c)),
           (Z.ltb_spec (ifindex c) (ifindex b)),
           (Z.ltb_spec (ifindex a) (ifindex c)),
           (Z.ltb_spec (ifindex c) (ifindex a)); lia.
Qed.

Lemma X6_witness :
  link_info_compare lo_record eth0_record <= 0 /\
  link_info_compare eth0_record stale_slot <= 0 /\
  link_info_compare lo_record stale_slot <= 0.
Proof.
  assert (H1 : link_info_compare lo_record eth0_record <= 0)
    by (vm_compute; discriminate).
  assert (H2 : link_info_compare eth0_record stale_slot <= 0)
    by (vm_compute; discriminate).
  split; [exact H1 |]. split; [exact H2 |].
  destruct (X6_link_info_compare_is_an_order lo_record eth0_record stale_slot)
    as (_ & _ & _ & T).
  exact (T H1 H2).
Defined.

Section LinkEnumeration.

Variable fnmatch : string -> string -> bool.

(** X7.  The name stored in a decoded record is the beginning of the
    name read from the message, cut after [IFNAMSIZ] characters: it never
    exceeds the sixteen characters the field has room for, and it is the
    whole name when that has no more than sixteen. *)
Theorem X7_stored_name_fits m info patterns info' :
  decode_link fnmatch m info patterns = Ok (Some info') ->
  exists ifname,
    sd_netlink_message_read_string m IFLA_IFNAME = Ok ifname /\
    name info' = substring 0 IFNAMSIZ ifname /\
    (String.length (name info') <= IFNAMSIZ)%nat /\
    ((String.length ifname <= IFNAMSIZ)%nat -> name info' = ifname).
Proof.
  intro H. apply decode_link_some in H.
  destruct H as (index & ifname & type & _ & _ & Hn & _ & _ & ->).
  exists ifname. unfold decoded, strscpy. cbn [name].
  replace (IFNAMSIZ + 1 - 1)%nat with IFNAMSIZ by (unfold IFNAMSIZ; lia).
  split; [exact Hn |]. split; [reflexivity |]. split.
  - rewrite length_substring_0. lia.
  - apply substring_0_all.
Qed.

(** Whether a message decodes does not depend on what the slot held. *)
Lemma decode_link_ok_any_slot m info info' patterns :
  is_ok (decode_link fnmatch m info patterns) =
  is_ok (decode_link fnmatch m info' patterns).
Proof.
  destruct (sd_netlink_message_get_type m) as [t |] eqn:Ht.
  2:{ unfold decode_link. now rewrite Ht. }
  destruct (Z.eqb_spec t RTM_NEWLINK) as [-> | Hne].
  2:{ now rewrite !(decode_link_other_type fnmatch _ _ _ _ Ht Hne). }
  destruct (sd_rtnl_message_link_get_ifindex m) as [index |] eqn:Hi.
  2:{ unfold decode_link. now rewrite Ht, Hi. }
  destruct (sd_netlink_message_read_string m IFLA_IFNAME) as [ifname |] eqn:Hn.
  2:{ unfold decode_link. now rewrite Ht, Hi, Hn. }
  rewrite !(decode_link_newlink fnmatch _ _ _ _ _ Ht Hi Hn).
  destruct (passes_filter fnmatch patterns index ifname); [| reflexivity].
  now destruct (sd_rtnl_message_link_get_type m).
Qed.

(** Over messages that decode, the loop goes on with some slots filled. *)
Lemma acquire_loop_prefix fresh patterns pre :
  (forall x info, In x pre ->
     is_ok (decode_link fnmatch x info patterns) = true) ->
  forall rest links, exists links',
    acquire_link_info_loop fnmatch fresh patterns (pre ++ rest) links =
    acquire_link_info_loop fnmatch fresh patterns rest links'.
Proof.
  induction pre as [| x pre IH]; intros Hok rest links.
  - exists links. reflexivity.
  - cbn [app acquire_link_info_loop].
    pose proof (Hok x (fresh (List.length links)) (or_introl eq_refl)) as Hx.
    destruct (decode_link fnmatch x (fresh (List.length links)) patterns)
      as [[r |] |]; [| | discriminate]; cbn [bind];
      apply IH; intros; apply Hok; now right.
Qed.

(** X8.  The first message of the dump that fails to decode ends the
    enumeration with its error: nothing is returned for the messages
    before it, and the ones after it are not looked at. *)
Theorem X8_first_decode_error_aborts rtnl fresh patterns pre m post info0 e :
  sd_rtnl_message_new rtnl RTM_GETLINK = Ok tt ->
  sd_netlink_message_request_dump rtnl RTM_GETLINK = Ok tt ->
  sd_netlink_call rtnl RTM_GETLINK = Ok (pre ++ m :: post) ->
  (forall x info, In x pre ->
     is_ok (decode_link fnmatch x info patterns) = true) ->
  decode_link fnmatch m info0 patterns = Err e ->
  acquire_link_info fnmatch rtnl fresh patterns = Err e.
Proof.
  intros Hnew Hdump Hcall Hpre Hm.
  unfold acquire_link_info. rewrite Hnew, Hdump, Hcall. cbn [bind].
  destruct (acquire_loop_prefix fresh patterns pre Hpre (m :: post) [])
    as [links' ->].
  cbn [acquire_link_info_loop].
  pose proof (decode_link_ok_any_slot m info0
                (fresh (List.length links')) patterns) as S.
  rewrite Hm in S. cbn in S.
  destruct (decode_link fnmatch m (fresh (List.length links')) patterns)
    as [r | e'] eqn:E; [discriminate |]. cbn [bind].
  (* the error is the one of the failing read, whatever the slot *)
  clear S. revert E Hm. unfold decode_link.
  destruct (sd_netlink_message_get_type m) as [t |]; cbn [bind];
    [| congruence].
  destruct (negb (t =? RTM_NEWLINK)); [discriminate |].
  destruct (sd_rtnl_message_link_get_ifindex m); cbn [bind]; [| congruence].
  destruct (sd_netlink_message_read_string m IFLA_IFNAME); cbn [bind];
    [| congruence].
  match goal with |- context [if ?b then _ else _] => destruct b end;
    [discriminate |].
  destruct (sd_rtnl_message_link_get_type m); cbn [bind]; [| congruence].
  discriminate.
Qed.

End LinkEnumeration.

Lemma X7_witness :
  exists ifname,
    sd_netlink_message_read_string eth0_message IFLA_IFNAME = Ok ifname /\
    name eth0_record = substring 0 IFNAMSIZ ifname /\
    (String.length (name eth0_record) <= IFNAMSIZ)%nat /\
    ((String.length ifname <= IFNAMSIZ)%nat -> name eth0_record = ifname).
Proof.
  apply (X7_stored_name_fits fnmatch_literal eth0_message stale_slot None
           eth0_record).
  reflexivity.
Defined.

Lemma X8_witness :
  decode_link fnmatch_literal lo_untyped_message stale_slot None = Err EINVAL /\
  acquire_link_info fnmatch_literal
    (netlink_replying [eth0_message; lo_untyped_message; lo_message])
    (fun _ => stale_slot) None = Err EINVAL.
Proof.
  split; [reflexivity |].
  apply (X8_first_decode_error_aborts fnmatch_literal
           (netlink_replying [eth0_message; lo_untyped_message; lo_message])
           (fun _ => stale_slot) None [eth0_message] lo_untyped_message
           [lo_message] stale_slot EINVAL); try reflexivity.
  intros x info [<- | []]. reflexivity.
Defined.

Lemma NoDup_map_filter {A B : Type} (g : A -> B) (f : A -> bool) (l : list A) :
  NoDup (map g l) -> NoDup (map g (filter f l)).
Proof.
  induction l as [| x l IH]; cbn; intro H; [constructor |].
  inversion H as [| ? ? Hx Hl]; subst.
  destruct (f x); cbn; [| now apply IH].
  constructor; [| now apply IH].
  intro Hin. apply Hx. apply in_map_iff in Hin.
  destruct Hin as (y & Hy & Hyin). apply filter_In in Hyin.
  apply in_map_iff. exists y. tauto.
Qed.

Section FilteredEnumeration.

Variable fnmatch : string -> string -> bool.

(** A loop that ran to its end decoded every message of the reply. *)
Lemma acquire_loop_ok_inv fresh patterns reply :
  forall links result,
    acquire_link_info_loop fnmatch fresh patterns reply links = Ok result ->
    forall m info, In m reply ->
      is_ok (decode_link fnmatch m info patterns) = true.
Proof.
  induction reply as [| i reply IH]; intros links result H m info Hin;
    [contradiction |].
  cbn [acquire_link_info_loop] in H.
  destruct (decode_link fnmatch i (fresh (List.length links)) patterns)
    as [r |] eqn:E; cbn [bind] in H; [| discriminate].
  destruct Hin as [<- | Hin].
  - rewrite (decode_link_ok_any_slot fnmatch i info
               (fresh (List.length links)) patterns). now rewrite E.
  - destruct r; eapply IH; eassumption.
Qed.

(** Two decoded records of one message show the same index, name and
    type. *)
Lemma decodes_to_key m r r' :
  decodes_to fnmatch m r -> decodes_to fnmatch m r' -> link_key r = link_key r'.
Proof.
  intros [info H] [info' H']. apply decode_link_some in H, H'.
  destruct H as (i & n & t & _ & Hi & Hn & Ht & _ & ->).
  destruct H' as (i' & n' & t' & _ & Hi' & Hn' & Ht' & _ & ->).
  rewrite Hi in Hi'. rewrite Hn in Hn'. rewrite Ht in Ht'.
  injection Hi' as <-. injection Hn' as <-. injection Ht' as <-.
  reflexivity.
Qed.

Lemma decodes_to_index m r :
  decodes_to fnmatch m r -> sd_rtnl_message_link_get_ifindex m = Ok (ifindex r).
Proof.
  intros [info H]. apply decode_link_some in H.
  destruct H as (i & n & t & _ & Hi & _ & _ & _ & ->). exact Hi.
Qed.

(** What an enumeration that succeeded returned, in terms of the reply. *)
Lemma acquire_link_info_ok_inv rtnl fresh patterns c links :
  acquire_link_info fnmatch rtnl fresh patterns = Ok (c, links) ->
  exists reply unsorted,
    sd_netlink_call rtnl RTM_GETLINK = Ok reply /\
    (forall m info, In m reply ->
       is_ok (decode_link fnmatch m info patterns) = true) /\
    acquire_link_info_loop fnmatch fresh patterns reply [] = Ok unsorted /\
    Permutation unsorted links /\ Sorted ifindex_le links /\
    c = int_of_size_t (List.length links).
Proof.
  unfold acquire_link_info.
  destruct (sd_rtnl_message_new rtnl RTM_GETLINK); cbn [bind]; [| discriminate].
  destruct (sd_netlink_message_request_dump rtnl RTM_GETLINK); cbn [bind];
    [| discriminate].
  destruct (sd_netlink_call rtnl RTM_GETLINK) as [reply |]; cbn [bind];
    [| discriminate].
  destruct (acquire_link_info_loop fnmatch fresh patterns reply [])
    as [unsorted |] eqn:E; cbn [bind]; [| discriminate].
  intro H. injection H as <- <-.
  exists reply, unsorted. split; [reflexivity |].
  split; [eapply acquire_loop_ok_inv; eassumption |].
  split; [exact E |].
  pose proof (typesafe_qsort_perm unsorted) as P.
  split; [exact P |]. split; [apply typesafe_qsort_sorted |].
  now rewrite (Permutation_length P).
Qed.

(** X9.  Filtering only removes: when the enumeration under a pattern
    list and the one without both succeed on the same dump, every record
    of the first has its index, name and type among the records of the
    second, and the first has no more records than the second. *)
Theorem X9_filter_only_removes rtnl fresh fresh' patterns cP lP cN lN :
  acquire_link_info fnmatch rtnl fresh patterns = Ok (cP, lP) ->
  acquire_link_info fnmatch rtnl fresh' None = Ok (cN, lN) ->
  incl (map link_key lP) (map link_key lN) /\
  (List.length lP <= List.length lN)%nat.
Proof.
  intros HP HN.
  apply acquire_link_info_ok_inv in HP, HN.
  destruct HP as (reply & uP & Hcall & _ & HloopP & PermP & _ & _).
  destruct HN as (reply' & uN & Hcall' & HokN & HloopN & PermN & _ & _).
  rewrite Hcall in Hcall'. injection Hcall' as <-.
  destruct (acquire_link_info_loop_spec fnmatch fresh patterns reply HokN [])
    as (uP' & EP & FP).
  destruct (acquire_link_info_loop_spec fnmatch fresh' None reply HokN [])
    as (uN' & EN & FN).
  cbn [app] in EP, EN. rewrite HloopP in EP. rewrite HloopN in EN.
  injection EP as <-. injection EN as <-.
  rewrite (filter_all (selected fnmatch None)) in FN.
  2:{ intros x Hx. apply filter_In in Hx. destruct Hx as [Hin Hn].
      apply (selected_absent fnmatch x (fresh 0%nat) Hn). now apply HokN. }
  split.
  - intros k Hk. apply in_map_iff in Hk. destruct Hk as (r & <- & Hr).
    apply (Permutation_in _ (Permutation_sym PermP)) in Hr.
    destruct (Forall2_In_r _ _ _ _ FP Hr) as (x & Hx & Dx).
    apply filter_In in Hx. destruct Hx as [Hx _].
    destruct (Forall2_In_l _ _ _ _ FN Hx) as (r' & Hr' & Dx').
    rewrite (decodes_to_key x r r' Dx Dx').
    apply in_map. now apply (Permutation_in _ PermN).
  - rewrite <- (Permutation_length PermP), <- (Permutation_length PermN).
    rewrite <- (Forall2_length FP), <- (Forall2_length FN).
    apply filter_length_le.
Qed.

(** What a loop that ran to its end has appended: one decoded record for
    each selected link message, in dump order. *)
Lemma acquire_loop_ok_spec fresh patterns reply :
  forall links result,
    acquire_link_info_loop fnmatch fresh patterns reply links = Ok result ->
    exists new,
      result = links ++ new /\
      Forall2 (decodes_to fnmatch)
        (filter (selected fnmatch patterns) (filter is_newlink reply)) new.
Proof.
  induction reply as [| i reply IH]; intros links result H.
  - cbn in H. injection H as <-. exists []. rewrite app_nil_r.
    split; [reflexivity | constructor].
  - cbn [acquire_link_info_loop] in H.
    destruct (decode_link fnmatch i (fresh (List.length links)) patterns)
      as [[r |] |] eqn:E; cbn [bind] in H; [| | discriminate].
    + destruct (IH _ _ H) as (new & -> & F).
      pose proof E as E'. apply decode_link_some in E'.
      destruct E' as (index & ifname & type & Ht & Hi & Hn & Hy & Hf & Hr).
      exists (r :: new). rewrite <- app_assoc. split; [reflexivity |].
      cbn [filter]. unfold is_newlink at 1. rewrite Ht.
      change (RTM_NEWLINK =? RTM_NEWLINK) with true. cbn [filter].
      unfold selected at 1. rewrite Hi, Hn, Hf.
      constructor; [| exact F].
      exists (fresh (List.length links)).
      rewrite (decode_link_newlink fnmatch _ _ _ _ _ Ht Hi Hn).
      cbn [passes_filter]. now rewrite Hy, Hr.
    + destruct (IH _ _ H) as (new & -> & F).
      exists new. split; [reflexivity |].
      cbn [filter]. destruct (is_newlink i) eqn:En; [| exact F].
      cbn [filter]. destruct (selected fnmatch patterns i) eqn:Es; [| exact F].
      exfalso. unfold is_newlink in En.
      destruct (sd_netlink_message_get_type i) as [t |] eqn:Ht;
        [| discriminate].
      apply Z.eqb_eq in En. subst t. unfold selected in Es.
      destruct (sd_rtnl_message_link_get_ifindex i) as [index |] eqn:Hi;
        [| discriminate].
      destruct (sd_netlink_message_read_string i IFLA_IFNAME) as [ifname |]
        eqn:Hn; [| discriminate].
      rewrite (decode_link_newlink fnmatch _ _ _ _ _ Ht Hi Hn), Es in E.
      destruct (sd_rtnl_message_link_get_type i); discriminate.
Qed.

Lemma sorted_nodup_strict (l : list LinkInfo) :
  Sorted ifindex_le l -> NoDup (map ifindex l) ->
  StronglySorted (fun a b => ifindex a < ifindex b) l.
Proof.
  intros Hs Hn. apply Sorted_StronglySorted in Hs.
  2:{ intros x y z. unfold ifindex_le. lia. }
  induction Hs as [| a l Hl IH Ha]; [constructor |].
  cbn in Hn. inversion Hn as [| ? ? Hnotin Hn']; subst.
  constructor; [now apply IH |].
  rewrite Forall_forall in Ha |- *. intros b Hb.
  specialize (Ha b Hb). unfold ifindex_le in Ha.
  assert (ifindex a <> ifindex b).
  { intro E. apply Hnotin. rewrite E. now apply in_map. }
  lia.
Qed.

(** X10.  When the link messages of the dump carry pairwise distinct
    indices, the records returned are in strictly ascending order of
    index, so that no index occurs twice. *)
Theorem X10_distinct_indices_strictly_ascending
    rtnl fresh patterns reply c links :
  sd_netlink_call rtnl RTM_GETLINK = Ok reply ->
  NoDup (map sd_rtnl_message_link_get_ifindex (filter is_newlink reply)) ->
  acquire_link_info fnmatch rtnl fresh patterns = Ok (c, links) ->
  StronglySorted (fun a b => ifindex a < ifindex b) links /\
  NoDup (map ifindex links).
Proof.
  intros Hcall Hnd H.
  apply acquire_link_info_ok_inv in H.
  destruct H as (reply' & unsorted & Hcall' & _ & Hloop & Perm & Hsorted & _).
  rewrite Hcall in Hcall'. injection Hcall' as <-.
  destruct (acquire_loop_ok_spec fresh patterns reply _ _ Hloop)
    as (new & E & F).
  cbn [app] in E. subst new.
  assert (Hidx : map sd_rtnl_message_link_get_ifindex
                   (filter (selected fnmatch patterns)
                      (filter is_newlink reply)) =
                 map Ok (map ifindex unsorted)).
  { clear - F. induction F as [| x r ms rs Hxr _ IH]; [reflexivity |].
    cbn [map]. rewrite IH. f_equal. now apply decodes_to_index. }
  assert (Hn : NoDup (map ifindex links)).
  { apply (Permutation_NoDup (Permutation_map ifindex Perm)).
    apply (NoDup_map_inv (@Ok Z)). rewrite <- Hidx.
    now apply NoDup_map_filter. }
  split; [now apply sorted_nodup_strict | exact Hn].
Qed.

End FilteredEnumeration.

Lemma X9_witness :
  acquire_link_info fnmatch_literal
    (netlink_replying [eth0_message; lo_message]) (fun _ => stale_slot)
    (Some ["lo"%string]) = Ok (1, [lo_record]) /\
  acquire_link_info fnmatch_literal
    (netlink_replying [eth0_message; lo_message]) (fun _ => stale_slot)
    None = Ok (2, [lo_record; eth0_record]) /\
  incl (map link_key [lo_record]) (map link_key [lo_record; eth0_record]) /\
  (List.length [lo_record] <= List.length [lo_record; eth0_record])%nat.
Proof.
  split; [reflexivity |]. split; [reflexivity |].
  apply (X9_filter_only_removes fnmatch_literal
           (netlink_replying [eth0_message; lo_message])
           (fun _ => stale_slot) (fun _ => stale_slot)
           (Some ["lo"%string]) 1 [lo_record] 2 [lo_record; eth0_record]);
    reflexivity.
Defined.

Lemma X10_witness :
  NoDup (map sd_rtnl_message_link_get_ifindex
           (filter is_newlink [eth0_message; lo_message])) /\
  StronglySorted (fun a b => ifindex a < ifindex b) [lo_record; eth0_record] /\
  NoDup (map ifindex [lo_record; eth0_record]).
Proof.
  assert (H : NoDup (map sd_rtnl_message_link_get_ifindex
                       (filter is_newlink [eth0_message; lo_message]))).
  { cbn. constructor; [| constructor; [| constructor]].
    - intros [E | []]. discriminate E.
    - intros []. }
  split; [exact H |].
  apply (X10_distinct_indices_strictly_ascending fnmatch_literal
           (netlink_replying [eth0_message; lo_message])
           (fun _ => stale_slot) None [eth0_message; lo_message] 2
           [lo_record; eth0_record] eq_refl H).
  reflexivity.
Defined.

(** * Further properties of the gateway resolution *)





Section GatewaySoundness.

Variable hwdb : option sd_hwdb.
Variables ifindex family : Z.
Variable gateway : in_addr_union.

Local Abbreviation scan :=
  (get_gateway_description_loop hwdb ifindex family gateway).

(** An entry either passes every check, and ends the scan, or fails one,
    and is passed over. *)
Lemma scan_cons_cases m reply :
  (exists mac d, usable_entry hwdb ifindex family gateway m mac d /\
                 scan (m :: reply) = Ok d) \/
  ((forall mac d, ~ usable_entry hwdb ifindex family gateway m mac d) /\
   scan (m :: reply) = scan reply).
Proof.
  assert (Skip : forall P : Prop, (P -> False) -> ~ P) by auto.
  cbn [get_gateway_description_loop].
  destruct (sd_netlink_message_get_errno m) as [u |] eqn:He.
  2:{ right. split; [| reflexivity].
      intros mac d (H & _). rewrite He in H. discriminate. }
  destruct (sd_netlink_message_get_type m) as [t |] eqn:Ht.
  2:{ right. split; [| reflexivity].
      intros mac d (_ & H & _). rewrite Ht in H. discriminate. }
  destruct (Z.eqb_spec t RTM_NEWNEIGH) as [-> | Hne]; cbn [negb].
  2:{ right. split; [| reflexivity].
      intros mac d (_ & H & _). rewrite Ht in H. congruence. }
  destruct (sd_rtnl_message_neigh_get_family m) as [fam |] eqn:Hf.
  2:{ right. split; [| reflexivity].
      intros mac d (_ & _ & H & _). unfold neigh_matches in H.
      rewrite Hf in H. discriminate. }
  destruct (fam =? family) eqn:Ef; cbn [negb].
  2:{ right. split; [| reflexivity].
      intros mac d (_ & _ & H & _). unfold neigh_matches in H.
      rewrite Hf, Ef in H. discriminate. }
  destruct (sd_rtnl_message_neigh_get_ifindex m) as [ifi |] eqn:Hi.
  2:{ right. split; [| reflexivity].
      intros mac d (_ & _ & _ & (ifi & H & _) & _). rewrite Hi in H.
      discriminate. }
  destruct ((ifindex >? 0) && negb (ifi =? ifindex)) eqn:Eskip.
  { right. split; [| reflexivity].
    intros mac d (_ & _ & _ & (ifi' & H & Hifi) & _).
    rewrite Hi in H. injection H as <-. apply andb_true_iff in Eskip. destruct Eskip as [G N].
    apply Z.gtb_gt in G. rewrite (Hifi G), Z.eqb_refl in N. discriminate. }
  assert (Hifi : ifindex > 0 -> ifi = ifindex).
  { intro G. apply Z.gtb_gt in G. rewrite G in Eskip. cbn in Eskip.
    apply negb_false_iff, Z.eqb_eq in Eskip. exact Eskip. }
  fold (neigh_dst m fam).
  destruct (neigh_dst m fam) as [gw |] eqn:Hdst.
  2:{ right. split; [| reflexivity].
      intros mac d (_ & _ & H & _). unfold neigh_matches in H.
      rewrite Hf, Ef, Hdst in H. discriminate. }
  destruct (in_addr_equal fam gw gateway) eqn:Eq; cbn [negb].
  2:{ right. split; [| reflexivity].
      intros mac d (_ & _ & H & _). unfold neigh_matches in H.
      rewrite Hf, Ef, Hdst, Eq in H. discriminate. }
  destruct (sd_netlink_message_read_ether_addr m NDA_LLADDR) as [mac |] eqn:Hmac.
  2:{ right. split; [| reflexivity].
      intros mac d (_ & _ & _ & _ & H & _). rewrite Hmac in H.
      discriminate. }
  destruct (ieee_oui hwdb mac) as [d |] eqn:Hd.
  - left. exists mac, d. split; [| reflexivity].
    unfold usable_entry, neigh_matches.
    rewrite He, Ht, Hf, Ef, Hdst, Eq, Hi, Hd. repeat split; eauto.
  - right. split; [| reflexivity].
    intros mac' d (_ & _ & _ & _ & H & Hd'). rewrite Hmac in H.
    injection H as <-.
    rewrite Hd in Hd'. discriminate.
Qed.

Lemma scan_ok_inv reply d :
  scan reply = Ok d ->
  exists pre m post mac,
    reply = pre ++ m :: post /\
    (forall x mac' d', In x pre ->
       ~ usable_entry hwdb ifindex family gateway x mac' d') /\
    usable_entry hwdb ifindex family gateway m mac d.
Proof.
  induction reply as [| x reply IH]; intro H; [discriminate |].
  destruct (scan_cons_cases x reply) as [(mac & d0 & U & E) | [N E]].
  - rewrite E in H. injection H as ->.
    exists [], x, reply, mac.
    split; [reflexivity |]. split; [intros ? ? ? [] | exact U].
  - rewrite E in H. destruct (IH H) as (pre & m & post & mac & -> & Hpre & U).
    exists (x :: pre), m, post, mac.
    split; [reflexivity |]. split; [| exact U].
    intros y mac' d' [<- | Hin]; [apply N | now apply Hpre].
Qed.

End GatewaySoundness.

Section GatewayRobustness.

Variable local_gateways : sd_netlink -> Z -> res (list local_address.t).
Variable in_addr_to_string : Z -> in_addr_union -> res string.
Variable if_indextoname : Z -> option string.

(** X12.  A description handed back by [get_gateway_description] always
    comes from the dump: some entry of the reply passes every check of
    the loop with that description as the vendor of its hardware
    address, and no entry before it passes them. *)
Theorem X12_description_comes_from_the_dump
    rtnl hwdb ifindex family gateway d :
  get_gateway_description rtnl hwdb ifindex family gateway = Ok d ->
  exists pre m post mac,
    sd_netlink_call rtnl (RTM_GETNEIGH ifindex family) = Ok (pre ++ m :: post) /\
    (forall x mac' d', In x pre ->
       ~ usable_entry hwdb ifindex family gateway x mac' d') /\
    usable_entry hwdb ifindex family gateway m mac d.
Proof.
  unfold get_gateway_description.
  destruct (sd_rtnl_message_new rtnl _); cbn [bind]; [| discriminate].
  destruct (sd_netlink_message_request_dump rtnl _); cbn [bind];
    [| discriminate].
  destruct (sd_netlink_call rtnl _) as [reply |]; cbn [bind]; [| discriminate].
  intro H. apply scan_ok_inv in H.
  destruct H as (pre & m & post & mac & -> & Hpre & U).
  exists pre, m, post, mac.
  split; [reflexivity |]. split; [exact Hpre | exact U].
Qed.

(** X13.  Without a vendor database (a NULL handle) no gateway ever gets
    a description: [get_gateway_description] fails whatever the neighbor
    table holds, with [-ENODATA] once the dump itself went through. *)
Theorem X13_no_database_no_description rtnl ifindex family gateway :
  is_ok (get_gateway_description rtnl None ifindex family gateway) = false /\
  (forall reply,
     sd_rtnl_message_new rtnl (RTM_GETNEIGH ifindex family) = Ok tt ->
     sd_netlink_message_request_dump rtnl (RTM_GETNEIGH ifindex family) = Ok tt ->
     sd_netlink_call rtnl (RTM_GETNEIGH ifindex family) = Ok reply ->
     get_gateway_description rtnl None ifindex family gateway = Err ENODATA).
Proof.
  assert (S : forall reply,
            get_gateway_description_loop None ifindex family gateway reply =
            Err ENODATA).
  { intro reply. apply scan_all_skipped.
    intros m mac d _ (_ & _ & _ & _ & _ & Hd). discriminate Hd. }
  split.
  - unfold get_gateway_description.
    destruct (sd_rtnl_message_new rtnl _); cbn [bind]; [| reflexivity].
    destruct (sd_netlink_message_request_dump rtnl _); cbn [bind];
      [| reflexivity].
    destruct (sd_netlink_call rtnl _) as [reply |]; cbn [bind];
      [| reflexivity].
    now rewrite S.
  - intros reply Hnew Hdump Hcall. unfold get_gateway_description.
    rewrite Hnew, Hdump, Hcall. cbn [bind]. apply S.
Qed.

Lemma dump_gateways_loop_cells rtnl hwdb ifindex local :
  (forall l, In l local ->
     is_ok (in_addr_to_string (local_address.family l)
              (local_address.address l)) = true) ->
  forall i table, exists cells,
    List.length cells = (3 * List.length local)%nat /\
    dump_gateways_loop in_addr_to_string if_indextoname rtnl hwdb ifindex i
      local table = Ok (table ++ cells).
Proof.
  induction local as [| l local IH]; intros Hs i table.
  - exists []. cbn. now rewrite app_nil_r.
  - cbn [dump_gateways_loop].
    assert (E : exists cell,
              dump_gateways_entry in_addr_to_string if_indextoname rtnl hwdb
                ifindex i l table =
              Ok (table ++ [TABLE_EMPTY;
                            TABLE_STRING (if Nat.eqb i 0 then "Gateway:"
                                          else EmptyString);
                            cell])).
    { unfold dump_gateways_entry, table_add_cell.
      pose proof (Hs l (or_introl eq_refl)) as Hl.
      destruct (in_addr_to_string _ _) as [g |]; [| discriminate].
      cbn [bind].
      destruct (ifindex <=? 0); [destruct (if_indextoname _) |];
        rewrite <- !app_assoc; cbn [app]; eexists; reflexivity. }
    destruct E as [cell ->]. cbn [bind].
    destruct (IH (fun l' H => Hs l' (or_intror H)) (S i)
                 (table ++ [TABLE_EMPTY;
                            TABLE_STRING (if Nat.eqb i 0 then "Gateway:"
                                          else EmptyString);
                            cell])) as (cells & Hc & ->).
    eexists (_ :: _ :: _ :: cells). rewrite <- app_assoc. cbn [app].
    split; [cbn [List.length]; lia | reflexivity].
Qed.

(** X14.  [dump_gateways] does not fail because a gateway cannot be
    resolved: when the gateways are enumerated and each address can be
    rendered, it succeeds and appends three cells for every gateway to
    the cells the table had, whatever the neighbor dumps and the vendor
    database answer, a failing neighbor dump included. *)
Theorem X14_dump_gateways_survives_resolution rtnl hwdb table ifindex local :
  local_gateways rtnl ifindex = Ok local ->
  (forall l, In l local ->
     is_ok (in_addr_to_string (local_address.family l)
              (local_address.address l)) = true) ->
  exists cells,
    List.length cells = (3 * List.length local)%nat /\
    dump_gateways local_gateways in_addr_to_string if_indextoname rtnl hwdb
      table ifindex = Ok (table ++ cells).
Proof.
  intros Hl Hs. unfold dump_gateways. rewrite Hl. cbn [bind].
  now apply dump_gateways_loop_cells.
Qed.

End GatewayRobustness.

Lemma X12_witness :
  get_gateway_description
    (netlink_replying [neigh_unknown_vendor; neigh_known_vendor])
    (Some hwdb_acme) 3 AF_INET gateway_192_0_2_1 = Ok "Acme"%string /\
  exists pre m post mac,
    sd_netlink_call
      (netlink_replying [neigh_unknown_vendor; neigh_known_vendor])
      (RTM_GETNEIGH 3 AF_INET) = Ok (pre ++ m :: post) /\
    (forall x mac' d', In x pre ->
       ~ usable_entry (Some hwdb_acme) 3 AF_INET gateway_192_0_2_1 x mac' d') /\
    usable_entry (Some hwdb_acme) 3 AF_INET gateway_192_0_2_1 m mac "Acme".
Proof.
  split; [reflexivity |].
  apply (X12_description_comes_from_the_dump
           (netlink_replying [neigh_unknown_vendor; neigh_known_vendor])
           (Some hwdb_acme) 3 AF_INET gateway_192_0_2_1 "Acme").
  reflexivity.
Defined.

Lemma X13_witness :
  get_gateway_description (netlink_replying [neigh_known_vendor]) None 3
    AF_INET gateway_192_0_2_1 = Err ENODATA.
Proof.
  destruct (X13_no_database_no_description
              (netlink_replying [neigh_known_vendor]) 3 AF_INET
              gateway_192_0_2_1) as [_ H].
  exact (H [neigh_known_vendor] eq_refl eq_refl eq_refl).
Defined.

Lemma X14_witness :
  exists cells,
    List.length cells = 3%nat /\
    dump_gateways one_gateway show_192_0_2_1 only_eth1 netlink_failing
      (Some hwdb_acme) [] 3 = Ok ([] ++ cells).
Proof.
  apply (X14_dump_gateways_survives_resolution one_gateway show_192_0_2_1
           only_eth1 netlink_failing (Some hwdb_acme) [] 3
           [local_address.mk AF_INET 3 gateway_192_0_2_1]).
  - reflexivity.
  - intros l [<- | []]. reflexivity.
Defined.

(** * Further properties of [dump_address_labels] *)

Section AddressLabelsDefined.

Variable in_addr_to_string : Z -> in_addr_union -> res string.

Lemma label_loop_defined label0 label0' reply :
  (forall m, In m reply ->
     sd_netlink_message_read_u32 m IFAL_LABEL <> Err ENODATA) ->
  forall i i' table,
    dump_address_labels_loop in_addr_to_string label0 i reply table =
    dump_address_labels_loop in_addr_to_string label0' i' reply table.
Proof.
  induction reply as [| m reply IH]; intros Hl i i' table; [reflexivity |].
  assert (Hrest : forall x, In x reply ->
            sd_netlink_message_read_u32 x IFAL_LABEL <> Err ENODATA)
    by (intros; apply Hl; now right).
  specialize (IH Hrest).
  specialize (Hl m (or_introl eq_refl)).
  cbn [dump_address_labels_loop].
  destruct (sd_netlink_message_get_errno m); [| apply IH].
  destruct (sd_netlink_message_read_u32 m IFAL_LABEL) as [v | e] eqn:E;
    cbn [read_into].
  - destruct (sd_netlink_message_read_in6_addr m IFAL_ADDRESS); [| apply IH].
    destruct (in_addr_to_string AF_INET6 _); [| apply IH].
    destruct (sd_rtnl_message_addrlabel_get_prefixlen m); apply IH.
  - assert (N : negb (errno_eqb e ENODATA) = true).
    { apply negb_true_iff. unfold errno_eqb. apply Pos.eqb_neq.
      intros ->. now apply Hl. }
    rewrite N. apply IH.
Qed.

(** X15.  When no entry of the dump lacks its label, the table of
    [dump_address_labels] does not depend on what the unassigned local
    held: the leftover only ever shows for an entry whose [IFAL_LABEL]
    read returns [-ENODATA]. *)
Theorem X15_labels_present_no_leftover rtnl label0 label0' :
  (forall reply m, sd_netlink_call rtnl RTM_GETADDRLABEL = Ok reply ->
     In m reply -> sd_netlink_message_read_u32 m IFAL_LABEL <> Err ENODATA) ->
  dump_address_labels in_addr_to_string rtnl label0 =
  dump_address_labels in_addr_to_string rtnl label0'.
Proof.
  intro H. unfold dump_address_labels.
  destruct (sd_rtnl_message_new rtnl _); cbn [bind]; [| reflexivity].
  destruct (sd_netlink_message_request_dump rtnl _); cbn [bind];
    [| reflexivity].
  destruct (sd_netlink_call rtnl _) as [reply |] eqn:E; cbn [bind];
    [| reflexivity].
  f_equal. apply label_loop_defined. intros m Hin. now apply (H reply).
Qed.

End AddressLabelsDefined.

Lemma X15_witness :
  dump_address_labels show_in6_loopback
    (netlink_replying [addrlabel_with_label]) leftover_deadbeef =
  dump_address_labels show_in6_loopback
    (netlink_replying [addrlabel_with_label]) (fun _ => 0).
Proof.
  apply (X15_labels_present_no_leftover show_in6_loopback
           (netlink_replying [addrlabel_with_label]) leftover_deadbeef
           (fun _ => 0)).
  intros reply m E Hin. injection E as <-.
  destruct Hin as [<- | []]. discriminate.
Defined.

(** * Properties of [dump_ifindexes] *)

Lemma dump_ifindexes_loop_spec prefix pre :
  Forall (fun x => x > 0) pre ->
  forall z post c table, z <= 0 ->
    exists cells,
      dump_ifindexes_loop prefix c (pre ++ z :: post) table = table ++ cells /\
      dump_ifindexes_loop prefix c (pre ++ [0]) table = table ++ cells /\
      List.length cells = (3 * List.length pre)%nat /\
      ifindex_cells cells = pre.
Proof.
  induction 1 as [| x pre Hx _ IH]; intros z post c table Hz.
  - exists []. cbn [app dump_ifindexes_loop].
    assert (E : (z >? 0) = false) by (rewrite Z.gtb_ltb; apply Z.ltb_ge; lia).
    rewrite E. cbn. now rewrite app_nil_r.
  - cbn [app dump_ifindexes_loop].
    assert (E : (x >? 0) = true) by (apply Z.gtb_gt; lia).
    rewrite E. unfold table_add_cell. rewrite <- !app_assoc. cbn [app].
    destruct (IH z post (S c)
                 (table ++ [TABLE_EMPTY;
                            TABLE_STRING (if Nat.eqb c 0 then prefix
                                          else EmptyString);
                            TABLE_IFINDEX x]) Hz)
      as (cells & E1 & E2 & Hl & Hc).
    eexists (_ :: _ :: _ :: cells).
    rewrite E1, E2, <- !app_assoc. cbn [app].
    split; [reflexivity |]. split; [reflexivity |].
    split; [cbn [List.length]; lia |].
    unfold ifindex_cells in *. cbn [flat_map app]. now rewrite Hc.
Qed.

(** X16.  [dump_ifindexes] shows the indices of the array up to its first
    entry that is not positive, three cells for each and in the order of
    the array; whatever the array holds from that entry on, the entry
    itself included, does not show. *)
Theorem X16_dump_ifindexes_stops_at_terminator table prefix pre z post :
  Forall (fun x => x > 0) pre -> z <= 0 ->
  exists cells,
    dump_ifindexes table prefix (Some (pre ++ z :: post)) = table ++ cells /\
    dump_ifindexes table prefix (Some (pre ++ [0])) = table ++ cells /\
    List.length cells = (3 * List.length pre)%nat /\
    ifindex_cells cells = pre.
Proof.
  intros Hpre Hz.
  destruct pre as [| x pre].
  - exists []. cbn [app dump_ifindexes].
    assert (E : (z <=? 0) = true) by (apply Z.leb_le; lia).
    rewrite E. cbn. now rewrite app_nil_r.
  - destruct (dump_ifindexes_loop_spec prefix (x :: pre) Hpre z post 0%nat
                table Hz) as (cells & E1 & E2 & Hl & Hc).
    exists cells. unfold dump_ifindexes. cbn [app].
    assert (E : (x <=? 0) = false).
    { inversion Hpre; subst. apply Z.leb_gt. lia. }
    rewrite E. cbn [app] in E1, E2. now rewrite E1, E2.
Qed.

Lemma X16_witness :
  exists cells,
    dump_ifindexes [] "Carrier Bound To:" (Some ([4; 9] ++ 0 :: [12; 13])) =
      [] ++ cells /\
    dump_ifindexes [] "Carrier Bound To:" (Some ([4; 9] ++ [0])) = [] ++ cells /\
    List.length cells = (3 * List.length [4; 9])%nat /\
    ifindex_cells cells = [4; 9].
Proof.
  apply (X16_dump_ifindexes_stops_at_terminator [] "Carrier Bound To:"
           [4; 9] 0 [12; 13]).
  - repeat constructor.
  - lia.
Defined.

(** * Properties of [link_delete] *)

Section LinkDeleteProperties.

Variable parse_ifindex_or_ifname : string -> res Z.
Variable set_order : list Z -> list Z.
Variable new_dellink : Z -> res unit.
Variable call_dellink : list Z -> Z -> res unit.

Local Abbreviation resolve := (link_delete_resolve parse_ifindex_or_ifname).
Local Abbreviation send := (link_delete_send new_dellink call_dellink).

Lemma set_put_spec indexes index :
  NoDup indexes ->
  NoDup (set_put indexes index) /\
  (forall x, In x (set_put indexes index) <-> In x indexes \/ x = index).
Proof.
  intro Hn. unfold set_put.
  destruct (existsb (Z.eqb index) indexes) eqn:E.
  - split; [exact Hn |]. intro x. split; [tauto |].
    intros [H | ->]; [exact H |].
    apply existsb_exists in E. destruct E as (y & Hy & Ey).
    apply Z.eqb_eq in Ey. now subst.
  - split.
    + apply NoDup_app; [exact Hn | repeat constructor; intros [] |].
      intros x Hx [Ex | []]. subst x.
      assert (existsb (Z.eqb index) indexes = true)
        by (apply existsb_exists; exists index; split;
            [exact Hx | apply Z.eqb_refl]).
      congruence.
    + intro x. rewrite in_app_iff. cbn. intuition.
Qed.

Lemma resolve_fails pre arg post e :
  (forall a, In a pre -> is_ok (parse_ifindex_or_ifname a) = true) ->
  parse_ifindex_or_ifname arg = Err e ->
  forall indexes, resolve (pre ++ arg :: post) indexes = Err e.
Proof.
  intros Hpre Harg. induction pre as [| a pre IH]; intro indexes;
    cbn [app link_delete_resolve].
  - now rewrite Harg.
  - pose proof (Hpre a (or_introl eq_refl)) as Ha.
    destruct (parse_ifindex_or_ifname a); [| discriminate]. cbn [bind].
    apply IH. intros; apply Hpre; now right.
Qed.

Lemma resolve_spec args :
  forall indexes set,
    resolve args indexes = Ok set -> NoDup indexes ->
    NoDup set /\
    (forall x, In x set <->
       In x indexes \/
       exists a, In a args /\ parse_ifindex_or_ifname a = Ok x).
Proof.
  induction args as [| a args IH]; intros indexes set H Hn.
  - cbn in H. injection H as <-. split; [exact Hn |].
    intro x. split; [tauto | intros [H | (a & [] & _)]; exact H].
  - cbn [link_delete_resolve] in H.
    destruct (parse_ifindex_or_ifname a) as [index |] eqn:Ea; [| discriminate].
    cbn [bind] in H.
    destruct (set_put_spec indexes index Hn) as [Hn' Hin'].
    destruct (IH _ _ H Hn') as [Hs Hin]. split; [exact Hs |].
    intro x. rewrite Hin, Hin'. split.
    + intros [[Hx | ->] | (b & Hb & Eb)].
      * now left.
      * right. exists a. split; [now left | exact Ea].
      * right. exists b. split; [now right | exact Eb].
    + intros [Hx | (b & [<- | Hb] & Eb)].
      * left. now left.
      * left. right. rewrite Ea in Eb. now injection Eb.
      * right. exists b. split; assumption.
Qed.

Lemma send_spec todo :
  forall deleted r deleted',
    send todo deleted = (r, deleted') ->
    exists done rest,
      todo = done ++ rest /\ deleted' = deleted ++ done /\
      (r = Ok tt -> rest = []) /\
      (forall e, r = Err e ->
         exists index rest', rest = index :: rest' /\
           link_delete_send_message new_dellink call_dellink
             (deleted ++ done) index = Err e).
Proof.
  induction todo as [| index todo IH]; intros deleted r deleted' H.
  - cbn in H. injection H as <- <-. exists [], [].
    rewrite !app_nil_r. split; [reflexivity |]. split; [reflexivity |].
    split; [reflexivity |]. intros e He. discriminate He.
  - cbn [link_delete_send] in H.
    destruct (link_delete_send_message new_dellink call_dellink deleted index)
      as [u | e] eqn:E.
    + destruct (IH _ _ _ H) as (done & rest & -> & -> & Hok & Herr).
      exists (index :: done), rest. rewrite <- !app_assoc. cbn [app].
      split; [reflexivity |]. split; [reflexivity |]. split; [exact Hok |].
      intros e He. destruct (Herr e He) as (i & rest' & -> & Hi).
      exists i, rest'. rewrite <- app_assoc in Hi. split; [reflexivity | exact Hi].
    + injection H as <- <-. exists [], (index :: todo).
      rewrite app_nil_r. split; [reflexivity |]. split; [reflexivity |].
      split; [discriminate |].
      intros e' He'. injection He' as <-. exists index, todo.
      split; [reflexivity | exact E].
Qed.

(** X17.  [link_delete] resolves every argument before it deletes
    anything: when some argument cannot be resolved it returns the error
    of the first such argument and no deletion has been carried out. *)
Theorem X17_unresolved_argument_deletes_nothing argv pre arg post e :
  tl argv = pre ++ arg :: post ->
  (forall a, In a pre -> is_ok (parse_ifindex_or_ifname a) = true) ->
  parse_ifindex_or_ifname arg = Err e ->
  link_delete parse_ifindex_or_ifname set_order new_dellink call_dellink
    (Ok tt) argv = (Err e, []).
Proof.
  intros Hargv Hpre Harg. unfold link_delete. rewrite Hargv.
  now rewrite (resolve_fails pre arg post e Hpre Harg).
Qed.

Lemma resolve_total args :
  (forall a, In a args -> is_ok (parse_ifindex_or_ifname a) = true) ->
  forall indexes, exists set, resolve args indexes = Ok set.
Proof.
  induction args as [| a args IH]; intros Hok indexes.
  - exists indexes. reflexivity.
  - cbn [link_delete_resolve].
    pose proof (Hok a (or_introl eq_refl)) as Ha.
    destruct (parse_ifindex_or_ifname a); [| discriminate]. cbn [bind].
    apply IH. intros; apply Hok; now right.
Qed.

(** X18.  When every argument resolves, no interface is deleted twice,
    however often it was named, and every interface deleted is one that
    an argument resolved to; on success every interface that an argument
    resolved to has been deleted; on failure the error is that of the
    deletion of one further such interface, attempted after the
    deletions carried out, and nothing is attempted after it. *)
Theorem X18_link_delete_deletes_each_once argv r deleted :
  (forall l, Permutation (set_order l) l) ->
  (forall a, In a (tl argv) -> is_ok (parse_ifindex_or_ifname a) = true) ->
  link_delete parse_ifindex_or_ifname set_order new_dellink call_dellink
    (Ok tt) argv = (r, deleted) ->
  NoDup deleted /\
  (forall x, In x deleted ->
     exists a, In a (tl argv) /\ parse_ifindex_or_ifname a = Ok x) /\
  (r = Ok tt ->
   forall a x, In a (tl argv) -> parse_ifindex_or_ifname a = Ok x ->
     In x deleted) /\
  (forall e, r = Err e ->
     exists index,
       ~ In index deleted /\
       (exists a, In a (tl argv) /\ parse_ifindex_or_ifname a = Ok index) /\
       link_delete_send_message new_dellink call_dellink deleted index = Err e).
Proof.
  intros Hperm Hall H. unfold link_delete in H.
  destruct (resolve_total (tl argv) Hall []) as [set Er]. rewrite Er in H.
  destruct (resolve_spec _ _ _ Er (NoDup_nil Z)) as [Hn Hin].
  apply send_spec in H. destruct H as (done & rest & Eo & -> & Hok & Herr).
  cbn [app] in *.
  assert (Hn' : NoDup (done ++ rest)).
  { rewrite <- Eo. apply (Permutation_NoDup (Permutation_sym (Hperm set)) Hn). }
  assert (Hset : forall x, In x (done ++ rest) ->
            exists a, In a (tl argv) /\ parse_ifindex_or_ifname a = Ok x).
  { intros x Hx. rewrite <- Eo in Hx.
    apply (Permutation_in _ (Hperm set)) in Hx.
    apply Hin in Hx. destruct Hx as [[] | Hx]. exact Hx. }
  split; [eapply NoDup_app_remove_r; exact Hn' |].
  split; [intros x Hx; apply Hset; apply in_or_app; now left |].
  split.
  - intros Hr a x Ha Ex. rewrite (Hok Hr), app_nil_r in Eo.
    rewrite <- Eo. apply (Permutation_in _ (Permutation_sym (Hperm set))).
    apply Hin. right. exists a. split; assumption.
  - intros e He. destruct (Herr e He) as (index & rest' & -> & Hsend).
    exists index. split; [| split; [| exact Hsend]].
    + intro Hd. apply NoDup_remove_2 in Hn'. apply Hn'.
      apply in_or_app. now left.
    + apply Hset. apply in_or_app. right. now left.
Qed.

End LinkDeleteProperties.

Lemma X17_witness :
  link_delete resolve_two_names (fun l => l) (fun _ => Ok tt)
    (fun _ _ => Ok tt) (Ok tt)
    ["delete"; "br0"; "nosuch"; "dummy0"]%string = (Err ENOENT, []).
Proof.
  apply (X17_unresolved_argument_deletes_nothing resolve_two_names
           (fun l => l) (fun _ => Ok tt) (fun _ _ => Ok tt)
           ["delete"; "br0"; "nosuch"; "dummy0"]%string
           ["br0"%string] "nosuch"%string ["dummy0"%string] ENOENT).
  - reflexivity.
  - intros a [<- | []]. reflexivity.
  - reflexivity.
Defined.

Lemma X18_witness :
  link_delete resolve_two_names (@rev Z) (fun _ => Ok tt)
    (fun _ _ => Ok tt) (Ok tt)
    ["delete"; "br0"; "dummy0"; "br0"]%string = (Ok tt, [9; 4]) /\
  NoDup [9; 4] /\
  (forall a x,
     In a (tl ["delete"; "br0"; "dummy0"; "br0"]%string) ->
     resolve_two_names a = Ok x -> In x [9; 4]).
Proof.
  split; [reflexivity |].
  destruct (X18_link_delete_deletes_each_once resolve_two_names (@rev Z)
              (fun _ => Ok tt) (fun _ _ => Ok tt)
              ["delete"; "br0"; "dummy0"; "br0"]%string (Ok tt) [9; 4])
    as (Hn & _ & Hall & _).
  - intro l. apply Permutation_sym, Permutation_rev.
  - intros a [<- | [<- | [<- | []]]]; reflexivity.
  - reflexivity.
  - split; [exact Hn | exact (Hall eq_refl)].
Defined.

(** * Properties of the loop of [link_status] *)

Section LinkStatusLoop.

Variable sd_lldp_neighbor_from_raw : list byte -> res sd_lldp_neighbor.
Variable status_table : LinkInfo -> res Table.

Lemma link_status_loop_counts fs links :
  forall i,
    newlines (link_status_loop sd_lldp_neighbor_from_raw status_table fs i
                links) =
      (if (0 <? i)%nat then List.length links
       else List.length links - 1)%nat /\
    (tables (link_status_loop sd_lldp_neighbor_from_raw status_table fs i
               links) <= List.length links)%nat.
Proof.
  unfold newlines, tables.
  induction links as [| info links IH]; intro i.
  - destruct i; cbn; split; lia.
  - cbn [link_status_loop]. rewrite !filter_app, !length_app.
    destruct (IH (S i)) as [Hn Ht]. rewrite Hn.
    replace (0 <? S i)%nat with true in * by reflexivity.
    destruct (link_status_one sd_lldp_neighbor_from_raw status_table fs info);
      destruct (0 <? i)%nat; cbn [filter List.length]; lia.
Qed.

(** X19.  [link_status] writes exactly one newline between two
    consecutive links and at most one table for each link: a link whose
    status fails leaves its separating newline and no table. *)
Theorem X19_link_status_separators fs links :
  newlines (link_status_loop sd_lldp_neighbor_from_raw status_table fs 0
              links) = (List.length links - 1)%nat /\
  (tables (link_status_loop sd_lldp_neighbor_from_raw status_table fs 0
             links) <= List.length links)%nat /\
  (forall link,
     is_ok (link_status_one sd_lldp_neighbor_from_raw status_table fs link)
       = false ->
     link_status_loop sd_lldp_neighbor_from_raw status_table fs 0
       (links ++ [link]) =
     link_status_loop sd_lldp_neighbor_from_raw status_table fs 0 links ++
     (if (0 <? List.length links)%nat then [Newline] else [])).
Proof.
  destruct (link_status_loop_counts fs links 0) as [Hn Ht].
  split; [exact Hn |]. split; [exact Ht |].
  intros link Hf. rewrite link_status_loop_app. cbn [link_status_loop].
  destruct (link_status_one sd_lldp_neighbor_from_raw status_table fs link);
    [discriminate |].
  cbn [Nat.add app]. now rewrite app_nil_r.
Qed.

End LinkStatusLoop.

Lemma X19_witness :
  link_status_loop neighbor_of_raw (fun _ => Ok []) lldp_files 0
    ([link_named 6 "eth6"] ++ [link_named 5 "eth5"]) =
  link_status_loop neighbor_of_raw (fun _ => Ok []) lldp_files 0
    [link_named 6 "eth6"] ++ [Newline].
Proof.
  destruct (X19_link_status_separators neighbor_of_raw (fun _ => Ok [])
              lldp_files [link_named 6 "eth6"]) as (_ & _ & H).
  exact (H (link_named 5 "eth5") eq_refl).
Defined.

(** * Properties of [lldp_capabilities_legend] *)

Lemma string_app_assoc (a b c : string) :
  ((a ++ b) ++ c)%string = (a ++ b ++ c)%string.
Proof. induction a as [| x a IH]; cbn; [reflexivity | now rewrite IH]. Qed.

Lemma string_length_app (a b : string) :
  String.length (a ++ b) = (String.length a + String.length b)%nat.
Proof. induction a as [| x a IH]; cbn; [reflexivity | now rewrite IH]. Qed.

Lemma fits_one_line cols cur t s :
  one_line t = true ->
  fits cols cur (t ++ s) = fits cols (cur + String.length t) s.
Proof.
  revert cur. induction t as [| c t IH]; intros cur H; cbn in *.
  - now rewrite Nat.add_0_r.
  - apply andb_true_iff in H. destruct H as [Hc Ht].
    apply negb_true_iff in Hc. rewrite Hc, IH by exact Ht.
    f_equal. lia.
Qed.

Lemma fits_nl cols cur s :
  fits cols cur (nl ++ s) = (cur <=? cols)%nat && fits cols 0 s.
Proof. reflexivity. Qed.

(** The invariant of the loop: [w] is the length of the line being
    written, or one more after a line break. *)
Lemma legend_loop_fits cols arg_all x table :
  Forall (fun t => one_line t = true /\
                   (1 <= String.length t <= 29)%nat) table ->
  29 <= cols < 2 ^ 32 ->
  forall i w cur,
    (cur <= Z.to_nat cols)%nat ->
    Z.of_nat cur <= w <= Z.of_nat cur + 1 ->
    (w = 0 \/ 0 < Z.of_nat cur) ->
    w <= Z.max cols 30 ->
    fits (Z.to_nat cols) cur
      (lldp_capabilities_legend_loop cols arg_all x i table w ++ nl) = true.
Proof.
  intros Htable Hcols.
  induction Htable as [| t table [Hone Hlen] _ IH]; intros i w cur Hcur Hw Hz Hmax.
  - cbn. rewrite andb_true_r. apply Nat.leb_le. exact Hcur.
  - cbn [lldp_capabilities_legend_loop].
    destruct (negb (Z.land x (Z.shiftl 1 (Z.of_nat i)) =? 0) || arg_all);
      [| now apply IH].
    cbv zeta.
    destruct (w + Z.of_nat (String.length t) + (if w =? 0 then 0 else 2) >? cols)
      eqn:Enl.
    + (* a line break, then the entry alone *)
      change (0 =? 0) with true. cbn iota.
      change ((nl ++ EmptyString ++ t)%string) with (nl ++ t)%string.
      rewrite !string_app_assoc, fits_nl.
      assert (C : (cur <=? Z.to_nat cols)%nat = true) by (apply Nat.leb_le; lia).
      rewrite C. cbn [andb].
      rewrite fits_one_line by exact Hone.
      rewrite string_length_app. cbn [String.length nl Nat.add].
      rewrite Z.mod_small by lia.
      apply IH; lia.
    + rewrite Z.gtb_ltb in Enl. apply Z.ltb_ge in Enl.
      destruct (Z.eqb_spec w 0) as [-> | Hne].
      * (* the first entry of the first line *)
        assert (cur = 0%nat) by lia. subst cur.
        change ((EmptyString ++ EmptyString ++ t)%string) with t.
        rewrite (string_app_assoc t), fits_one_line by exact Hone.
        rewrite Z.mod_small by lia.
        apply IH; lia.
      * (* a separator and the entry on the same line *)
        change ((EmptyString ++ "; " ++ t)%string) with ("; " ++ t)%string.
        assert (O : one_line ("; " ++ t) = true) by (cbn; exact Hone).
        rewrite (string_app_assoc ("; " ++ t)), fits_one_line by exact O.
        rewrite string_length_app. cbn [String.length Nat.add].
        rewrite Z.mod_small by lia.
        apply IH; lia.
Qed.

(** X20.  On a terminal of at least 29 columns, the width of the longest
    entry, no line of the capability legend is longer than the terminal
    is wide, whichever capabilities it lists. *)
Theorem X20_legend_fits_the_terminal cols arg_all x :
  29 <= cols < 2 ^ 32 ->
  fits (Z.to_nat cols) 0 (lldp_capabilities_legend cols arg_all x) = true.
Proof.
  intro Hcols. unfold lldp_capabilities_legend.
  destruct (x =? 0); [reflexivity |].
  rewrite fits_nl. cbn [Nat.leb andb].
  rewrite (fits_one_line _ 0 "Capability Flags:") by reflexivity.
  rewrite fits_nl.
  assert (C : (0 + String.length "Capability Flags:" <=? Z.to_nat cols)%nat
              = true) by (apply Nat.leb_le; cbn; lia).
  rewrite C. cbn [andb].
  apply legend_loop_fits; try lia.
  repeat constructor.
Qed.

Lemma X20_witness :
  fits 40 0 (lldp_capabilities_legend 40 true 5) = true.
Proof.
  apply (X20_legend_fits_the_terminal 40 true 5). lia.
Defined.

(** * Properties of [link_status_one] *)

Lemma extends_refl t : extends t t.
Proof. exists [], 0%nat. now rewrite app_nil_r. Qed.

Lemma extends_trans a b c : extends a b -> extends b c -> extends a c.
Proof.
  intros (c1 & k1 & -> & H1) (c2 & k2 & -> & H2).
  exists (c1 ++ c2), (k1 + k2)%nat. rewrite <- app_assoc, length_app.
  split; [reflexivity | lia].
Qed.

Lemma extends_In a b x : extends a b -> In x a -> In x b.
Proof. intros (c & k & -> & _) H. apply in_or_app. now left. Qed.

Lemma extends_add_row a t key value :
  extends a t -> extends a (table_add_row t key value).
Proof.
  intro H. eapply extends_trans; [exact H |].
  exists [TABLE_EMPTY; TABLE_STRING key; TABLE_STRING value], 1%nat.
  unfold table_add_row, table_add_cell. rewrite <- !app_assoc.
  split; reflexivity.
Qed.

Lemma extends_dump_list a t prefix l :
  extends a t -> extends a (dump_list t prefix l).
Proof.
  intro H. eapply extends_trans; [exact H |]. clear H.
  destruct l as [l |]; [| apply extends_refl]. cbn [dump_list].
  generalize true. revert t.
  induction l as [| s l IH]; intros t first; [apply extends_refl |].
  cbn [dump_list_loop]. eapply extends_trans; [| apply IH].
  exists [TABLE_EMPTY;
          TABLE_STRING (if first then prefix else EmptyString);
          TABLE_STRING s], 1%nat.
  unfold table_add_cell. rewrite <- !app_assoc. split; reflexivity.
Qed.

Lemma extends_dump_ifindexes a t prefix l :
  extends a t -> extends a (dump_ifindexes t prefix l).
Proof.
  intro H. eapply extends_trans; [exact H |]. clear H.
  assert (L : forall l c t, extends t (dump_ifindexes_loop prefix c l t)).
  { clear. induction l as [| x l IH]; intros c t; [apply extends_refl |].
    cbn [dump_ifindexes_loop].
    destruct (x >? 0); [| apply extends_refl].
    eapply extends_trans; [| apply IH].
    exists [TABLE_EMPTY;
            TABLE_STRING (if Nat.eqb c 0 then prefix else EmptyString);
            TABLE_IFINDEX x], 1%nat.
    unfold table_add_cell. rewrite <- !app_assoc. split; reflexivity. }
  destruct l as [[| x l] |]; cbn [dump_ifindexes]; try apply extends_refl.
  destruct (x <=? 0); [apply extends_refl | apply L].
Qed.

Section StatusTable.

Variable local_addresses : sd_netlink -> Z -> res (list local_address.t).
Variable local_gateways : sd_netlink -> Z -> res (list local_address.t).
Variable in_addr_to_string : Z -> in_addr_union -> res string.
Variable if_indextoname : Z -> option string.
Variable sd_lldp_neighbor_from_raw : list byte -> res sd_lldp_neighbor.

Lemma extends_dump_addresses rtnl t ifindex t' :
  dump_addresses local_addresses in_addr_to_string if_indextoname rtnl t
    ifindex = Ok t' ->
  extends t t'.
Proof.
  unfold dump_addresses.
  destruct (local_addresses rtnl ifindex) as [local |]; cbn [bind];
    [| discriminate].
  generalize 0%nat. revert t.
  induction local as [| l local IH]; intros t i H.
  - cbn in H. injection H as <-. apply extends_refl.
  - cbn [dump_addresses_loop] in H.
    destruct (dump_addresses_entry in_addr_to_string if_indextoname ifindex i
                l t) as [t1 |] eqn:E; cbn [bind] in H; [| discriminate].
    eapply extends_trans; [| eapply IH; exact H].
    unfold dump_addresses_entry, table_add_cell in E.
    destruct (in_addr_to_string _ _) as [pretty |]; cbn [bind] in E;
      [| discriminate].
    destruct (ifindex <=? 0); [destruct (if_indextoname _) |];
      injection E as <-; rewrite <- !app_assoc; cbn [app];
      eexists [_; _; _], 1%nat; split; reflexivity.
Qed.

Lemma extends_dump_gateways rtnl hwdb t ifindex t' :
  dump_gateways local_gateways in_addr_to_string if_indextoname rtnl hwdb t
    ifindex = Ok t' ->
  extends t t'.
Proof.
  unfold dump_gateways.
  destruct (local_gateways rtnl ifindex) as [local |]; cbn [bind];
    [| discriminate].
  generalize 0%nat. revert t.
  induction local as [| l local IH]; intros t i H.
  - cbn in H. injection H as <-. apply extends_refl.
  - cbn [dump_gateways_loop] in H.
    destruct (dump_gateways_entry in_addr_to_string if_indextoname rtnl hwdb
                ifindex i l t) as [t1 |] eqn:E; cbn [bind] in H;
      [| discriminate].
    eapply extends_trans; [| eapply IH; exact H].
    unfold dump_gateways_entry, table_add_cell in E.
    destruct (in_addr_to_string _ _) as [gateway |]; cbn [bind] in E;
      [| discriminate].
    destruct (ifindex <=? 0); [destruct (if_indextoname _) |];
      injection E as <-; rewrite <- !app_assoc; cbn [app];
      eexists [_; _; _], 1%nat; split; reflexivity.
Qed.

Lemma extends_dump_lldp_neighbors fs t prefix index :
  extends t
    (snd (dump_lldp_neighbors sd_lldp_neighbor_from_raw fs t prefix index)).
Proof.
  unfold dump_lldp_neighbors.
  destruct (open_lldp_neighbors fs index) as [f | e].
  2:{ destruct (errno_eqb e ENOENT); apply extends_refl. }
  generalize (S (List.length (unread f))) as fuel. generalize 0 as c.
  revert f t.
  intros f t c fuel. revert f t c.
  induction fuel as [| fuel IH]; intros f t c; [apply extends_refl |].
  cbn [dump_lldp_neighbors_loop].
  destruct (next_lldp_neighbor sd_lldp_neighbor_from_raw f)
    as [[[n |] | e] f']; try apply extends_refl.
  eapply extends_trans; [| apply IH].
  unfold table_add_cell. rewrite <- !app_assoc. cbn [app].
  eexists [_; _; _], 1%nat. split; reflexivity.
Qed.

End StatusTable.

Lemma In_add_row t key value :
  In (TABLE_STRING value) (table_add_row t key value).
Proof.
  unfold table_add_row, table_add_cell. apply in_or_app. right. now left.
Qed.

Ltac peel_rows :=
  repeat first
    [ apply extends_refl
    | apply extends_add_row
    | apply extends_dump_list
    | apply extends_dump_ifindexes
    | match goal with
      | |- extends _ (match ?o with _ => _ end) => destruct o
      end ].

Section LinkStatusOneProperties.

Variable sd_network_link_get_operational_state : Z -> res string.
Variable sd_network_link_get_setup_state : Z -> res string.
Variable sd_network_link_get_dns : Z -> res (list string).
Variable sd_network_link_get_search_domains : Z -> res (list string).
Variable sd_network_link_get_route_domains : Z -> res (list string).
Variable sd_network_link_get_ntp : Z -> res (list string).
Variable sd_network_link_get_network_file : Z -> res string.
Variable sd_network_link_get_carrier_bound_to : Z -> res (list Z).
Variable sd_network_link_get_carrier_bound_by : Z -> res (list Z).
Variable sd_network_link_get_timezone : Z -> res string.
Variable sd_device : Type.
Variable sd_device_new_from_device_id : string -> res sd_device.
Variable sd_device_get_property_value : sd_device -> string -> res string.
Variable sd_device_get_devtype : sd_device -> res string.
Variable arphrd_to_name : Z -> option string.
Variable ascii_strlower : string -> string.
Variables ansi_highlight_green ansi_highlight_yellow ansi_highlight_red
  ansi_normal : string.
Variable black_circle : string.
Variable ether_addr_to_string : ether_addr -> string.
Variable local_addresses : sd_netlink -> Z -> res (list local_address.t).
Variable local_gateways : sd_netlink -> Z -> res (list local_address.t).
Variable in_addr_to_string : Z -> in_addr_union -> res string.
Variable if_indextoname : Z -> option string.
Variable sd_lldp_neighbor_from_raw : list byte -> res sd_lldp_neighbor.

Local Abbreviation status_table :=
  (link_status_one_table
     sd_network_link_get_operational_state sd_network_link_get_setup_state
     sd_network_link_get_dns sd_network_link_get_search_domains
     sd_network_link_get_route_domains sd_network_link_get_ntp
     sd_network_link_get_network_file sd_network_link_get_carrier_bound_to
     sd_network_link_get_carrier_bound_by sd_network_link_get_timezone
     sd_device sd_device_new_from_device_id sd_device_get_property_value
     sd_device_get_devtype arphrd_to_name ascii_strlower
     ansi_highlight_green ansi_highlight_yellow ansi_highlight_red ansi_normal
     black_circle ether_addr_to_string local_addresses local_gateways
     in_addr_to_string if_indextoname).

(** The table built before the LLDP step: the header, the title row, and
    whole rows after them, the MTU row among them when the record has an
    MTU. *)
Lemma status_table_rows rtnl hwdb info t :
  status_table rtnl hwdb info = Ok t ->
  extends
    [TABLE_STRING "DOT"; TABLE_STRING "KEY"; TABLE_STRING "VALUE";
     TABLE_STRING black_circle;
     TABLE_STRING (decimal_str (ifindex info) ++ ": " ++ name info);
     TABLE_EMPTY] t /\
  (has_mtu info = true ->
   In (TABLE_STRING (mtu_text (mtu info) (min_mtu info) (max_mtu info))) t) /\
  (has_mac_address info = true ->
   is_ok (ieee_oui hwdb (mac_address info)) = false ->
   In (TABLE_STRING (ether_addr_to_string (mac_address info) ++ "(null)")) t).
Proof.
  unfold link_status_one_table.
  destruct (operational_state_to_color _ _ _ _) as [on_o off_o].
  destruct (setup_state_to_color _ _ _ _ _) as [on_s off_s].
  cbv zeta. intro H.
  destruct (dump_addresses _ _ _ _ _ _) as [t1 |] eqn:E1; cbn [bind] in H;
    [| discriminate].
  destruct (dump_gateways _ _ _ _ _ _ _) as [t2 |] eqn:E2; cbn [bind] in H;
    [| discriminate].
  injection H as <-.
  apply extends_dump_addresses in E1. apply extends_dump_gateways in E2.
  assert (E12 := extends_trans _ _ _ E1 E2).
  split; [| split].
  - eapply extends_trans; [| eapply extends_trans; [exact E12 |]].
    + peel_rows.
    + peel_rows.
  - intro Hmtu.
    eapply extends_In; [eapply extends_trans; [exact E12 |]; peel_rows |].
    rewrite Hmtu.
    match goal with
    | |- In _ (if ?b then _ else _) => destruct b
    end.
    + eapply extends_In; [apply extends_add_row, extends_refl |].
      apply In_add_row.
    + apply In_add_row.
  - intros Hmac Hmiss.
    eapply extends_In; [eapply extends_trans; [exact E12 |]; peel_rows |].
    rewrite Hmac.
    do 2 match goal with
         | |- In _ (if ?b then _ else _) =>
             destruct b;
             [eapply extends_In; [apply extends_add_row, extends_refl |] |]
         end.
    all: destruct (ieee_oui hwdb (mac_address info)); [discriminate |];
      apply In_add_row.
Qed.

(** X21.  Every table that [link_status_one] prints is made of whole rows:
    after the three header cells and the title row of the link, the
    cells come in threes, whatever networkd, udev, the kernel and the
    store file supplied. *)
Theorem X21_status_table_has_whole_rows rtnl hwdb fs info table :
  link_status_one sd_lldp_neighbor_from_raw (status_table rtnl hwdb) fs info
    = Ok table ->
  exists cells k,
    table =
      [TABLE_STRING "DOT"; TABLE_STRING "KEY"; TABLE_STRING "VALUE";
       TABLE_STRING black_circle;
       TABLE_STRING (decimal_str (ifindex info) ++ ": " ++ name info);
       TABLE_EMPTY] ++ cells /\
    List.length cells = (3 * k)%nat.
Proof.
  unfold link_status_one.
  destruct (status_table rtnl hwdb info) as [t |] eqn:E; cbn [bind];
    [| discriminate].
  pose proof (extends_dump_lldp_neighbors sd_lldp_neighbor_from_raw fs t
                "Connected To:" (ifindex info)) as L.
  destruct (dump_lldp_neighbors _ _ _ _ _) as [r t'].
  destruct r; cbn [bind]; [| discriminate].
  intro H. injection H as <-. cbn [snd] in L.
  apply status_table_rows in E. destruct E as (E & _ & _).
  exact (extends_trans _ _ _ E L).
Qed.

(** X22.  Leftover memory reaches the MTU row: for a link decoded from a
    message with a positive MTU and neither [IFLA_MIN_MTU] nor
    [IFLA_MAX_MTU], the table that [link_status_one] prints holds the row
    text with that MTU and, as minimum and maximum, what the array slot
    held before the message was decoded into it. *)
Theorem X22_mtu_row_shows_leftovers fnmatch m slot patterns info v e1 e2
    rtnl hwdb fs table :
  decode_link fnmatch m slot patterns = Ok (Some info) ->
  sd_netlink_message_read_u32 m IFLA_MTU = Ok v -> v > 0 ->
  sd_netlink_message_read_u32 m IFLA_MIN_MTU = Err e1 ->
  sd_netlink_message_read_u32 m IFLA_MAX_MTU = Err e2 ->
  link_status_one sd_lldp_neighbor_from_raw (status_table rtnl hwdb) fs info
    = Ok table ->
  In (TABLE_STRING (mtu_text v (min_mtu slot) (max_mtu slot))) table.
Proof.
  intros Hd Hv Hpos Hmin Hmax.
  apply decode_link_some in Hd.
  destruct Hd as (index & ifname & type & _ & _ & _ & _ & _ & Hinfo).
  assert (Hm : has_mtu info = true /\ mtu info = v /\
               min_mtu info = min_mtu slot /\ max_mtu info = max_mtu slot).
  { subst info. unfold decoded. cbn [has_mtu mtu min_mtu max_mtu].
    rewrite Hv, Hmin, Hmax. cbn [is_ok read_into andb].
    assert (G : (v >? 0) = true) by (apply Z.gtb_gt; exact Hpos).
    rewrite G. repeat split. }
  destruct Hm as (Hhas & Hmtu & Hmn & Hmx).
  unfold link_status_one.
  destruct (status_table rtnl hwdb info) as [t |] eqn:E; cbn [bind];
    [| discriminate].
  pose proof (extends_dump_lldp_neighbors sd_lldp_neighbor_from_raw fs t
                "Connected To:" (ifindex info)) as L.
  destruct (dump_lldp_neighbors _ _ _ _ _) as [r t'].
  destruct r; cbn [bind]; [| discriminate].
  intro H. injection H as <-. cbn [snd] in L.
  apply status_table_rows in E. destruct E as (_ & E & _).
  apply (extends_In _ _ _ L). rewrite <- Hmtu, <- Hmn, <- Hmx.
  now apply E.
Qed.

(** X23.  For a link with a hardware address whose vendor lookup fails,
    the HW Address row that [link_status_one] prints is the address
    followed at once by the text that [printf] puts for the NULL
    description it is handed. *)
Theorem X23_hw_address_row_without_vendor rtnl hwdb fs info table :
  has_mac_address info = true ->
  is_ok (ieee_oui hwdb (mac_address info)) = false ->
  link_status_one sd_lldp_neighbor_from_raw (status_table rtnl hwdb) fs info
    = Ok table ->
  In (TABLE_STRING (ether_addr_to_string (mac_address info) ++ "(null)"))
    table.
Proof.
  intros Hmac Hmiss. unfold link_status_one.
  destruct (status_table rtnl hwdb info) as [t |] eqn:E; cbn [bind];
    [| discriminate].
  pose proof (extends_dump_lldp_neighbors sd_lldp_neighbor_from_raw fs t
                "Connected To:" (ifindex info)) as L.
  destruct (dump_lldp_neighbors _ _ _ _ _) as [r t'].
  destruct r; cbn [bind]; [| discriminate].
  intro H. injection H as <-. cbn [snd] in L.
  apply status_table_rows in E. destruct E as (_ & _ & E).
  apply (extends_In _ _ _ L). now apply E.
Qed.

End LinkStatusOneProperties.

Lemma X21_witness :
  exists table,
    link_status_one neighbor_of_raw
      (quiet_status_table (netlink_replying []) None) lldp_files
      (link_named 6 "eth6") = Ok table /\
    exists cells k,
      table =
        [TABLE_STRING "DOT"; TABLE_STRING "KEY"; TABLE_STRING "VALUE";
         TABLE_STRING "*"; TABLE_STRING "6: eth6"; TABLE_EMPTY] ++ cells /\
      List.length cells = (3 * k)%nat.
Proof.
  eexists. split; [vm_compute; reflexivity |].
  apply (X21_status_table_has_whole_rows nothing_known nothing_known
           nothing_known nothing_known nothing_known nothing_known
           nothing_known nothing_known nothing_known nothing_known unit
           no_device (fun _ _ => Err ENOENT) (fun _ => Err ENOENT)
           (fun _ => None) (fun s => s)
           EmptyString EmptyString EmptyString EmptyString "*"
           ether_addr_format
           no_addresses no_addresses show_192_0_2_1 only_eth1
           neighbor_of_raw (netlink_replying []) None lldp_files
           (link_named 6 "eth6")).
  vm_compute. reflexivity.
Defined.

Lemma X22_witness :
  decode_link fnmatch_literal mtu_only_message stale_slot None =
    Ok (Some mtu_only_record) /\
  exists table,
    link_status_one neighbor_of_raw
      (quiet_status_table (netlink_replying []) None) lldp_files
      mtu_only_record = Ok table /\
    In (TABLE_STRING "1500 (Minimum: 77, Maximum: 77)") table.
Proof.
  split; [reflexivity |].
  eexists. split; [vm_compute; reflexivity |].
  apply (X22_mtu_row_shows_leftovers nothing_known nothing_known
           nothing_known nothing_known nothing_known nothing_known
           nothing_known nothing_known nothing_known nothing_known unit
           no_device (fun _ _ => Err ENOENT) (fun _ => Err ENOENT)
           (fun _ => None) (fun s => s)
           EmptyString EmptyString EmptyString EmptyString "*"
           ether_addr_format
           no_addresses no_addresses show_192_0_2_1 only_eth1
           neighbor_of_raw fnmatch_literal mtu_only_message stale_slot None
           mtu_only_record 1500 ENODATA ENODATA
           (netlink_replying []) None lldp_files).
  - reflexivity.
  - reflexivity.
  - lia.
  - reflexivity.
  - reflexivity.
  - vm_compute. reflexivity.
Defined.

Lemma X23_witness :
  is_ok (ieee_oui None (mac_address stale_slot)) = false /\
  exists table,
    link_status_one neighbor_of_raw
      (quiet_status_table (netlink_replying []) None) lldp_files stale_slot
      = Ok table /\
    In (TABLE_STRING "070707070707(null)") table.
Proof.
  split; [reflexivity |].
  eexists. split; [vm_compute; reflexivity |].
  apply (X23_hw_address_row_without_vendor nothing_known nothing_known
           nothing_known nothing_known nothing_known nothing_known
           nothing_known nothing_known nothing_known nothing_known unit
           no_device (fun _ _ => Err ENOENT) (fun _ => Err ENOENT)
           (fun _ => None) (fun s => s)
           EmptyString EmptyString EmptyString EmptyString "*"
           ether_addr_format
           no_addresses no_addresses show_192_0_2_1 only_eth1
           neighbor_of_raw (netlink_replying []) None lldp_files stale_slot).
  - reflexivity.
  - reflexivity.
  - vm_compute. reflexivity.
Defined.
